(** * Inspection pipeline: establishment histories, hygiene index, zip panels

    A shallow embedding of the transformation code of the repository
    ([data/cleaning.py], [data/src/features.py], [data/src/aggregate.py])
    together with the properties its specification states about it.

    pandas objects are modelled as follows.
    - A cell is a value of one of the dtypes the pipeline meets; a missing
      value is [NA] (None, NaN in an object column, NaT) or the float NaN.
    - A [DataFrame] is the ordered list of its column labels and the list of
      its rows, a row mapping labels to cells.
    - float64 is Rocq's binary64 ([PrimFloat]); datetime64[ns] is the integer
      number of nanoseconds since the epoch.
    - Frames are Python objects: they live in a store and a variable holds a
      location.  [df.copy()] allocates, [df[c] = s] writes in place. *)

From Stdlib Require Import ZArith String Ascii List PrimFloat Uint63 Lia.
From Stdlib Require Import Permutation Sorted.
From Stdlib Require Import FloatOps FloatAxioms SpecFloat.
From stdpp Require Import gmap strings list sorting.

Local Open Scope string_scope.
Local Open Scope Z_scope.

(** ** Cells, rows and frames *)

Module Pandas.

(** shapely geometries, as far as the pipeline builds them: the point of a
    record and a rectangular zip area. *)
Inductive Geometry :=
| Point (x y : float)
| Box (minx miny maxx maxy : float).

Inductive Cell :=
| NA
| Str (s : string)
| Float (x : float)
| Int (n : Z)
| Bool (b : bool)
| Date (t : Z)
| Geom (g : Geometry).

(** [Series.isna]: None, NaT and the float NaN are missing. *)
Definition isna (c : Cell) : bool :=
  match c with
  | NA => true
  | Float x => PrimFloat.is_nan x
  | _ => false
  end.

Definition notna (c : Cell) : bool := negb (isna c).

Abbreviation Row := (gmap string Cell).

Record DataFrame := mkDF { columns : list string; rows : list Row }.

Definition cell (r : Row) (c : string) : Cell := default NA (r !! c).

Definition has_column (df : DataFrame) (c : string) : bool :=
  bool_decide (c ∈ columns df).

(** The values of column [c], in row order. *)
Definition column (df : DataFrame) (c : string) : list Cell :=
  map (λ r, cell r c) (rows df).

Inductive error :=
| KeyError (c : string)
| TypeError (c : string)
| RuntimeError (msg : string).

Inductive result (A : Type) :=
| Ok (a : A)
| Err (e : error).
Arguments Ok {A} a.
Arguments Err {A} e.

Definition rbind {A B} (x : result A) (f : A → result B) : result B :=
  match x with Ok a => f a | Err e => Err e end.

(** [df[c]] *)
Definition getitem (df : DataFrame) (c : string) : result (list Cell) :=
  if has_column df c then Ok (column df c) else Err (KeyError c).

Fixpoint first_missing (df : DataFrame) (cs : list string) : option string :=
  match cs with
  | [] => None
  | c :: cs' => if has_column df c then first_missing df cs' else Some c
  end.

(** [df[cols]]: the listed columns, in the listed order. *)
Definition getitem_columns (df : DataFrame) (cols : list string) : result DataFrame :=
  match first_missing df cols with
  | Some c => Err (KeyError c)
  | None =>
      Ok (mkDF cols (map (λ r : Row, filter (λ kv, kv.1 ∈ cols) r) (rows df)))
  end.

(** [df[c] = values]: an existing column is replaced where it stands, a new
    one is appended. *)
Definition setitem (df : DataFrame) (c : string) (values : list Cell) : DataFrame :=
  mkDF (if has_column df c then columns df else columns df ++ [c])
       (zip_with (λ (r : Row) v, <[c := v]> r) (rows df) values).

(** ** Sorting and grouping keys

    Grouping and sorting keys are read with their dtype: an identifier
    column holds str, a date column datetime64[ns], as the Normalizer
    leaves them.  [key_dtype_ok] is the check that a frame's key columns
    have that dtype; key columns of another dtype are outside this model,
    which then stops with [TypeError]. *)

Definition str_of (c : Cell) : option string :=
  match c with Str s => Some s | _ => None end.

Definition date_of (c : Cell) : option Z :=
  match c with Date t => Some t | _ => None end.

Definition is_str_or_na (c : Cell) : bool :=
  match c with Str _ | NA => true | _ => false end.

Definition is_date_or_na (c : Cell) : bool :=
  match c with Date _ | NA => true | _ => false end.

(** Comparison of two optional values, missing values last
    ([na_position="last"]). *)
Definition opt_compare {A} (cmp : A → A → comparison) (x y : option A) : comparison :=
  match x, y with
  | Some a, Some b => cmp a b
  | Some _, None => Lt
  | None, Some _ => Gt
  | None, None => Eq
  end.

Definition lex (c1 c2 : comparison) : comparison :=
  match c1 with Eq => c2 | _ => c1 end.

Section Sorting.
Context {A : Type} (leb : A → A → bool).

(** Stable insertion: [x] stood before every element of [l] and stays
    before those it is equal to. *)
Fixpoint insert_sorted (x : A) (l : list A) : list A :=
  match l with
  | [] => [x]
  | y :: l' => if leb x y then x :: y :: l' else y :: insert_sorted x l'
  end.

Definition stable_sort (l : list A) : list A := foldr insert_sorted [] l.
End Sorting.

(** Keys of a two-level grouping: a str column and a datetime column. *)
Abbreviation Key := (string * Z)%type.

Definition key_compare (k1 k2 : Key) : comparison :=
  lex (String.compare k1.1 k2.1) (Z.compare k1.2 k2.2).

(** Insertion into the sorted list of distinct group keys. *)
Fixpoint key_insert (k : Key) (ks : list Key) : list Key :=
  match ks with
  | [] => [k]
  | k' :: ks' =>
      match key_compare k k' with
      | Lt => k :: k' :: ks'
      | Eq => k' :: ks'
      | Gt => k' :: key_insert k ks'
      end
  end.

Definition sorted_keys (ks : list Key) : list Key := foldr key_insert [] ks.

Definition key_lt (k1 k2 : Key) : Prop := key_compare k1 k2 = Lt.

Section Grouping.
Context (c1 c2 : string).

(** The group key of a row; [None] when either key cell is missing: such
    rows belong to no group ([groupby] has [dropna=True]). *)
Definition key_of (r : Row) : option Key :=
  match str_of (cell r c1), date_of (cell r c2) with
  | Some s, Some t => Some (s, t)
  | _, _ => None
  end.

(** The groups of [groupby([c1, c2])], keys ascending ([sort=True]). *)
Definition group_keys (rs : list Row) : list Key :=
  sorted_keys (omap key_of rs).

(** The rows of one group, in frame order. *)
Definition group_rows (rs : list Row) (k : Key) : list Row :=
  List.filter (λ r, bool_decide (key_of r = Some k)) rs.

(** [sort_values([c1, c2])] compares the first column, then the second. *)
Definition row_compare (r1 r2 : Row) : comparison :=
  lex (opt_compare String.compare (str_of (cell r1 c1)) (str_of (cell r2 c1)))
      (opt_compare Z.compare (date_of (cell r1 c2)) (date_of (cell r2 c2))).

Definition row_leb (r1 r2 : Row) : bool :=
  match row_compare r1 r2 with Gt => false | _ => true end.

Definition key_dtype_ok (df : DataFrame) : bool :=
  forallb is_str_or_na (column df c1) && forallb is_date_or_na (column df c2).

(** [df.sort_values([c1, c2])]: a new frame, rows reordered by a stable
    sort, missing keys last. *)
Definition sort_values (df : DataFrame) : result DataFrame :=
  match first_missing df [c1; c2] with
  | Some c => Err (KeyError c)
  | None =>
      if key_dtype_ok df
      then Ok (mkDF (columns df) (stable_sort row_leb (rows df)))
      else Err (TypeError "sort key")
  end.
End Grouping.

(** Aggregations over the cells of one group. *)

(** ["count"]: the number of non-missing values. *)
Definition agg_count (cs : list Cell) : Z :=
  Z.of_nat (length (List.filter notna cs)).

(** ["first"]: the first non-missing value. *)
Definition agg_first (cs : list Cell) : Cell :=
  match List.filter notna cs with
  | c :: _ => c
  | [] => NA
  end.

(** ["sum"] over a bool (or integer) column; missing values are skipped. *)
Definition agg_sum (cs : list Cell) : Z :=
  foldr (λ c acc, match c with
                  | Bool true => 1 + acc
                  | Int n => n + acc
                  | _ => acc
                  end) 0 cs.

(** ** The object store *)

Abbreviation loc := nat.
Abbreviation Store := (gmap nat DataFrame).

(** A computation reads and writes the store and may raise. *)
Definition M (A : Type) : Type := Store → result A * Store.

Global Instance M_ret : MRet M := λ A a st, (Ok a, st).

Global Instance M_bind : MBind M := λ A B f m st,
  match m st with
  | (Ok a, st') => f a st'
  | (Err e, st') => (Err e, st')
  end.

Definition raise {A} (e : error) : M A := λ st, (Err e, st).

Definition lift {A} (x : result A) : M A := λ st, (x, st).

(** A new object. *)
Definition new (df : DataFrame) : M loc :=
  λ st, let l := fresh (dom st) in (Ok l, <[l := df]> st).

(** The frame a variable refers to. *)
Definition deref (l : loc) : M DataFrame :=
  λ st, match st !! l with
        | Some df => (Ok df, st)
        | None => (Err (RuntimeError "dangling reference"), st)
        end.

(** In-place update of the object at [l]. *)
Definition update (l : loc) (f : DataFrame → DataFrame) : M unit :=
  λ st, match st !! l with
        | Some df => (Ok tt, <[l := f df]> st)
        | None => (Err (RuntimeError "dangling reference"), st)
        end.

(** [m], run in [st], ends in a result and a store that satisfy [Q]. *)
Definition wp {A} (m : M A) (st : Store) (Q : result A → Store → Prop) : Prop :=
  Q (m st).1 (m st).2.

(** [cur] still holds every object of [st], unchanged. *)
Definition keeps (st cur : Store) : Prop :=
  ∀ l d, st !! l = Some d → cur !! l = Some d.

(** ** Relations between rows and between frames *)

(** Two rows with the same cells in the columns [cs]. *)
Definition agree (cs : list string) (r r' : Row) : Prop :=
  ∀ c, c ∈ cs → cell r c = cell r' c.

(** [out] has the rows of [df], in order, with cells changed only in the
    columns [cs], and the columns of [df] followed by new ones from [cs]. *)
Definition extends_by (cs : list string) (df out : DataFrame) : Prop :=
  Forall2 (λ r v : Row, ∀ c, c ∉ cs → v !! c = r !! c) (rows df) (rows out) ∧
  ∃ extra, columns out = (columns df ++ extra)%list ∧ ∀ c, c ∈ extra → c ∈ cs.

End Pandas.

Import Pandas.

(** ** [data/src/features.py] *)

Module Features.

Definition camis_col : string := "camis".
Definition date_col : string := "inspection_date".

Definition required_cols : list string :=
  [camis_col; date_col; "score"; "grade"; "violation_code";
   "violation_description"; "is_critical_description"; "action"].

Definition NANOS_PER_DAY : Z := 86400000000000.

(** [groupby(camis_col).cumcount()] over the identifier column: the number
    of earlier rows of the same establishment; rows with a missing
    identifier are in no group and get a missing value. *)
Fixpoint cumcount_from (seen : gmap string Z) (ids : list Cell) : list Cell :=
  match ids with
  | [] => []
  | c :: ids' =>
      match str_of c with
      | Some s =>
          let n := default 0 (seen !! s) in
          Int n :: cumcount_from (<[s := n + 1]> seen) ids'
      | None => NA :: cumcount_from seen ids'
      end
  end.

Definition cumcount (ids : list Cell) : list Cell := cumcount_from ∅ ids.

(** [series + 1] *)
Definition add_one (c : Cell) : Cell :=
  match c with
  | Int n => Int (n + 1)
  | _ => NA
  end.

(** [groupby(camis_col)[date_col].shift(1)]: the date of the previous row
    of the same establishment. *)
Fixpoint shift_from (last : gmap string Cell) (ids dates : list Cell) : list Cell :=
  match ids, dates with
  | c :: ids', d :: dates' =>
      match str_of c with
      | Some s => default NA (last !! s) :: shift_from (<[s := d]> last) ids' dates'
      | None => NA :: shift_from last ids' dates'
      end
  | _, _ => []
  end.

Definition shift (ids dates : list Cell) : list Cell := shift_from ∅ ids dates.

(** [(pd.to_datetime(a) - pd.to_datetime(b)).dt.days]: the whole days of
    the difference (rounded down), missing when either side is missing. *)
Definition days_between (a b : Cell) : Cell :=
  match date_of a, date_of b with
  | Some t, Some p => Int ((t - p) `div` NANOS_PER_DAY)
  | _, _ => NA
  end.

(** One row of [groupby([camis_col, date_col]).agg(...).reset_index()];
    [vcol] is the column whose non-missing values are counted. *)
Definition agg_row (vcol : string) (rs : list Row) (k : Key) : Row :=
  let g := group_rows camis_col date_col rs k in
  let col c := map (λ r, cell r c) g in
  list_to_map
    [(camis_col, Str k.1);
     (date_col, Date k.2);
     ("violation_count", Int (agg_count (col vcol)));
     ("critical_violations", Int (agg_sum (col "is_critical_description")));
     ("score", agg_first (col "score"));
     ("grade", agg_first (col "grade"));
     ("action", agg_first (col "action"))].

Definition agg_columns : list string :=
  [camis_col; date_col; "violation_count"; "critical_violations";
   "score"; "grade"; "action"].

Definition groupby_agg (df : DataFrame) (vcol : string) : result DataFrame :=
  match first_missing df [camis_col; date_col; vcol; "is_critical_description";
                          "score"; "grade"; "action"] with
  | Some c => Err (KeyError c)
  | None =>
      if key_dtype_ok camis_col date_col df
      then Ok (mkDF agg_columns
                 (map (agg_row vcol (rows df))
                      (group_keys camis_col date_col (rows df))))
      else Err (TypeError "group key")
  end.

(** Method calls on frame objects: each reads its receiver in the store and
    allocates the frame it returns. *)

(** [df.copy()] *)
Definition copy (df : loc) : M loc := d ← deref df; new d.

(** [df[cols]] *)
Definition select (df : loc) (cols : list string) : M loc :=
  d ← deref df; d' ← lift (getitem_columns d cols); new d'.

Definition call (f : DataFrame → result DataFrame) (df : loc) : M loc :=
  d ← deref df; d' ← lift (f d); new d'.

(** [df[c]] as a Series *)
Definition series (df : loc) (c : string) : M (list Cell) :=
  d ← deref df; lift (getitem d c).

(** [df[c] = values], in place. *)
Definition assign (df : loc) (c : string) (values : list Cell) : M unit :=
  update df (λ d, setitem d c values).

(** The three assignments that number a frame's rows per establishment and
    attach the lag to the previous row; executed on [df_sub] and on [agg]. *)
Definition set_timing (df : loc) : M unit :=
  ids ← series df camis_col;
  assign df "inspection_number" (add_one <$> cumcount ids);;
  ids ← series df camis_col;
  dates ← series df date_col;
  assign df "prev_inspection_date" (shift ids dates);;
  dates ← series df date_col;
  prevs ← series df "prev_inspection_date";
  assign df "days_since_prev" (zip_with days_between dates prevs).

(** [build_establishment_history(df)], with the default column names. *)
Definition build_establishment_history (df : loc) : M loc :=
  df ← copy df;
  d ← deref df;
  let existing := List.filter (has_column d) required_cols in
  let others :=
    List.filter (λ c, negb (bool_decide (c ∈ existing))) (columns d) in
  df_sub ← select df (existing ++ others);
  df_sub ← copy df_sub;
  df_sub ← call (sort_values camis_col date_col) df_sub;
  set_timing df_sub;;
  d_sub ← deref df_sub;
  agg ← (if has_column d_sub "violation_code"
         then call (λ d, groupby_agg d "violation_code") df_sub
         else call (λ d, groupby_agg d "violation_description") df_sub);
  agg ← call (sort_values camis_col date_col) agg;
  set_timing agg;;
  mret agg.

(** Running a function of one frame argument on [df] as the only object of
    the store, and reading the frame it returns. *)
Definition run_on (f : loc → M loc) (df : DataFrame) : result DataFrame :=
  match f 0%nat {[ 0%nat := df ]} with
  | (Ok l, st) =>
      match st !! l with
      | Some out => Ok out
      | None => Err (RuntimeError "dangling reference")
      end
  | (Err e, _) => Err e
  end.

Definition history (df : DataFrame) : result DataFrame :=
  run_on build_establishment_history df.

(** The builder as a function of frame values: what the statements above
    compute, without the store ([history_run] below). *)

Definition timed (d : DataFrame) : DataFrame :=
  let d := setitem d "inspection_number"
             (add_one <$> cumcount (column d camis_col)) in
  let d := setitem d "prev_inspection_date"
             (shift (column d camis_col) (column d date_col)) in
  setitem d "days_since_prev"
    (zip_with days_between (column d date_col) (column d "prev_inspection_date")).

Definition reordered (d : DataFrame) : list string :=
  let existing := List.filter (has_column d) required_cols in
  existing ++ List.filter (λ c, negb (bool_decide (c ∈ existing))) (columns d).

Definition count_column (d : DataFrame) : string :=
  if has_column d "violation_code" then "violation_code"
  else "violation_description".

Definition history_frames (df : DataFrame) : result DataFrame :=
  rbind (getitem_columns df (reordered df)) (λ d_sub,
  rbind (sort_values camis_col date_col d_sub) (λ d_sub,
  let d_sub := timed d_sub in
  rbind (groupby_agg d_sub (count_column d_sub)) (λ agg,
  rbind (sort_values camis_col date_col agg) (λ agg,
  Ok (timed agg))))).

(** The frame [df[existing + others]]: every column, reordered. *)
Definition selected (df : DataFrame) : DataFrame :=
  mkDF (reordered df)
       (map (λ r : Row, filter (λ kv, kv.1 ∈ reordered df) r) (rows df)).

(** The columns [groupby(...).agg(...)] reads. *)
Definition agg_inputs (vcol : string) : list string :=
  [camis_col; date_col; vcol; "is_critical_description"; "score"; "grade";
   "action"].

Definition timing_cols : list string :=
  ["inspection_number"; "prev_inspection_date"; "days_since_prev"].

Abbreviation by_key := (row_leb camis_col date_col).

(** The builder succeeds exactly on frames that have the columns it reads
    and str / datetime keys. *)
Definition history_ok (df : DataFrame) : bool :=
  forallb (has_column df) (agg_inputs (count_column df))
  && key_dtype_ok camis_col date_col df.

(** The rows of the grouped frame, before the timing columns. *)
Definition visits (df : DataFrame) : list Row :=
  map (agg_row (count_column df) (stable_sort by_key (rows df)))
      (group_keys camis_col date_col (rows df)).

Definition history_value (df : DataFrame) : DataFrame :=
  timed (mkDF agg_columns (visits df)).

(** The key columns of the grouped frame. *)
Definition ids_of (ks : list Key) : list Cell := map (λ k : Key, Str k.1) ks.
Definition dates_of (ks : list Key) : list Cell := map (λ k : Key, Date k.2) ks.

(** The rows of one establishment, and their cells column by column. *)
Definition of_establishment (e : string) (v : Row) : bool :=
  bool_decide (str_of (cell v camis_col) = Some e).

Fixpoint pick (e : string) (ids xs : list Cell) : list Cell :=
  match ids, xs with
  | i :: ids', x :: xs' =>
      if bool_decide (str_of i = Some e) then x :: pick e ids' xs'
      else pick e ids' xs'
  | _, _ => []
  end.

Fixpoint ints_from (s : Z) (n : nat) : list Cell :=
  match n with
  | O => []
  | S n' => Int s :: ints_from (s + 1) n'
  end.

(** The dates of one establishment among the group keys. *)
Definition dates_in (e : string) (ks : list Key) : list Z :=
  map snd (List.filter (λ k : Key, bool_decide (k.1 = e)) ks).

(** The specification's rule for violation_count, on the rows of one
    group. *)
Definition spec_violation_count (group : list Row) : Z :=
  if existsb (λ r, notna (cell r "violation_code")) group
  then Z.of_nat (length group)
  else Z.of_nat (length (List.filter (λ r, notna (cell r "violation_description"))
                                     group)).
End Features.

(** ** float64 Series (used by the hygiene index and the aggregates) *)

Module Series.

Local Open Scope float_scope.

(** int64 to float64; exact for magnitudes below 2^53. *)
Definition float_of_Z (n : Z) : float :=
  if (n <? 0)%Z
  then - PrimFloat.of_uint63 (Uint63.of_Z (- n))
  else PrimFloat.of_uint63 (Uint63.of_Z n).

(** The float64 view of a numeric cell; missing values are NaN.  An int64
    column is read as float64 at once (pandas converts at the division),
    which gives the same values for counts below 2^53. *)
Definition to_float (c : Cell) : option float :=
  match c with
  | Float x => Some x
  | Int n => Some (float_of_Z n)
  | Bool b => Some (if b then 1 else 0)
  | NA => Some nan
  | Str _ | Date _ | Geom _ => None
  end.

Fixpoint to_floats (c : string) (cs : list Cell) : result (list float) :=
  match cs with
  | [] => Ok []
  | x :: cs' =>
      match to_float x with
      | Some v => rbind (to_floats c cs') (λ vs, Ok (v :: vs))
      | None => Err (TypeError c)
      end
  end.

Definition is_bool (c : Cell) : bool :=
  match c with Bool _ => true | _ => false end.

(** [df[c]] as the operand of float64 arithmetic.  A column that holds
    bools is refused: pandas averages such a column but raises TypeError
    when it is subtracted (numpy has no boolean subtract). *)
Definition float_column (df : DataFrame) (c : string) : result (list float) :=
  rbind (getitem df c) (λ cs,
    if existsb is_bool cs then Err (TypeError c) else to_floats c cs).

Definition valid (s : list float) : list float :=
  List.filter (λ x, negb (PrimFloat.is_nan x)) s.

(** [s.fillna(v)] *)
Definition fillna (v : float) (s : list float) : list float :=
  map (λ x, if PrimFloat.is_nan x then v else x) s.

(** [s.min()], [s.max()]: NaN is skipped; NaN when nothing is left. *)
Definition min (s : list float) : float :=
  match valid s with
  | [] => nan
  | x :: xs => fold_left (λ m y, if y <? m then y else m) xs x
  end.

Definition max (s : list float) : float :=
  match valid s with
  | [] => nan
  | x :: xs => fold_left (λ m y, if m <? y then y else m) xs x
  end.

(** [s.sum()], [s.mean()] over the values that are not NaN. *)
Definition sum (s : list float) : float :=
  fold_left (λ acc x, acc + x) (valid s) 0.

Definition mean (s : list float) : float :=
  match valid s with
  | [] => nan
  | _ => sum s / float_of_Z (Z.of_nat (length (valid s)))
  end.

(** [s.median()]: the middle of the sorted values that are not NaN, the
    mean of the two middle ones when their number is even. *)
Definition median (s : list float) : float :=
  let v := stable_sort PrimFloat.leb (valid s) in
  let n := length v in
  match n with
  | O => nan
  | _ =>
      if Nat.even n
      then (nth (n / 2 - 1) v nan + nth (n / 2) v nan) / 2
      else nth (n / 2) v nan
  end.

Definition EPS : float := 0x1.12e0be826d695p-30.  (* 1e-9 *)

(** [(s - s.min()) / (s.max() - s.min() + 1e-9)] *)
Definition minmax (s : list float) : list float :=
  map (λ x, (x - min s) / (max s - min s + EPS)) s.

End Series.

Module Hygiene.

Import Features.
Local Open Scope float_scope.

Definition WEIGHT_SCORE : float := 0x1.999999999999ap-2.            (* 0.4 *)
Definition WEIGHT_CRITICAL : float := 0.5.
Definition WEIGHT_VIOLATION_COUNT : float := 0x1.999999999999ap-4.  (* 0.1 *)

Definition float_series (df : loc) (c : string) : M (list float) :=
  d ← deref df; lift (Series.float_column d c).

Fixpoint weighted (ws wc wv : float) (s cv vc : list float) : list float :=
  match s, cv, vc with
  | x :: s', y :: cv', z :: vc' =>
      (ws * x + wc * y + wv * z) :: weighted ws wc wv s' cv' vc'
  | _, _, _ => []
  end.

(** [compute_hygiene_index(df, weight_score, weight_critical,
    weight_violation_count)] *)
Definition compute_hygiene_index_with
    (weight_score weight_critical weight_violation_count : float)
    (df : loc) : M loc :=
  df ← copy df;
  score ← float_series df "score";
  assign df "score_filled"
    (Float <$> Series.fillna (Series.median score) score);;
  s ← float_series df "score_filled";
  let s_scaled := Series.minmax s in
  cv ← float_series df "critical_violations";
  let cv := Series.fillna 0 cv in
  let cv_scaled := Series.minmax cv in
  vc ← float_series df "violation_count";
  let vc := Series.fillna 0 vc in
  let vc_scaled := Series.minmax vc in
  assign df "hygiene_index_raw"
    (Float <$> weighted weight_score weight_critical weight_violation_count
                 s_scaled cv_scaled vc_scaled);;
  raw ← float_series df "hygiene_index_raw";
  assign df "hygiene_index"
    (Float <$> map (λ x, 100 * (x - Series.min raw)
                         / (Series.max raw - Series.min raw + Series.EPS)) raw);;
  mret df.

(** The call with the default weights. *)
Definition compute_hygiene_index : loc → M loc :=
  compute_hygiene_index_with WEIGHT_SCORE WEIGHT_CRITICAL WEIGHT_VIOLATION_COUNT.

Definition hygiene (df : DataFrame) : result DataFrame :=
  run_on compute_hygiene_index df.

(** The calculator as a function of frame values. *)
Definition hygiene_frames (ws wc wv : float) (df : DataFrame) : result DataFrame :=
  rbind (Series.float_column df "score") (λ score,
  let d1 := setitem df "score_filled"
              (Float <$> Series.fillna (Series.median score) score) in
  rbind (Series.float_column d1 "score_filled") (λ s,
  rbind (Series.float_column d1 "critical_violations") (λ cv,
  rbind (Series.float_column d1 "violation_count") (λ vc,
  let d2 := setitem d1 "hygiene_index_raw"
              (Float <$> weighted ws wc wv (Series.minmax s)
                           (Series.minmax (Series.fillna 0 cv))
                           (Series.minmax (Series.fillna 0 vc))) in
  rbind (Series.float_column d2 "hygiene_index_raw") (λ raw,
  Ok (setitem d2 "hygiene_index"
        (Float <$> map (λ x, 100 * (x - Series.min raw)
                             / (Series.max raw - Series.min raw + Series.EPS))%float
                       raw))))))).

Definition index_cols : list string :=
  ["score_filled"; "hygiene_index_raw"; "hygiene_index"].

End Hygiene.

(** ** [data/src/aggregate.py] *)

Module Aggregate.

Import Features.

(** Periods of [dt.to_period(time_freq).dt.to_timestamp()]: the start of
    the calendar month (["M"], the default) and of the day (["D"]). *)
Definition day_start (t : Z) : Z := (t `div` NANOS_PER_DAY) * NANOS_PER_DAY.

Definition month_start (t : Z) : Z :=
  let z := t `div` NANOS_PER_DAY in
  let z' := z + 719468 in
  let era := z' `div` 146097 in
  let doe := z' - era * 146097 in
  let yoe := (doe - doe `div` 1460 + doe `div` 36524 - doe `div` 146096) `div` 365 in
  let doy := doe - (365 * yoe + yoe `div` 4 - yoe `div` 100) in
  let mp := (5 * doy + 2) `div` 153 in
  let d := doy - (153 * mp + 2) `div` 5 + 1 in
  (z - (d - 1)) * NANOS_PER_DAY.

Definition lower_ascii (a : ascii) : ascii :=
  let n := nat_of_ascii a in
  if (65 <=? n)%nat && (n <=? 90)%nat then ascii_of_nat (n + 32) else a.

Fixpoint lower (s : string) : string :=
  match s with
  | EmptyString => EmptyString
  | String a s' => String (lower_ascii a) (lower s')
  end.

Fixpoint contains (sub s : string) : bool :=
  if String.prefix sub s then true
  else match s with
       | EmptyString => false
       | String _ s' => contains sub s'
       end.

(** [s.str.contains("closed", case=False, na=False)] on one cell. *)
Definition is_closure (c : Cell) : bool :=
  match c with
  | Str s => contains "closed" (lower s)
  | _ => false
  end.

Definition cell_eqb (a b : Cell) : bool :=
  match a, b with
  | NA, NA => true
  | Str s, Str s' => String.eqb s s'
  | Float x, Float y => PrimFloat.eqb x y
  | Int n, Int m => Z.eqb n m
  | Bool x, Bool y => Bool.eqb x y
  | Date t, Date u => Z.eqb t u
  | _, _ => false
  end.

(** [pd.Series.nunique]: the number of distinct non-missing values. *)
Fixpoint distinct (cs : list Cell) : list Cell :=
  match cs with
  | [] => []
  | c :: cs' => if existsb (cell_eqb c) cs' then distinct cs' else c :: distinct cs'
  end.

Definition nunique (cs : list Cell) : Z :=
  Z.of_nat (length (distinct (List.filter notna cs))).

Section AggregateByZip.
(** [pd.to_datetime] on text, and the period of the chosen [time_freq]. *)
Context (parse_datetime : string → option Z) (period_start : Z → Z).
Context (date_col zip_col : string).

(** [pd.to_datetime(s, errors="coerce")] on one cell. *)
Definition to_datetime (c : Cell) : Cell :=
  match c with
  | Date t => Date t
  | Int n => Date n
  | Str s => match parse_datetime s with Some t => Date t | None => NA end
  | _ => NA
  end.

(** [df.dropna(subset=[date_col, zip_col])] *)
Definition dropna (rs : list Row) : list Row :=
  List.filter (λ r, notna (cell r date_col) && notna (cell r zip_col)) rs.

Definition period_of (c : Cell) : Cell :=
  match c with
  | Date t => Date (period_start t)
  | _ => NA
  end.

Definition mean_of (g : list Row) (c : string) : result Cell :=
  rbind (Series.to_floats c (map (λ r, cell r c) g))
        (λ s, Ok (Float (Series.mean s))).

Definition median_of (g : list Row) (c : string) : result Cell :=
  rbind (Series.to_floats c (map (λ r, cell r c) g))
        (λ s, Ok (Float (Series.median s))).

(** The share of rows of the group whose action mentions a closure. *)
Definition closure_share (g : list Row) : Cell :=
  let flags := map (λ r, is_closure (cell r "action")) g in
  Float (Series.float_of_Z (Z.of_nat (length (List.filter id flags)))
         / Series.float_of_Z (Z.of_nat (length flags)))%float.

Definition zip_agg_row (rs : list Row) (k : Key) : result Row :=
  let g := group_rows zip_col "period" rs k in
  rbind (mean_of g "hygiene_index") (λ mean_hi,
  rbind (median_of g "hygiene_index") (λ median_hi,
  rbind (mean_of g "score") (λ mean_score,
  rbind (mean_of g "critical_violations") (λ mean_cv,
  Ok (list_to_map
        [(zip_col, Str k.1);
         ("period", Date k.2);
         ("mean_hygiene_index", mean_hi);
         ("median_hygiene_index", median_hi);
         ("inspections",
           Int (agg_count (map (λ r, cell r "inspection_number") g)));
         ("unique_establishments", Int (nunique (map (λ r, cell r "camis") g)));
         ("mean_score", mean_score);
         ("mean_critical_violations", mean_cv);
         ("closure_share", closure_share g)] : Row))))).

Fixpoint collect {A} (xs : list (result A)) : result (list A) :=
  match xs with
  | [] => Ok []
  | x :: xs' => rbind x (λ a, rbind (collect xs') (λ l, Ok (a :: l)))
  end.

Definition zip_agg_columns : list string :=
  [zip_col; "period"; "mean_hygiene_index"; "median_hygiene_index";
   "inspections"; "unique_establishments"; "mean_score";
   "mean_critical_violations"; "closure_share"].

(** The frame the aggregator works on after its first three statements:
    dates coerced, rows with a missing date or zip dropped, the period
    attached. *)
Definition with_period (df : DataFrame) : result DataFrame :=
  rbind (getitem df date_col) (λ dates,
    let df1 := setitem df date_col (to_datetime <$> dates) in
    match first_missing df1 [date_col; zip_col] with
    | Some c => Err (KeyError c)
    | None =>
        let df2 := mkDF (columns df1) (dropna (rows df1)) in
        Ok (setitem df2 "period" (period_of <$> column df2 date_col))
    end).

(** [aggregate_by_zip(df, date_col, zip_col, time_freq)]; the function
    works on a private copy of [df]. *)
Definition aggregate_by_zip (df : DataFrame) : result DataFrame :=
  rbind (with_period df) (λ d,
    match first_missing d ["hygiene_index"; "inspection_number"; "camis";
                           "score"; "critical_violations"; "action"] with
    | Some c => Err (KeyError c)
    | None =>
        if key_dtype_ok zip_col "period" d
        then rbind (collect (map (zip_agg_row (rows d))
                                 (group_keys zip_col "period" (rows d))))
                   (λ rs, Ok (mkDF zip_agg_columns rs))
        else Err (TypeError "group key")
    end).
End AggregateByZip.

Definition DATE_COL : string := "inspection_date".
Definition ZIP_COL : string := "zipcode".

(** The call with the default column names. *)
Definition aggregate (parse_datetime : string → option Z) (period_start : Z → Z)
    : DataFrame → result DataFrame :=
  aggregate_by_zip parse_datetime period_start DATE_COL ZIP_COL.

(** The rows the aggregator keeps: a date after coercion, and a zip. *)
Definition has_date_and_zip (parse_datetime : string → option Z) (r : Row) : bool :=
  notna (to_datetime parse_datetime (cell r DATE_COL)) && notna (cell r ZIP_COL).

Definition coerced (parse_datetime : string → option Z) (r : Row) : Row :=
  <[DATE_COL := to_datetime parse_datetime (cell r DATE_COL)]> r.

Definition periodized (period_start : Z → Z) (r : Row) : Row :=
  <["period" := period_of period_start (cell r DATE_COL)]> r.

End Aggregate.

(** ** [data/cleaning.py] *)

Module Cleaning.

(** [s[0:5]] *)
Definition slice5 (s : string) : string := String.substring 0 5 s.

Fixpoint zeros (n : nat) : string :=
  match n with
  | O => EmptyString
  | S n' => String "0" (zeros n')
  end.

(** [s.zfill(5)]: zeros go after a leading sign. *)
Definition zfill5 (s : string) : string :=
  let n := String.length s in
  if (5 <=? n)%nat then s
  else match s with
       | String "+" s' => String "+" (zeros (5 - n) +:+ s')
       | String "-" s' => String "-" (zeros (5 - n) +:+ s')
       | _ => zeros (5 - n) +:+ s
       end.

Section SpatialJoin.
(** The library calls the function relies on: [str()] of a value that is
    not text, [pd.to_numeric(errors="coerce")] on a cell, and
    [gpd.sjoin(gdf, zips, how="left", predicate="within")] on the frame
    with its points built from longitude and latitude. *)
Context (py_str : Cell → string).
Context (to_numeric : Cell → Cell).
Context (sjoin_within : DataFrame → DataFrame → DataFrame).

(** [astype(str)]: a missing value becomes the text ["nan"]. *)
Definition astype_str (c : Cell) : string :=
  match c with
  | Str s => s
  | NA => "nan"
  | _ => py_str c
  end.

(** [s.astype(str).str.slice(0,5).str.zfill(5)] on one cell. *)
Definition zip5 (c : Cell) : Cell := Str (zfill5 (slice5 (astype_str c))).

Definition zip_candidates : list string := ["ZIPCODE"; "ZIP"; "zip"; "zipcode"].

Definition drop_columns (cs : list string) (df : DataFrame) : DataFrame :=
  mkDF (List.filter (λ c, negb (bool_decide (c ∈ cs))) (columns df))
       (map (λ r : Row, filter (λ kv, kv.1 ∉ cs) r) (rows df)).

(** The first statement: the zip taken from the frame's own columns. *)
Definition from_fields (df : DataFrame) : DataFrame :=
  if has_column df "zipcode"
  then setitem df "zipcode" (zip5 <$> column df "zipcode")
  else if has_column df "postal_code"
       then setitem df "zipcode" (zip5 <$> column df "postal_code")
       else df.

(** [spatially_join_zip(df, zip_shapefile)]; [zips] is the shapefile read
    by [gpd.read_file], [None] when no path was given or the file does
    not exist. *)
Definition spatially_join_zip (df : DataFrame) (zips : option DataFrame)
    : result DataFrame :=
  let df := from_fields df in
  match zips with
  | Some zips =>
      if negb (has_column zips "geometry")
      then Err (RuntimeError "ZIP shapefile has no geometry")
      else if has_column df "latitude" && has_column df "longitude"
      then
        let df := setitem df "latitude" (to_numeric <$> column df "latitude") in
        let df := setitem df "longitude" (to_numeric <$> column df "longitude") in
        let joined := sjoin_within df zips in
        let joined :=
          match List.find (has_column joined) zip_candidates with
          | Some zip_field =>
              setitem joined "zipcode" (zip5 <$> column joined zip_field)
          | None => joined
          end in
        Ok (drop_columns ["geometry"; "index_right"] joined)
      else Ok df
  | None => Ok df
  end.

(** The frame handed to the spatial join: zip from the fields, numeric
    coordinates. *)
Definition located (df : DataFrame) : DataFrame :=
  let df := from_fields df in
  let df := setitem df "latitude" (to_numeric <$> column df "latitude") in
  setitem df "longitude" (to_numeric <$> column df "longitude").
End SpatialJoin.

(** The specification's precedence for one record: the explicit zip field,
    else the postal-code field, else the spatial lookup, else nothing. *)
Definition spec_resolve_zip (zip_field postal_field spatial : option string)
    : option string :=
  match zip_field with
  | Some z => Some z
  | None =>
      match postal_field with
      | Some p => Some p
      | None => spatial
      end
  end.

End Cleaning.

(** ** Sample frames *)

Module Examples.

Import Features Hygiene Aggregate Cleaning.

(** A date given as days since 1970-01-01. *)
Definition day (n : Z) : Cell := Date (n * NANOS_PER_DAY).

Definition jan10 : Cell := day 19367.  (* 2023-01-10 *)
Definition mar15 : Cell := day 19431.  (* 2023-03-15 *)

Definition record_columns : list string :=
  ["camis"; "inspection_date"; "score"; "grade"; "violation_code";
   "violation_description"; "is_critical_description"; "action"].

Definition record (camis date score code description : Cell) (critical : bool) : Row :=
  list_to_map
    [("camis", camis); ("inspection_date", date); ("score", score);
     ("grade", Str "A"); ("violation_code", code);
     ("violation_description", description);
     ("is_critical_description", Bool critical); ("action", NA)].

Definition visit (camis date : Cell) (count critical : Z) (score : Cell)
    (number : Z) (prev days : Cell) : Row :=
  list_to_map
    [("camis", camis); ("inspection_date", date);
     ("violation_count", Int count); ("critical_violations", Int critical);
     ("score", score); ("grade", Str "A"); ("action", NA);
     ("inspection_number", Int number); ("prev_inspection_date", prev);
     ("days_since_prev", days)].

Definition visit_columns : list string :=
  ["camis"; "inspection_date"; "violation_count"; "critical_violations";
   "score"; "grade"; "action"; "inspection_number"; "prev_inspection_date";
   "days_since_prev"].

(** Establishment E1 inspected on 2023-03-15 and, with two violations, on
    2023-01-10; establishment E0 inspected once. *)
Definition inspections : DataFrame :=
  mkDF record_columns
    [record (Str "E1") mar15 (Float 10) (Str "10F") (Str "floor not clean") false;
     record (Str "E1") jan10 (Float 50) (Str "04L") (Str "Evidence of mice") true;
     record (Str "E0") jan10 (Float 12) (Str "02G") (Str "cold holding") false;
     record (Str "E1") jan10 (Float 50) (Str "04M") (Str "roaches present") true].

Definition inspections_history : DataFrame :=
  mkDF visit_columns
    [visit (Str "E0") jan10 1 0 (Float 12) 1 NA NA;
     visit (Str "E1") jan10 2 2 (Float 50) 1 NA NA;
     visit (Str "E1") mar15 1 0 (Float 10) 2 jan10 (Int 64)].

(** The same records in the opposite order. *)
Definition inspections_shuffled : DataFrame :=
  mkDF record_columns (rev (rows inspections)).

(** One visit of two rows, one of them without a violation code. *)
Definition half_coded : DataFrame :=
  mkDF record_columns
    [record (Str "E1") jan10 (Float 50) (Str "04L") (Str "Evidence of mice") true;
     record (Str "E1") jan10 (Float 50) NA (Str "No violations") false].

Definition half_coded_history : DataFrame :=
  mkDF visit_columns [visit (Str "E1") jan10 1 1 (Float 50) 1 NA NA].

(** An establishment with two rows whose date is missing and a dated one. *)
Definition undated : DataFrame :=
  mkDF record_columns
    [record (Str "E1") NA (Float 50) (Str "04L") (Str "Evidence of mice") true;
     record (Str "E1") jan10 (Float 20) (Str "10F") (Str "floor not clean") false;
     record (Str "E1") NA (Float 30) (Str "02G") (Str "cold holding") false].

Definition undated_history : DataFrame :=
  mkDF visit_columns [visit (Str "E1") jan10 1 0 (Float 20) 1 NA NA].

(** Cohorts without any score. *)
Definition unscored_visit (critical count : Z) : Row :=
  list_to_map
    [("camis", Str "E1"); ("score", NA);
     ("critical_violations", Int critical); ("violation_count", Int count)].

Definition cohort_columns : list string :=
  ["camis"; "score"; "critical_violations"; "violation_count"].

Definition unscored : DataFrame :=
  mkDF cohort_columns [unscored_visit 2 3; unscored_visit 0 1].

Definition single_unscored : DataFrame :=
  mkDF cohort_columns [unscored_visit 2 3].

(** A cohort with scores and without any count of critical violations. *)
Definition uncounted_visit (score : float) (count : Z) : Row :=
  list_to_map
    [("camis", Str "E1"); ("score", Float score);
     ("critical_violations", NA); ("violation_count", Int count)].

Definition uncounted : DataFrame :=
  mkDF cohort_columns [uncounted_visit 10 1; uncounted_visit 50 1].

(** Visits with their zip code, one without a zip, one without a date. *)
Definition located_visit (camis zip date : Cell) (index : float) : Row :=
  list_to_map
    [("camis", camis); ("zipcode", zip); ("inspection_date", date);
     ("hygiene_index", Float index); ("inspection_number", Int 1);
     ("score", Float 10); ("critical_violations", Int 0);
     ("action", Str "Establishment Closed by DOHMH.")].

Definition located_columns : list string :=
  ["camis"; "zipcode"; "inspection_date"; "hygiene_index"; "inspection_number";
   "score"; "critical_violations"; "action"].

Definition located_visits : DataFrame :=
  mkDF located_columns
    [located_visit (Str "E1") (Str "10001") jan10 40;
     located_visit (Str "E2") NA jan10 50;
     located_visit (Str "E3") (Str "10001") NA 60;
     located_visit (Str "E4") (Str "10001") (day 19370) 20].

Definition no_text_dates (s : string) : option Z := None.

Definition located_panel : DataFrame :=
  mkDF ["zipcode"; "period"; "mean_hygiene_index"; "median_hygiene_index";
        "inspections"; "unique_establishments"; "mean_score";
        "mean_critical_violations"; "closure_share"]
    [list_to_map
       [("zipcode", Str "10001"); ("period", day 19358);
        ("mean_hygiene_index", Float 30); ("median_hygiene_index", Float 30);
        ("inspections", Int 2); ("unique_establishments", Int 2);
        ("mean_score", Float 10); ("mean_critical_violations", Float 0);
        ("closure_share", Float 1)]].

(** A record with an explicit zip, and a zip area around its coordinates
    that carries another zip. *)
Definition geo_record : Row :=
  list_to_map
    [("camis", Str "E1"); ("zipcode", Str "10001");
     ("latitude", Float 0x1.46p+5); ("longitude", Float (-0x1.28p+6))].
     (* 40.75, -74.0 *)

Definition geo_records : DataFrame :=
  mkDF ["camis"; "zipcode"; "latitude"; "longitude"] [geo_record].

Definition zip_areas : DataFrame :=
  mkDF ["ZIPCODE"; "geometry"]
    [list_to_map [("ZIPCODE", Str "10002");
                  ("geometry", Geom (Box (-75) 40 (-73) 41))]].

(** The library calls on values of these frames: numbers stay numbers, and
    the join attaches to a record the attributes of the boxes its point
    lies in, or missing values where there is none. *)
Definition numeric (c : Cell) : Cell :=
  match c with
  | Float x => Float x
  | Int n => Int n
  | _ => NA
  end.

Definition no_str (c : Cell) : string := "".

Definition point_within (p : Cell) (area : Cell) : bool :=
  match p, area with
  | Geom (Point x y), Geom (Box minx miny maxx maxy) =>
      (minx <? x)%float && (x <? maxx)%float && (miny <? y)%float && (y <? maxy)%float
  | _, _ => false
  end.

Definition point_of (r : Row) : Cell :=
  match cell r "longitude", cell r "latitude" with
  | Float x, Float y => Geom (Point x y)
  | _, _ => NA
  end.

Fixpoint indexed {A} (i : Z) (l : list A) : list (Z * A) :=
  match l with
  | [] => []
  | x :: l' => (i, x) :: indexed (i + 1) l'
  end.

Definition sjoin_boxes (df zips : DataFrame) : DataFrame :=
  let attrs := List.filter (λ c, negb (String.eqb c "geometry")) (columns zips) in
  mkDF (columns df ++ ["geometry"; "index_right"] ++ attrs)
    (flat_map
       (λ r : Row,
          let r := <["geometry" := point_of r]> r in
          let hits :=
            List.filter (λ iz : Z * Row,
                           point_within (cell r "geometry") (cell iz.2 "geometry"))
                        (indexed 0 (rows zips)) in
          match hits with
          | [] => [foldr (λ a (r : Row), <[a := NA]> r)
                         (<["index_right" := NA]> r) attrs]
          | _ => map (λ iz : Z * Row,
                        foldr (λ a (r : Row), <[a := cell iz.2 a]> r)
                              (<["index_right" := Int iz.1]> r) attrs) hits
          end)
       (rows df)).

End Examples.

(** ** Further definitions for the statements *)

Module Extra.

Import Features.

(** A row whose is_critical_description is True. *)
Definition flagged (r : Row) : bool :=
  match cell r "is_critical_description" with
  | Bool true => true
  | _ => false
  end.

(** A row that belongs to some group: identifier and date present. *)
Definition has_key (r : Row) : bool :=
  match key_of camis_col date_col r with
  | Some _ => true
  | None => false
  end.

End Extra.

(** ** [scripts/run_pipeline.py] *)

Module Pipeline.

Import Features Hygiene Aggregate.

Section RunPipeline.
Context (parse_datetime : string → option Z) (period_start : Z → Z).

(** [main], from the frame it has read to the aggregation: the history, the
    index on it, and the zip panel of the indexed history.  Writing a frame
    to a parquet file leaves it as it is. *)
Definition establishment_panel (df : loc) : M (loc * loc) :=
  est_hist ← build_establishment_history df;
  est_hist ← compute_hygiene_index est_hist;
  agg ← call (aggregate parse_datetime period_start) est_hist;
  mret (est_hist, agg).
End RunPipeline.

End Pipeline.

(** ** The value the Hygiene Index Calculator returns *)

Module HygieneValue.

Import Features Hygiene.
Local Open Scope float_scope.

(** A cell of a column that float64 arithmetic accepts: an integer, a float
    or a missing value. *)
Definition is_numeric (c : Cell) : bool :=
  match c with
  | Int _ | Float _ | NA => true
  | _ => false
  end.

Definition numeric_column (df : DataFrame) (c : string) : bool :=
  has_column df c && forallb is_numeric (column df c).

Definition index_inputs : list string :=
  ["score"; "critical_violations"; "violation_count"].

(** The floats of a numeric column. *)
Definition floats (df : DataFrame) (c : string) : list float :=
  map (λ x, default nan (Series.to_float x)) (column df c).

Definition score_filled (df : DataFrame) : list float :=
  Series.fillna (Series.median (floats df "score")) (floats df "score").

Definition index_raw (ws wc wv : float) (df : DataFrame) : list float :=
  weighted ws wc wv
    (Series.minmax (score_filled df))
    (Series.minmax (Series.fillna 0 (floats df "critical_violations")))
    (Series.minmax (Series.fillna 0 (floats df "violation_count"))).

Definition rescaled (raw : list float) : list float :=
  map (λ x, 100 * (x - Series.min raw)
            / (Series.max raw - Series.min raw + Series.EPS)) raw.

Definition hygiene_value (ws wc wv : float) (df : DataFrame) : DataFrame :=
  let d1 := setitem df "score_filled" (Float <$> score_filled df) in
  let d2 := setitem d1 "hygiene_index_raw" (Float <$> index_raw ws wc wv df) in
  setitem d2 "hygiene_index" (Float <$> rescaled (index_raw ws wc wv df)).

Definition all_nan (s : list float) : Prop :=
  Forall (λ x, PrimFloat.is_nan x = true) s.

End HygieneValue.

(** ** The cells of the zip panel *)

Module Panel.

Import Features Aggregate.

(** The (zip, period) cell an input row falls in, if it has a zip and a
    date. *)
Definition panel_key (parse_datetime : string → option Z) (period_start : Z → Z)
    (r : Row) : option Key :=
  key_of ZIP_COL "period" (periodized period_start (coerced parse_datetime r)).

Definition panel_inputs : list string :=
  [DATE_COL; ZIP_COL; "hygiene_index"; "inspection_number"; "camis"; "score";
   "critical_violations"; "action"].

End Panel.

(** ** [data/cleaning.py]: the Normalizer

    Text is handled as ASCII ([str.strip], [str.upper] and [str.lower] on
    the characters below 128).  A frame holds one column per label; a frame
    in which two labels become equal once stripped is outside this model,
    which then stops with [RuntimeError].  The [.str] accessor is modelled
    on columns of text or missing values and raises on others. *)

Module Standardize.

Import Features Aggregate Cleaning.

Definition CRITICAL_KEYWORDS : list string :=
  ["rodent"; "roaches"; "sewage"; "no hot water";
   "no hot"; "improper holding"; "critical"; "major";
   "risk"; "imminent"; "closure"].

(** [str.isspace] on one character. *)
Definition is_space (a : ascii) : bool :=
  let n := nat_of_ascii a in
  ((9 <=? n)%nat && (n <=? 13)%nat) || ((28 <=? n)%nat && (n <=? 32)%nat).

Fixpoint lstrip (s : string) : string :=
  match s with
  | EmptyString => EmptyString
  | String a s' => if is_space a then lstrip s' else s
  end.

Fixpoint rstrip (s : string) : string :=
  match s with
  | EmptyString => EmptyString
  | String a s' =>
      match rstrip s' with
      | EmptyString => if is_space a then EmptyString else String a EmptyString
      | t => String a t
      end
  end.

(** [s.strip()] *)
Definition strip (s : string) : string := lstrip (rstrip s).

Definition upper_ascii (a : ascii) : ascii :=
  let n := nat_of_ascii a in
  if (97 <=? n)%nat && (n <=? 122)%nat then ascii_of_nat (n - 32) else a.

Fixpoint upper (s : string) : string :=
  match s with
  | EmptyString => EmptyString
  | String a s' => String (upper_ascii a) (upper s')
  end.

(** [df.rename(columns=f)] on the rows and on the frame. *)
Definition rename_row (f : string → string) (cols : list string) (r : Row) : Row :=
  list_to_map ((λ c, (f c, cell r c)) <$> cols).

Definition rename_labels (f : string → string) (d : DataFrame) : DataFrame :=
  mkDF (f <$> columns d) (rename_row f (columns d) <$> rows d).

(** A [.str] method, or [apply] of a function of text, on a Series. *)
Fixpoint str_method (f : string → Cell) (c : string) (cs : list Cell)
    : result (list Cell) :=
  match cs with
  | [] => Ok []
  | Str s :: cs' => rbind (str_method f c cs') (λ vs, Ok (f s :: vs))
  | NA :: cs' => rbind (str_method f c cs') (λ vs, Ok (NA :: vs))
  | _ :: _ => Err (TypeError c)
  end.

(** [s.str.upper().str.strip().replace({"N/A": "NOT APPLICABLE"})] on one
    text. *)
Definition grade_of (s : string) : Cell :=
  let g := strip (upper s) in
  Str (if String.eqb g "N/A" then "NOT APPLICABLE" else g).

(** [any(k in s for k in CRITICAL_KEYWORDS)] *)
Definition mentions_critical (s : string) : bool :=
  existsb (λ k, contains k s) CRITICAL_KEYWORDS.

(** [s.str.lower().apply(lambda s: any(...))] on one text. *)
Definition is_critical (s : string) : Cell := Bool (mentions_critical (lower s)).

Definition RAW_FIELDS : list string :=
  ["violation_description"; "grade"; "score"; "inspection_date"].

Section Normalizer.
Context (py_str : Cell → string) (to_numeric : Cell → Cell).
Context (parse_datetime : string → option Z).

(** [if col in df.columns: body] *)
Definition when_column (df : loc) (col : string) (body : M unit) : M unit :=
  d ← deref df; if has_column d col then body else mret tt.

(** [df["RAW_" + col] = df[col]] *)
Definition keep_raw (df : loc) (col : string) : M unit :=
  when_column df col (s ← series df col; assign df ("RAW_" +:+ col) s).

Definition text_of (c : Cell) : Cell := Str (astype_str py_str c).

(** [standardize(df)]: every statement works on the caller's frame. *)
Definition standardize (df : loc) : M loc :=
  d ← deref df;
  (if bool_decide (NoDup (strip <$> columns d))
   then update df (rename_labels strip)
   else raise (RuntimeError "duplicate column labels"));;
  keep_raw df "violation_description";;
  keep_raw df "grade";;
  keep_raw df "score";;
  keep_raw df "inspection_date";;
  when_column df "inspection_date"
    (s ← series df "inspection_date";
     assign df "inspection_date" (to_datetime parse_datetime <$> s));;
  when_column df "score"
    (s ← series df "score"; assign df "score" (to_numeric <$> s));;
  when_column df "grade"
    (s ← series df "grade";
     g ← lift (str_method grade_of "grade" s);
     assign df "grade" g);;
  d ← deref df;
  assign df "violation_description"
    (text_of <$> (if has_column d "violation_description"
                  then column d "violation_description"
                  else replicate (length (rows d)) (Str "")));;
  s ← series df "violation_description";
  flags ← lift (str_method is_critical "violation_description" s);
  assign df "is_critical_description" flags;;
  d ← deref df;
  (if has_column d "camis"
   then s ← series df "camis"; assign df "camis" (text_of <$> s)
   else assign df "camis" (text_of <$> replicate (length (rows d)) (Str "")));;
  mret df.

(** The frame the statements leave at the caller's location. *)

Definition with_raw (col : string) (d : DataFrame) : DataFrame :=
  if has_column d col then setitem d ("RAW_" +:+ col) (column d col) else d.

Definition converted (col : string) (f : Cell → Cell) (d : DataFrame) : DataFrame :=
  if has_column d col then setitem d col (f <$> column d col) else d.

Definition graded (d : DataFrame) : result DataFrame :=
  if has_column d "grade"
  then rbind (str_method grade_of "grade" (column d "grade"))
             (λ g, Ok (setitem d "grade" g))
  else Ok d.

Definition described (d : DataFrame) : DataFrame :=
  setitem d "violation_description"
    (text_of <$> (if has_column d "violation_description"
                  then column d "violation_description"
                  else replicate (length (rows d)) (Str ""))).

Definition flagged_critical (d : DataFrame) : result DataFrame :=
  rbind (getitem d "violation_description") (λ s,
  rbind (str_method is_critical "violation_description" s) (λ flags,
  Ok (setitem d "is_critical_description" flags))).

Definition identified (d : DataFrame) : DataFrame :=
  setitem d "camis"
    (text_of <$> (if has_column d "camis" then column d "camis"
                  else replicate (length (rows d)) (Str ""))).

Definition prepared (d : DataFrame) : DataFrame :=
  converted "score" to_numeric
    (converted "inspection_date" (to_datetime parse_datetime)
       (with_raw "inspection_date"
          (with_raw "score"
             (with_raw "grade"
                (with_raw "violation_description" (rename_labels strip d)))))).

Definition standardize_frames (d : DataFrame) : result DataFrame :=
  if bool_decide (NoDup (strip <$> columns d))
  then rbind (graded (prepared d)) (λ d,
       rbind (flagged_critical (described d)) (λ d, Ok (identified d)))
  else Err (RuntimeError "duplicate column labels").

Definition normalized (df : DataFrame) : result DataFrame :=
  run_on standardize df.
End Normalizer.

End Standardize.

(** ** More sample frames *)

Module MoreExamples.

Import Features Hygiene Aggregate Cleaning Standardize Examples.

(** The inspection records without their grade column. *)
Definition ungraded : DataFrame :=
  mkDF ["camis"; "inspection_date"; "score"; "violation_code";
        "violation_description"; "is_critical_description"; "action"]
       (rows inspections).

(** A table as [load_csv] reads it: text everywhere, two labels with
    blanks around them, one record without a description. *)
Definition raw_columns : list string :=
  [" camis"; "inspection_date "; "score"; "grade"; "violation_description";
   "action"].

Definition raw_record (camis date score grade description : Cell) : Row :=
  list_to_map
    [(" camis", camis); ("inspection_date ", date); ("score", score);
     ("grade", grade); ("violation_description", description);
     ("action", Str "Violations were cited.")].

Definition raw_table : DataFrame :=
  mkDF raw_columns
    [raw_record (Str "E1") (Str "03/15/2023") (Str "10") (Str " a ")
                (Str "Floor not clean");
     raw_record (Str "E1") (Str "01/10/2023") (Str "50") (Str "n/a")
                (Str "Evidence of RODENT activity");
     raw_record (Str "E0") (Str "01/10/2023") NA NA NA].

(** [pd.to_datetime] and [pd.to_numeric] on the texts of this table. *)
Definition sample_dates (s : string) : option Z :=
  if String.eqb s "01/10/2023" then Some (19367 * NANOS_PER_DAY)
  else if String.eqb s "03/15/2023" then Some (19431 * NANOS_PER_DAY)
  else None.

Definition sample_numbers (c : Cell) : Cell :=
  match c with
  | Str s => if String.eqb s "10" then Float 10
             else if String.eqb s "50" then Float 50 else NA
  | Float x => Float x
  | Int n => Int n
  | _ => NA
  end.

End MoreExamples.

(** * Properties *)

(** ** Order of grouping keys *)

Section KeyOrder.

Lemma ascii_compare_refl a : Ascii.compare a a = Eq.
Proof. unfold Ascii.compare. apply N.compare_refl. Qed.

Lemma ascii_compare_lt_trans a b c :
Ascii.compare a b = Lt → Ascii.compare b c = Lt → Ascii.compare a c = Lt.
Proof.
unfold Ascii.compare. rewrite !N.compare_lt_iff. lia.
Qed.

Lemma string_compare_refl s : String.compare s s = Eq.
Proof. induction s as [|a s IH]; simpl; [done|]. by rewrite ascii_compare_refl. Qed.

Lemma string_compare_eq s1 s2 : String.compare s1 s2 = Eq ↔ s1 = s2.
Proof.
split; [apply String.compare_eq_iff|]. intros ->. apply string_compare_refl.
Qed.

Lemma string_compare_lt_trans s1 s2 s3 :
String.compare s1 s2 = Lt → String.compare s2 s3 = Lt → String.compare s1 s3 = Lt.
Proof.
revert s2 s3. induction s1 as [|a s1 IH]; intros [|b s2] [|c s3]; simpl; try done.
destruct (Ascii.compare a b) eqn:Hab; try done;
  destruct (Ascii.compare b c) eqn:Hbc; try done; intros H1 H2.
- apply Ascii.compare_eq_iff in Hab, Hbc. subst. rewrite ascii_compare_refl. eauto.
- apply Ascii.compare_eq_iff in Hab. subst. by rewrite Hbc.
- apply Ascii.compare_eq_iff in Hbc. subst. by rewrite Hab.
- by rewrite (ascii_compare_lt_trans _ _ _ Hab Hbc).
Qed.

Lemma key_compare_eq k1 k2 : key_compare k1 k2 = Eq ↔ k1 = k2.
Proof.
destruct k1 as [s1 t1], k2 as [s2 t2]. unfold key_compare, lex; simpl. split.
- destruct (String.compare s1 s2) eqn:Hs; try done.
  intros Ht%Z.compare_eq. apply string_compare_eq in Hs. by subst.
- intros [= -> ->]. by rewrite string_compare_refl, Z.compare_refl.
Qed.

Lemma key_compare_antisym k1 k2 : key_compare k2 k1 = CompOpp (key_compare k1 k2).
Proof.
destruct k1 as [s1 t1], k2 as [s2 t2]. unfold key_compare, lex; simpl.
rewrite (String.compare_antisym s2 s1), (Z.compare_antisym t1 t2).
by destruct (String.compare s1 s2).
Qed.

Lemma key_lt_irrefl k : ¬ key_lt k k.
Proof. unfold key_lt. by rewrite (proj2 (key_compare_eq k k) eq_refl). Qed.

Lemma key_lt_trans k1 k2 k3 : key_lt k1 k2 → key_lt k2 k3 → key_lt k1 k3.
Proof.
destruct k1 as [s1 t1], k2 as [s2 t2], k3 as [s3 t3].
unfold key_lt, key_compare, lex; simpl.
destruct (String.compare s1 s2) eqn:H12; try done;
  destruct (String.compare s2 s3) eqn:H23; try done; intros H1 H2.
- apply string_compare_eq in H12, H23. subst. rewrite string_compare_refl.
  rewrite Z.compare_lt_iff in *. lia.
- apply string_compare_eq in H12. subst. by rewrite H23.
- apply string_compare_eq in H23. subst. by rewrite H12.
- by rewrite (string_compare_lt_trans _ _ _ H12 H23).
Qed.

Lemma key_lt_asym k1 k2 : key_lt k1 k2 → ¬ key_lt k2 k1.
Proof. intros H1 H2. exact (key_lt_irrefl _ (key_lt_trans _ _ _ H1 H2)). Qed.

Lemma key_gt_lt k1 k2 : key_compare k1 k2 = Gt → key_lt k2 k1.
Proof. intros H. unfold key_lt. by rewrite key_compare_antisym, H. Qed.

(** The sorted list of distinct keys. *)

Lemma elem_of_key_insert k k0 ks : k ∈ key_insert k0 ks ↔ k = k0 ∨ k ∈ ks.
Proof.
induction ks as [|k' ks IH]; simpl.
- rewrite list_elem_of_singleton. set_solver.
- destruct (key_compare k0 k') eqn:Hc.
  + apply key_compare_eq in Hc. subst. set_solver.
  + set_solver.
  + rewrite elem_of_cons, IH. set_solver.
Qed.

Lemma key_insert_sorted k0 ks :
StronglySorted key_lt ks → StronglySorted key_lt (key_insert k0 ks).
Proof.
induction 1 as [|k' ks Hs IH Hall]; simpl.
- repeat constructor.
- destruct (key_compare k0 k') eqn:Hc.
  + by constructor.
  + constructor; [by constructor|]. constructor; [done|].
    eapply Forall_impl; [exact Hall|]. intros k ?. by eapply key_lt_trans.
  + constructor; [done|]. apply Forall_forall. intros k Hk.
    apply elem_of_key_insert in Hk as [->|Hk].
    * by apply key_gt_lt.
    * by eapply Forall_forall in Hall.
Qed.

Lemma sorted_keys_sorted ks : StronglySorted key_lt (sorted_keys ks).
Proof.
induction ks; simpl; [constructor|]. by apply key_insert_sorted.
Qed.

Lemma elem_of_sorted_keys k ks : k ∈ sorted_keys ks ↔ k ∈ ks.
Proof.
induction ks as [|k0 ks IH]; simpl; [done|].
rewrite elem_of_key_insert, elem_of_cons, IH. done.
Qed.

Lemma sorted_keys_NoDup ks : NoDup (sorted_keys ks).
Proof.
pose proof (sorted_keys_sorted ks) as Hs.
induction Hs as [|k l Hs IH Hall]; constructor; [|done].
intros Hin. eapply Forall_forall in Hall; [|done]. by apply key_lt_irrefl in Hall.
Qed.

(** Two strictly ascending lists with the same elements are equal. *)
Lemma key_sorted_unique l1 l2 :
StronglySorted key_lt l1 → StronglySorted key_lt l2 →
(∀ k, k ∈ l1 ↔ k ∈ l2) → l1 = l2.
Proof.
intros H1. revert l2. induction H1 as [|a l1 H1 IH Ha]; intros l2 H2 Heq.
- destruct l2 as [|b l2]; [done|]. specialize (Heq b). set_solver.
- destruct H2 as [|b l2 H2 Hb]; [specialize (Heq a); set_solver|].
  rewrite Forall_forall in Ha, Hb.
  assert (a = b) as ->.
  { destruct (Heq a) as [Ha1 _]. destruct (Heq b) as [_ Hb1].
    specialize (Ha1 ltac:(set_solver)). specialize (Hb1 ltac:(set_solver)).
    apply elem_of_cons in Ha1 as [?|Ha1]; [done|].
    apply elem_of_cons in Hb1 as [?|Hb1]; [done|].
    apply Hb in Ha1. apply Ha in Hb1. by apply key_lt_asym in Ha1. }
  f_equal. apply IH; [done|]. intros k. split; intros Hk.
  + destruct (Heq k) as [Hk1 _]. specialize (Hk1 ltac:(set_solver)).
    apply elem_of_cons in Hk1 as [->|]; [|done].
    apply Ha in Hk. by apply key_lt_irrefl in Hk.
  + destruct (Heq k) as [_ Hk1]. specialize (Hk1 ltac:(set_solver)).
    apply elem_of_cons in Hk1 as [->|]; [|done].
    apply Hb in Hk. by apply key_lt_irrefl in Hk.
Qed.

Lemma sorted_keys_ext ks ks' :
(∀ k, k ∈ ks ↔ k ∈ ks') → sorted_keys ks = sorted_keys ks'.
Proof.
intros H. apply key_sorted_unique; try apply sorted_keys_sorted.
intros k. by rewrite !elem_of_sorted_keys.
Qed.

End KeyOrder.

(** ** Stable sorting *)

Section SortFacts.
Context {A : Type} (leb : A → A → bool).

Lemma insert_sorted_perm x l : insert_sorted leb x l ≡ₚ x :: l.
Proof.
  induction l as [|y l IH]; simpl; [done|].
  destruct (leb x y); [done|]. rewrite IH. apply perm_swap.
Qed.

Lemma stable_sort_perm l : stable_sort leb l ≡ₚ l.
Proof.
  induction l as [|x l IH]; simpl; [done|].
  rewrite insert_sorted_perm. by rewrite IH.
Qed.

(** A list whose neighbours are in order is left as it is. *)
Lemma stable_sort_sorted l :
  Sorted (λ x y, leb x y = true) l → stable_sort leb l = l.
Proof.
  induction 1 as [|x l Hs IH Hhd]; simpl; [done|].
  rewrite IH. destruct Hhd as [|y l Hxy]; simpl; [done|]. by rewrite Hxy.
Qed.

Lemma stable_sort_length l : length (stable_sort leb l) = length l.
Proof. apply Permutation_length, stable_sort_perm. Qed.
End SortFacts.

(** Sorting commutes with a map that respects the comparison. *)
Lemma stable_sort_map {A B} (f : A → B) (lebA : A → A → bool) (lebB : B → B → bool) l :
  (∀ x y, lebB (f x) (f y) = lebA x y) →
  stable_sort lebB (map f l) = map f (stable_sort lebA l).
Proof.
  intros Hf. induction l as [|x l IH]; simpl; [done|]. rewrite IH.
  generalize (stable_sort lebA l). intros s.
  induction s as [|y s IHs]; simpl; [done|].
  rewrite Hf. destruct (lebA x y); simpl; [done|]. by rewrite IHs.
Qed.

(** ** Frames: cells after an assignment *)

Lemma cell_insert_eq (r : Row) c v : cell (<[c := v]> r) c = v.
Proof. unfold cell. by rewrite lookup_insert_eq. Qed.

Lemma cell_insert_ne (r : Row) c c' v : c ≠ c' → cell (<[c := v]> r) c' = cell r c'.
Proof. intros. unfold cell. by rewrite lookup_insert_ne. Qed.

Lemma rows_setitem df c vs :
  rows (setitem df c vs) = zip_with (λ (r : Row) v, <[c := v]> r) (rows df) vs.
Proof. done. Qed.

Lemma column_setitem_ne df c c' vs :
  c ≠ c' → length vs = length (rows df) →
  column (setitem df c vs) c' = column df c'.
Proof.
  intros Hne. unfold column. rewrite rows_setitem.
  generalize (rows df). intros rs. revert vs.
  induction rs as [|r rs IH]; intros [|v vs] Hlen; simpl in *; try done.
  rewrite cell_insert_ne by done. f_equal. apply IH. lia.
Qed.

Lemma column_setitem_eq df c vs :
  length vs = length (rows df) → column (setitem df c vs) c = vs.
Proof.
  unfold column. rewrite rows_setitem.
  generalize (rows df). intros rs. revert vs.
  induction rs as [|r rs IH]; intros [|v vs] Hlen; simpl in *; try done.
  rewrite cell_insert_eq. f_equal. apply IH. lia.
Qed.

Lemma length_column df c : length (column df c) = length (rows df).
Proof. unfold column. by rewrite length_map. Qed.

Lemma length_rows_setitem df c vs :
  length vs = length (rows df) → length (rows (setitem df c vs)) = length (rows df).
Proof. intros H. rewrite rows_setitem, length_zip_with. lia. Qed.

Lemma has_column_setitem df c c' vs :
  has_column (setitem df c vs) c' = has_column df c' || bool_decide (c' = c).
Proof.
  unfold setitem, has_column; cbn [columns]. apply eq_true_iff_eq.
  rewrite orb_true_iff, !bool_decide_eq_true.
  destruct (decide (c ∈ columns df)) as [Hc|Hc].
  - rewrite (bool_decide_eq_true_2 _ Hc). split; [by left | by intros [?| ->]].
  - rewrite (bool_decide_eq_false_2 _ Hc).
    rewrite elem_of_app, list_elem_of_singleton. done.
Qed.

(** ** Running statements in the store *)

Section StoreFacts.
Import Features.

Lemma keeps_refl st : keeps st st.
Proof. by intros l d. Qed.

Lemma keeps_insert st cur l d :
  keeps st cur → st !! l = None → keeps st (<[l := d]> cur).
Proof.
  intros Hk Hl l0 d0 H0. rewrite lookup_insert_ne; [by apply Hk|congruence].
Qed.

Lemma keeps_None st cur l : keeps st cur → cur !! l = None → st !! l = None.
Proof.
  intros Hk Hl. destruct (st !! l) eqn:E; [|done]. apply Hk in E. congruence.
Qed.

Lemma wp_ret {A} (a : A) st Q : Q (Ok a) st → wp (mret a) st Q.
Proof. done. Qed.

Lemma wp_bind {A B} (m : M A) (f : A → M B) st Q :
  wp m st (λ r st', match r with
                    | Ok a => wp (f a) st' Q
                    | Err e => Q (Err e) st'
                    end) →
  wp (m ≫= f) st Q.
Proof.
  unfold wp, mbind, M_bind. by destruct (m st) as [[a|e] st'].
Qed.

Lemma wp_deref l d st Q : st !! l = Some d → Q (Ok d) st → wp (deref l) st Q.
Proof. unfold wp, deref. by intros ->. Qed.

Lemma wp_lift {A} (x : result A) st Q : Q x st → wp (lift x) st Q.
Proof. done. Qed.

Lemma wp_new d st Q :
  (∀ l, st !! l = None → Q (Ok l) (<[l := d]> st)) → wp (new d) st Q.
Proof.
  intros H. unfold wp, new; simpl. apply H.
  apply not_elem_of_dom, is_fresh.
Qed.

Lemma wp_update l f d st Q :
  st !! l = Some d → Q (Ok tt) (<[l := f d]> st) → wp (update l f) st Q.
Proof. unfold wp, update. by intros ->. Qed.

Lemma wp_copy l d st Q :
  st !! l = Some d →
  (∀ l', st !! l' = None → Q (Ok l') (<[l' := d]> st)) →
  wp (copy l) st Q.
Proof.
  intros Hl H. apply wp_bind, (wp_deref _ d); [done|]. by apply wp_new.
Qed.

Lemma wp_call f l d st Q :
  st !! l = Some d →
  match f d with
  | Ok d' => ∀ l', st !! l' = None → Q (Ok l') (<[l' := d']> st)
  | Err e => Q (Err e) st
  end →
  wp (call f l) st Q.
Proof.
  intros Hl H. apply wp_bind, (wp_deref _ d); [done|].
  apply wp_bind, wp_lift. destruct (f d); [by apply wp_new|done].
Qed.

Lemma wp_select cols l d st Q :
  st !! l = Some d →
  match getitem_columns d cols with
  | Ok d' => ∀ l', st !! l' = None → Q (Ok l') (<[l' := d']> st)
  | Err e => Q (Err e) st
  end →
  wp (select l cols) st Q.
Proof. apply (wp_call (λ d, getitem_columns d cols)). Qed.

Lemma wp_series l c d st Q :
  st !! l = Some d →
  match getitem d c with
  | Ok s => Q (Ok s) st
  | Err e => Q (Err e) st
  end →
  wp (series l c) st Q.
Proof.
  intros Hl H. apply wp_bind, (wp_deref _ d); [done|]. apply wp_lift.
  by destruct (getitem d c).
Qed.

Lemma wp_assign l c vs d st Q :
  st !! l = Some d → Q (Ok tt) (<[l := setitem d c vs]> st) →
  wp (assign l c vs) st Q.
Proof. intros Hl H. by apply (wp_update _ _ d). Qed.

Lemma getitem_Ok d c : has_column d c = true → getitem d c = Ok (column d c).
Proof. unfold getitem. by intros ->. Qed.

(** Where the key columns exist, [set_timing] succeeds and leaves
    [timed d] at its location. *)
Lemma wp_set_timing l d st Q :
  st !! l = Some d →
  has_column d camis_col = true → has_column d date_col = true →
  Q (Ok tt) (<[l := timed d]> st) →
  wp (set_timing l) st Q.
Proof.
  intros Hl Hc Hd H. unfold set_timing.
  apply wp_bind, (wp_series _ _ d); [done|]. rewrite getitem_Ok by done.
  apply wp_bind, (wp_assign _ _ _ d); [done|].
  set (d1 := setitem d _ _).
  assert (Hc1 : has_column d1 camis_col = true).
  { unfold d1. by rewrite has_column_setitem, Hc. }
  assert (Hd1 : has_column d1 date_col = true).
  { unfold d1. by rewrite has_column_setitem, Hd. }
  apply wp_bind, (wp_series _ _ d1); [by rewrite lookup_insert_eq|].
  rewrite getitem_Ok by done.
  apply wp_bind, (wp_series _ _ d1); [by rewrite lookup_insert_eq|].
  rewrite getitem_Ok by done.
  apply wp_bind, (wp_assign _ _ _ d1); [by rewrite lookup_insert_eq|].
  rewrite insert_insert_eq. set (d2 := setitem d1 _ _).
  apply wp_bind, (wp_series _ _ d2); [by rewrite lookup_insert_eq|].
  rewrite getitem_Ok by (unfold d2; by rewrite has_column_setitem, Hd1).
  apply wp_bind, (wp_series _ _ d2); [by rewrite lookup_insert_eq|].
  rewrite getitem_Ok
    by (unfold d2; rewrite has_column_setitem, bool_decide_eq_true_2 by done;
        apply orb_true_r).
  apply (wp_assign _ _ _ d2); [by rewrite lookup_insert_eq|].
  by rewrite insert_insert_eq.
Qed.
End StoreFacts.

Section HistoryRun.
Import Features.

Lemma sort_values_Ok c1 c2 d d' :
  sort_values c1 c2 d = Ok d' →
  has_column d c1 = true ∧ has_column d c2 = true ∧
  key_dtype_ok c1 c2 d = true ∧
  d' = mkDF (columns d) (stable_sort (row_leb c1 c2) (rows d)).
Proof.
  unfold sort_values; simpl.
  destruct (has_column d c1); [|done]. destruct (has_column d c2); [|done].
  destruct (key_dtype_ok c1 c2 d); [|done]. by intros [= <-].
Qed.

Lemma groupby_agg_Ok d vcol d' :
  groupby_agg d vcol = Ok d' →
  has_column d camis_col = true ∧ has_column d date_col = true ∧
  has_column d vcol = true ∧
  key_dtype_ok camis_col date_col d = true ∧
  d' = mkDF agg_columns
         (map (agg_row vcol (rows d)) (group_keys camis_col date_col (rows d))).
Proof.
  unfold groupby_agg; simpl.
  destruct (has_column d camis_col); [|done].
  destruct (has_column d date_col); [|done].
  destruct (has_column d vcol); [|done].
  destruct (has_column d "is_critical_description"); [|done].
  destruct (has_column d "score"); [|done].
  destruct (has_column d "grade"); [|done].
  destruct (has_column d "action"); [|done].
  destruct (key_dtype_ok camis_col date_col d); [|done]. by intros [= <-].
Qed.

Lemma has_column_timed d c :
  has_column d c = true → has_column (timed d) c = true.
Proof.
  intros H. unfold timed. rewrite !has_column_setitem, H. done.
Qed.

(** The builder, run on a location that holds [df]: it leaves every
    object of the store as it was and returns a new object holding
    [history_frames df] (or raises where [history_frames] fails). *)
Lemma build_establishment_history_run st l df :
  st !! l = Some df →
  wp (build_establishment_history l) st (λ r st',
    keeps st st' ∧
    match r with
    | Ok l' => ∃ out, history_frames df = Ok out ∧
                      st !! l' = None ∧ st' !! l' = Some out
    | Err e => history_frames df = Err e
    end).
Proof.
  intros Hl. unfold build_establishment_history, history_frames.
  apply wp_bind, (wp_copy _ df); [done|]. intros l1 Hl1.
  pose proof (keeps_insert st st l1 df (keeps_refl st) Hl1) as K1.
  apply wp_bind, (wp_deref _ df); [by rewrite lookup_insert_eq|].
  apply wp_bind, (wp_select _ _ df); [by rewrite lookup_insert_eq|].
  fold (reordered df).
  destruct (getitem_columns df (reordered df)) as [d1|e] eqn:Hsel; [|done].
  intros l2 Hl2. cbn [rbind].
  pose proof (keeps_insert _ _ l2 d1 K1 (keeps_None _ _ _ K1 Hl2)) as K2.
  apply wp_bind, (wp_copy _ d1); [by rewrite lookup_insert_eq|]. intros l3 Hl3.
  pose proof (keeps_insert _ _ l3 d1 K2 (keeps_None _ _ _ K2 Hl3)) as K3.
  apply wp_bind, (wp_call _ _ d1); [by rewrite lookup_insert_eq|].
  destruct (sort_values camis_col date_col d1) as [d2|e] eqn:Hsort; [|done].
  intros l4 Hl4. cbn [rbind].
  pose proof (keeps_insert _ _ l4 d2 K3 (keeps_None _ _ _ K3 Hl4)) as K4.
  apply sort_values_Ok in Hsort as (Hc & Hd & _ & Hd2).
  assert (has_column d2 camis_col = true) as Hc2 by (by subst d2).
  assert (has_column d2 date_col = true) as Hd2' by (by subst d2).
  apply wp_bind, (wp_set_timing _ d2); [by rewrite lookup_insert_eq|done|done|].
  rewrite insert_insert_eq.
  pose proof (keeps_insert _ _ l4 (timed d2) K3 (keeps_None _ _ _ K3 Hl4)) as K4'.
  apply wp_bind, (wp_deref _ (timed d2)); [by rewrite lookup_insert_eq|].
  apply wp_bind.
  assert (wp (call (λ d, groupby_agg d (count_column (timed d2))) l4)
            (<[l4:=timed d2]> (<[l3:=d1]> (<[l2:=d1]> (<[l1:=df]> st))))
            (λ r st', match r with
                      | Ok a => wp (agg ← call (sort_values camis_col date_col) a;
                                    set_timing agg;; mret agg) st'
                                  (λ r st', keeps st st' ∧
                                     match r with
                                     | Ok l' => ∃ out,
                                         rbind (groupby_agg (timed d2) (count_column (timed d2)))
                                           (λ agg, rbind (sort_values camis_col date_col agg)
                                                     (λ agg, Ok (timed agg))) = Ok out ∧
                                         st !! l' = None ∧ st' !! l' = Some out
                                     | Err e =>
                                         rbind (groupby_agg (timed d2) (count_column (timed d2)))
                                           (λ agg, rbind (sort_values camis_col date_col agg)
                                                     (λ agg, Ok (timed agg))) = Err e
                                     end)
                      | Err e => keeps st st' ∧
                                 rbind (groupby_agg (timed d2) (count_column (timed d2)))
                                   (λ agg, rbind (sort_values camis_col date_col agg)
                                             (λ agg, Ok (timed agg))) = Err e
                      end)) as Hagg.
  { apply (wp_call _ _ (timed d2)); [by rewrite lookup_insert_eq|].
    destruct (groupby_agg (timed d2) (count_column (timed d2))) as [d4|e] eqn:Hg;
      [|done].
    intros l5 Hl5. cbn [rbind].
    pose proof (keeps_insert _ _ l5 d4 K4' (keeps_None _ _ _ K4' Hl5)) as K5.
    apply wp_bind, (wp_call _ _ d4); [by rewrite lookup_insert_eq|].
    destruct (sort_values camis_col date_col d4) as [d5|e] eqn:Hsort2; [|done].
    intros l6 Hl6. cbn [rbind].
    pose proof (keeps_None _ _ _ K5 Hl6) as Hl6'.
    apply sort_values_Ok in Hsort2 as (Hc5 & Hd5 & _ & Hd5').
    assert (has_column d5 camis_col = true) by (by subst d5).
    assert (has_column d5 date_col = true) by (by subst d5).
    apply wp_bind, (wp_set_timing _ d5); [by rewrite lookup_insert_eq|done|done|].
    rewrite insert_insert_eq. apply wp_ret. split.
    - by apply keeps_insert.
    - exists (timed d5). by rewrite lookup_insert_eq. }
  unfold count_column in *.
  destruct (has_column (timed d2) "violation_code"); exact Hagg.
Qed.

Lemma history_run df : history df = history_frames df.
Proof.
  pose proof (build_establishment_history_run {[ 0%nat := df ]} 0%nat df
                (lookup_singleton_eq _ _)) as H.
  unfold wp in H. unfold history, run_on.
  destruct (build_establishment_history 0%nat {[ 0%nat := df ]}) as [[l'|e] st'];
    simpl in H; destruct H as [_ H].
  - destruct H as (out & -> & _ & ->). done.
  - done.
Qed.
End HistoryRun.

(** ** The builder's column selection keeps every column *)

Section Selection.
Import Features.

Lemma elem_of_List_filter {A} (f : A → bool) (l : list A) x :
  x ∈ List.filter f l ↔ x ∈ l ∧ f x = true.
Proof. rewrite !list_elem_of_In. apply filter_In. Qed.

Lemma elem_of_reordered df c : c ∈ reordered df ↔ c ∈ columns df.
Proof.
  unfold reordered. rewrite elem_of_app, !elem_of_List_filter.
  unfold has_column.
  rewrite negb_true_iff, bool_decide_eq_true, bool_decide_eq_false.
  rewrite elem_of_List_filter. unfold has_column. rewrite bool_decide_eq_true.
  destruct (decide (c ∈ required_cols)); naive_solver.
Qed.

Lemma first_missing_None df cs :
  first_missing df cs = None ↔ ∀ c, c ∈ cs → c ∈ columns df.
Proof.
  induction cs as [|c cs IH]; simpl.
  - split; [intros _ c Hc; by apply elem_of_nil in Hc|done].
  - unfold has_column at 1. case_bool_decide as Hc.
    + rewrite IH. split.
      * intros H c' [->|?]%elem_of_cons; auto.
      * intros H c' ?. apply H. by right.
    + split; [done|]. intros H. destruct Hc. apply H. by left.
Qed.

Lemma cell_restrict (r : Row) (cols : list string) c :
  c ∈ cols → cell (filter (λ kv, kv.1 ∈ cols) r) c = cell r c.
Proof.
  intros Hc. unfold cell. f_equal.
  destruct (r !! c) as [v|] eqn:E.
  - by apply map_lookup_filter_Some_2.
  - apply map_lookup_filter_None. by left.
Qed.

Lemma getitem_columns_reordered df :
  getitem_columns df (reordered df) = Ok (selected df).
Proof.
  unfold getitem_columns.
  rewrite (proj2 (first_missing_None df (reordered df))); [done|].
  intros c. by rewrite elem_of_reordered.
Qed.

Lemma has_column_selected df c : has_column (selected df) c = has_column df c.
Proof.
  unfold has_column; simpl. apply bool_decide_ext, elem_of_reordered.
Qed.
End Selection.

(** ** Rows that agree on the columns a computation reads *)

Section Agreement.
Import Features.

Lemma agree_refl cs r : agree cs r r.
Proof. by intros c. Qed.

Lemma agree_insert cs (r r' : Row) c v :
  c ∉ cs → agree cs r r' → agree cs r (<[c := v]> r').
Proof.
  intros Hc H c' Hc'. rewrite cell_insert_ne; [by apply H|]. by intros ->.
Qed.

Lemma Forall2_agree_setitem cs rs d c vs :
  c ∉ cs → length vs = length (rows d) →
  Forall2 (agree cs) rs (rows d) →
  Forall2 (agree cs) rs (rows (setitem d c vs)).
Proof.
  intros Hc. rewrite rows_setitem. generalize (rows d). intros rs'.
  intros Hlen H. revert vs Hlen.
  induction H as [|r r' rs rs' Hr H IH]; intros [|v vs] Hlen; simpl in *;
    try done.
  constructor; [by apply agree_insert|]. apply IH. lia.
Qed.

Lemma key_of_agree cs c1 c2 r r' :
  c1 ∈ cs → c2 ∈ cs → agree cs r r' → key_of c1 c2 r = key_of c1 c2 r'.
Proof. intros H1 H2 H. unfold key_of. by rewrite (H c1), (H c2). Qed.

Lemma row_leb_agree cs c1 c2 x x' y y' :
  c1 ∈ cs → c2 ∈ cs → agree cs x x' → agree cs y y' →
  row_leb c1 c2 x y = row_leb c1 c2 x' y'.
Proof.
  intros H1 H2 Hx Hy. unfold row_leb, row_compare.
  by rewrite (Hx c1), (Hx c2), (Hy c1), (Hy c2).
Qed.

Lemma insert_sorted_agree cs c1 c2 x x' l l' :
  c1 ∈ cs → c2 ∈ cs → agree cs x x' → Forall2 (agree cs) l l' →
  Forall2 (agree cs) (insert_sorted (row_leb c1 c2) x l)
                     (insert_sorted (row_leb c1 c2) x' l').
Proof.
  intros H1 H2 Hx H. induction H as [|y y' l l' Hy H IH]; simpl.
  - by repeat constructor.
  - rewrite (row_leb_agree cs c1 c2 x x' y y') by done.
    destruct (row_leb c1 c2 x' y'); repeat (constructor; try done).
Qed.

Lemma stable_sort_agree cs c1 c2 l l' :
  c1 ∈ cs → c2 ∈ cs → Forall2 (agree cs) l l' →
  Forall2 (agree cs) (stable_sort (row_leb c1 c2) l)
                     (stable_sort (row_leb c1 c2) l').
Proof.
  intros H1 H2 H. induction H; simpl; [constructor|].
  by apply insert_sorted_agree.
Qed.

Lemma group_rows_agree cs c1 c2 k l l' :
  c1 ∈ cs → c2 ∈ cs → Forall2 (agree cs) l l' →
  Forall2 (agree cs) (group_rows c1 c2 l k) (group_rows c1 c2 l' k).
Proof.
  intros H1 H2 H. unfold group_rows. induction H as [|r r' l l' Hr H IH]; simpl.
  - constructor.
  - rewrite (key_of_agree cs c1 c2 r r') by done.
    destruct (bool_decide _); [by constructor|done].
Qed.

Lemma map_cell_agree cs c l l' :
  c ∈ cs → Forall2 (agree cs) l l' →
  map (λ r, cell r c) l = map (λ r, cell r c) l'.
Proof.
  intros Hc H. induction H as [|r r' l l' Hr H IH]; simpl; [done|].
  by rewrite (Hr c Hc), IH.
Qed.

Lemma omap_key_of_agree cs c1 c2 l l' :
  c1 ∈ cs → c2 ∈ cs → Forall2 (agree cs) l l' →
  omap (key_of c1 c2) l = omap (key_of c1 c2) l'.
Proof.
  intros H1 H2 H. induction H as [|r r' l l' Hr H IH]; csimpl; [done|].
  by rewrite (key_of_agree cs c1 c2 r r'), IH.
Qed.

Lemma agg_row_agree vcol l l' k :
  Forall2 (agree (agg_inputs vcol)) l l' → agg_row vcol l k = agg_row vcol l' k.
Proof.
  intros H. unfold agg_row.
  assert (Hg : Forall2 (agree (agg_inputs vcol))
                 (group_rows camis_col date_col l k)
                 (group_rows camis_col date_col l' k)).
  { apply group_rows_agree; [set_solver|set_solver|done]. }
  cbv zeta.
  rewrite (map_cell_agree (agg_inputs vcol) vcol _ _ ltac:(set_solver) Hg).
  rewrite (map_cell_agree (agg_inputs vcol) "is_critical_description" _ _
             ltac:(set_solver) Hg).
  rewrite (map_cell_agree (agg_inputs vcol) "score" _ _ ltac:(set_solver) Hg).
  rewrite (map_cell_agree (agg_inputs vcol) "grade" _ _ ltac:(set_solver) Hg).
  rewrite (map_cell_agree (agg_inputs vcol) "action" _ _ ltac:(set_solver) Hg).
  done.
Qed.

Lemma cumcount_from_length seen ids : length (cumcount_from seen ids) = length ids.
Proof.
  revert seen. induction ids as [|c ids IH]; intros seen; simpl; [done|].
  destruct (str_of c); simpl; by rewrite IH.
Qed.

Lemma shift_from_length last ids dates :
  length ids = length dates → length (shift_from last ids dates) = length ids.
Proof.
  revert last dates. induction ids as [|c ids IH]; intros last [|d dates] Hlen;
    simpl in *; try done.
  destruct (str_of c); simpl; rewrite IH; lia.
Qed.

(** The columns of a frame after [set_timing]. *)
Lemma timed_columns d :
  length (rows (timed d)) = length (rows d) ∧
  (∀ c, c ∉ timing_cols → column (timed d) c = column d c) ∧
  column (timed d) "inspection_number"
    = add_one <$> cumcount (column d camis_col) ∧
  column (timed d) "prev_inspection_date"
    = shift (column d camis_col) (column d date_col) ∧
  column (timed d) "days_since_prev"
    = zip_with days_between (column d date_col)
        (shift (column d camis_col) (column d date_col)).
Proof.
  unfold timed.
  set (n := add_one <$> cumcount (column d camis_col)).
  assert (Hn : length n = length (rows d)).
  { unfold n, cumcount. by rewrite length_fmap, cumcount_from_length, length_column. }
  set (d1 := setitem d "inspection_number" n).
  assert (L1 : length (rows d1) = length (rows d)) by by apply length_rows_setitem.
  assert (C1 : column d1 camis_col = column d camis_col)
    by by apply column_setitem_ne.
  assert (D1 : column d1 date_col = column d date_col)
    by by apply column_setitem_ne.
  rewrite C1, D1.
  set (p := shift (column d camis_col) (column d date_col)).
  assert (Hp : length p = length (rows d1)).
  { unfold p, shift. rewrite shift_from_length; rewrite !length_column; lia. }
  set (d2 := setitem d1 "prev_inspection_date" p).
  assert (L2 : length (rows d2) = length (rows d)).
  { unfold d2. rewrite length_rows_setitem; done. }
  assert (D2 : column d2 date_col = column d date_col).
  { unfold d2. rewrite column_setitem_ne; done. }
  assert (P2 : column d2 "prev_inspection_date" = p)
    by by apply column_setitem_eq.
  rewrite D2, P2.
  set (y := zip_with days_between (column d date_col) p).
  assert (Hy : length y = length (rows d2)).
  { unfold y. rewrite length_zip_with, length_column. lia. }
  split; [by rewrite length_rows_setitem|]. split; [|split; [|split]].
  - intros c Hc. rewrite column_setitem_ne; [|set_solver|done].
    unfold d2. rewrite column_setitem_ne; [|set_solver|done].
    unfold d1. rewrite column_setitem_ne; [done|set_solver|done].
  - rewrite column_setitem_ne; [|done|done].
    unfold d2. rewrite column_setitem_ne; [|done|done].
    by apply column_setitem_eq.
  - rewrite column_setitem_ne; done.
  - by apply column_setitem_eq.
Qed.

Lemma timed_agree cs d :
  (∀ c, c ∈ timing_cols → c ∉ cs) →
  Forall2 (agree cs) (rows d) (rows (timed d)).
Proof.
  intros Hcs. unfold timed.
  set (n := add_one <$> cumcount (column d camis_col)).
  assert (Hn : length n = length (rows d)).
  { unfold n, cumcount. by rewrite length_fmap, cumcount_from_length, length_column. }
  set (d1 := setitem d "inspection_number" n).
  assert (L1 : length (rows d1) = length (rows d)) by by apply length_rows_setitem.
  set (p := shift (column d1 camis_col) (column d1 date_col)).
  assert (Hp : length p = length (rows d1)).
  { unfold p, shift. rewrite shift_from_length; rewrite !length_column; lia. }
  set (d2 := setitem d1 "prev_inspection_date" p).
  assert (L2 : length (rows d2) = length (rows d1)) by by apply length_rows_setitem.
  apply Forall2_agree_setitem; [apply Hcs; set_solver| |].
  { rewrite length_zip_with, !length_column.
    unfold d2. rewrite length_rows_setitem by done. lia. }
  apply Forall2_agree_setitem; [apply Hcs; set_solver|done|].
  apply Forall2_agree_setitem; [apply Hcs; set_solver|done|].
  apply Forall_Forall2_diag, Forall_forall. intros r _. apply agree_refl.
Qed.
End Agreement.

(** ** What the builder returns *)

Section HistoryValue.
Import Features.

Lemma forallb_Permutation {A} (f : A → bool) l l' :
  l ≡ₚ l' → forallb f l = forallb f l'.
Proof.
  induction 1 as [|x l l' H IH|x y l|l l' l'' H1 IH1 H2 IH2]; simpl;
    [done|by rewrite IH| |congruence].
  by destruct (f x), (f y).
Qed.

Lemma key_dtype_ok_rows c1 c2 d d' cs :
  c1 ∈ cs → c2 ∈ cs →
  (∃ l, l ≡ₚ rows d ∧ Forall2 (agree cs) l (rows d')) →
  key_dtype_ok c1 c2 d' = key_dtype_ok c1 c2 d.
Proof.
  intros H1 H2 (l & Hp & Ha). unfold key_dtype_ok, column.
  rewrite <- (map_cell_agree cs c1 l (rows d') H1 Ha).
  rewrite <- (map_cell_agree cs c2 l (rows d') H2 Ha).
  f_equal; apply forallb_Permutation; by apply Permutation_map.
Qed.

Lemma selected_agree df :
  Forall2 (agree (columns df)) (rows df) (rows (selected df)).
Proof.
  unfold selected; simpl. generalize (reordered df) (elem_of_reordered df).
  intros cols Hcols. induction (rows df) as [|r rs IH]; simpl; constructor; [|done].
  intros c Hc. symmetry. apply cell_restrict. by apply Hcols.
Qed.

Lemma agree_weaken cs cs' r r' :
  (∀ c, c ∈ cs' → c ∈ cs) → agree cs r r' → agree cs' r r'.
Proof. intros Hs H c Hc. apply H, Hs, Hc. Qed.

Lemma agree_trans cs r1 r2 r3 : agree cs r1 r2 → agree cs r2 r3 → agree cs r1 r3.
Proof. intros H1 H2 c Hc. by rewrite (H1 c Hc), (H2 c Hc). Qed.

Lemma Forall2_agree_weaken cs cs' l l' :
  (∀ c, c ∈ cs' → c ∈ cs) → Forall2 (agree cs) l l' → Forall2 (agree cs') l l'.
Proof.
  intros Hs H. eapply Forall2_impl; [exact H|]. intros r r'. by apply agree_weaken.
Qed.

Lemma Forall2_agree_trans cs l1 l2 l3 :
  Forall2 (agree cs) l1 l2 → Forall2 (agree cs) l2 l3 → Forall2 (agree cs) l1 l3.
Proof.
  intros H. revert l3. induction H; intros l3 H3; inversion H3; subst;
    constructor; eauto using agree_trans.
Qed.

(** The sorted, numbered selection [df_sub] holds the rows of [df], in
    sorted order, as far as columns other than the timing ones go. *)
Lemma df_sub_agree df cs :
  camis_col ∈ columns df → date_col ∈ columns df →
  (∀ c, c ∈ cs → c ∈ columns df) → (∀ c, c ∈ timing_cols → c ∉ cs) →
  Forall2 (agree cs) (stable_sort by_key (rows df))
    (rows (timed (mkDF (reordered df) (stable_sort by_key (rows (selected df)))))).
Proof.
  intros Hc Hd Hcs Ht.
  eapply Forall2_agree_trans; [|apply timed_agree, Ht]. simpl.
  apply (Forall2_agree_weaken (columns df)); [done|].
  apply stable_sort_agree; [done|done|apply selected_agree].
Qed.

Lemma has_column_true d c : has_column d c = true ↔ c ∈ columns d.
Proof. unfold has_column. apply bool_decide_eq_true. Qed.

Lemma has_column_timed_iff d c :
  c ∉ timing_cols → has_column (timed d) c = has_column d c.
Proof.
  intros Hc. unfold timed. rewrite !has_column_setitem.
  rewrite !bool_decide_eq_false_2; [by rewrite !orb_false_r|set_solver..].
Qed.

Lemma group_keys_perm c1 c2 l l' :
  l ≡ₚ l' → group_keys c1 c2 l = group_keys c1 c2 l'.
Proof.
  intros H. unfold group_keys. apply sorted_keys_ext. intros k.
  rewrite !list_elem_of_omap. by setoid_rewrite H.
Qed.

(** The grouped frame is sorted already: each row carries its key. *)
Lemma agg_row_key vcol rs k :
  cell (agg_row vcol rs k) camis_col = Str k.1 ∧
  cell (agg_row vcol rs k) date_col = Date k.2.
Proof. done. Qed.

Lemma row_compare_agg vcol rs k k' :
  row_compare camis_col date_col (agg_row vcol rs k) (agg_row vcol rs k')
  = key_compare k k'.
Proof.
  unfold row_compare.
  destruct (agg_row_key vcol rs k) as [-> ->].
  destruct (agg_row_key vcol rs k') as [-> ->]. done.
Qed.

Lemma agg_rows_sorted vcol rs ks :
  StronglySorted key_lt ks →
  stable_sort by_key (map (agg_row vcol rs) ks) = map (agg_row vcol rs) ks.
Proof.
  intros Hs. apply stable_sort_sorted.
  induction Hs as [|k ks Hs IH Hk]; simpl; constructor; [done|].
  destruct ks as [|k' ks]; simpl; constructor.
  unfold row_leb. rewrite row_compare_agg.
  apply Forall_inv in Hk. unfold key_lt in Hk. by rewrite Hk.
Qed.

Lemma agg_rows_dtype vcol rs ks :
  key_dtype_ok camis_col date_col (mkDF agg_columns (map (agg_row vcol rs) ks))
  = true.
Proof.
  unfold key_dtype_ok, column; simpl. rewrite !map_map.
  apply andb_true_iff. split; apply forallb_forall; intros c;
    rewrite in_map_iff; intros (k & <- & _);
    [destruct (agg_row_key vcol rs k) as [-> _]
    |destruct (agg_row_key vcol rs k) as [_ ->]]; done.
Qed.
End HistoryValue.

Section HistorySpec.
Import Features.

Lemma has_column_df_sub df rs c :
  c ∉ timing_cols →
  has_column (timed (mkDF (reordered df) rs)) c = has_column df c.
Proof.
  intros Hc. rewrite has_column_timed_iff by done.
  unfold has_column; simpl. apply bool_decide_ext, elem_of_reordered.
Qed.

Lemma count_column_df_sub df rs :
  count_column (timed (mkDF (reordered df) rs)) = count_column df.
Proof.
  unfold count_column. rewrite has_column_df_sub; [done|].
  unfold timing_cols. set_solver.
Qed.

Lemma count_column_cases df :
  count_column df = "violation_code" ∨ count_column df = "violation_description".
Proof. unfold count_column. destruct (has_column df _); auto. Qed.

Lemma agg_inputs_not_timing df c :
  c ∈ agg_inputs (count_column df) → c ∉ timing_cols.
Proof.
  unfold agg_inputs, timing_cols, camis_col, date_col.
  destruct (count_column_cases df) as [-> | ->]; set_solver.
Qed.

Lemma camis_in_inputs v : camis_col ∈ agg_inputs v.
Proof. apply elem_of_cons. by left. Qed.

Lemma date_in_inputs v : date_col ∈ agg_inputs v.
Proof. apply elem_of_cons. right. apply elem_of_cons. by left. Qed.

Lemma sort_values_selected df :
  has_column df camis_col = true → has_column df date_col = true →
  sort_values camis_col date_col (selected df) =
    if key_dtype_ok camis_col date_col df
    then Ok (mkDF (reordered df) (stable_sort by_key (rows (selected df))))
    else Err (TypeError "sort key").
Proof.
  intros Hc Hd. unfold sort_values; simpl.
  rewrite !has_column_selected, Hc, Hd.
  rewrite (key_dtype_ok_rows camis_col date_col df (selected df) (columns df));
    [done|by apply has_column_true..|].
  exists (rows df). split; [done|apply selected_agree].
Qed.

Lemma key_dtype_ok_df_sub df :
  has_column df camis_col = true → has_column df date_col = true →
  key_dtype_ok camis_col date_col
    (timed (mkDF (reordered df) (stable_sort by_key (rows (selected df)))))
  = key_dtype_ok camis_col date_col df.
Proof.
  intros Hc%has_column_true Hd%has_column_true.
  apply (key_dtype_ok_rows _ _ _ _ [camis_col; date_col]); [set_solver..|].
  exists (stable_sort by_key (rows df)). split; [apply stable_sort_perm|].
  apply df_sub_agree; [done|done|set_solver|].
  unfold timing_cols, camis_col, date_col. set_solver.
Qed.

Lemma forallb_has_column df cs :
  forallb (has_column df) cs = true ↔ first_missing df cs = None.
Proof.
  induction cs as [|c cs IH]; simpl; [done|].
  destruct (has_column df c); simpl; [done|]. split; done.
Qed.

Lemma groupby_agg_df_sub df :
  history_ok df = true →
  let d3 := timed (mkDF (reordered df) (stable_sort by_key (rows (selected df)))) in
  groupby_agg d3 (count_column d3) = Ok (mkDF agg_columns (visits df)).
Proof.
  intros Hok d3. unfold history_ok in Hok. apply andb_true_iff in Hok as [Hcols Hdt].
  assert (Hin : ∀ c, c ∈ agg_inputs (count_column df) → has_column df c = true).
  { intros c Hc. rewrite forallb_forall in Hcols. apply Hcols.
    by apply list_elem_of_In. }
  assert (Hc : has_column df camis_col = true) by apply Hin, camis_in_inputs.
  assert (Hd : has_column df date_col = true) by apply Hin, date_in_inputs.
  unfold d3 at 2. rewrite count_column_df_sub. unfold groupby_agg.
  fold (agg_inputs (count_column df)).
  assert (first_missing d3 (agg_inputs (count_column df)) = None) as ->.
  { apply forallb_has_column, forallb_forall. intros c Hcin%list_elem_of_In.
    unfold d3. rewrite has_column_df_sub by (by eapply agg_inputs_not_timing).
    by apply Hin. }
  unfold d3 at 1. rewrite key_dtype_ok_df_sub, Hdt by done.
  assert (Hag : Forall2 (agree (agg_inputs (count_column df)))
                  (stable_sort by_key (rows df)) (rows d3)).
  { apply df_sub_agree; [by apply has_column_true..| |].
    - intros c Hcin. by apply has_column_true, Hin.
    - intros c Hct Hcin. by apply agg_inputs_not_timing in Hcin. }
  do 2 f_equal. unfold visits.
  assert (group_keys camis_col date_col (rows d3)
          = group_keys camis_col date_col (rows df)) as ->.
  { unfold group_keys at 1.
    rewrite <- (omap_key_of_agree (agg_inputs (count_column df)) _ _ _ (rows d3)
                  (camis_in_inputs _) (date_in_inputs _) Hag).
    apply group_keys_perm, stable_sort_perm. }
  apply map_ext. intros k. symmetry. by apply agg_row_agree.
Qed.

Lemma sort_values_visits df :
  sort_values camis_col date_col (mkDF agg_columns (visits df))
  = Ok (mkDF agg_columns (visits df)).
Proof.
  unfold sort_values. cbn [first_missing].
  assert (has_column (mkDF agg_columns (visits df)) camis_col = true) as -> by done.
  assert (has_column (mkDF agg_columns (visits df)) date_col = true) as -> by done.
  unfold visits. rewrite agg_rows_dtype. cbn [rows columns].
  rewrite agg_rows_sorted; [done|apply sorted_keys_sorted].
Qed.

(** The builder succeeds on the frames [history_ok] accepts, and returns
    the grouped frame with its timing columns. *)
Lemma history_Ok df : history_ok df = true → history df = Ok (history_value df).
Proof.
  intros Hok. rewrite history_run. unfold history_frames.
  rewrite getitem_columns_reordered. cbn [rbind].
  pose proof Hok as Hok'. unfold history_ok in Hok'.
  apply andb_true_iff in Hok' as [Hcols Hdt].
  assert (Hc : has_column df camis_col = true).
  { rewrite forallb_forall in Hcols. apply Hcols. simpl. auto. }
  assert (Hd : has_column df date_col = true).
  { rewrite forallb_forall in Hcols. apply Hcols. simpl. auto. }
  rewrite sort_values_selected, Hdt by done. cbn [rbind].
  rewrite (groupby_agg_df_sub df Hok). cbn [rbind].
  rewrite sort_values_visits. done.
Qed.

Lemma history_Ok_inv df out : history df = Ok out → history_ok df = true.
Proof.
  rewrite history_run. unfold history_frames.
  rewrite getitem_columns_reordered. cbn [rbind].
  destruct (sort_values camis_col date_col (selected df)) as [d2|] eqn:Hs; [|done].
  cbn [rbind]. apply sort_values_Ok in Hs as (Hc & Hd & Hdt & ->).
  rewrite has_column_selected in Hc, Hd.
  change (columns (selected df)) with (reordered df).
  set (d3 := timed _).
  destruct (groupby_agg d3 (count_column d3)) as [d4|] eqn:Hg; [|done].
  intros _. unfold groupby_agg in Hg.
  destruct (first_missing d3 _) eqn:Hm; [done|].
  destruct (key_dtype_ok camis_col date_col d3) eqn:Hdt3; [|done].
  unfold d3 in Hm, Hdt3. rewrite count_column_df_sub in Hm.
  rewrite key_dtype_ok_df_sub in Hdt3 by done.
  unfold history_ok. rewrite Hdt3, andb_true_r.
  apply forallb_forall. intros c Hcin%list_elem_of_In.
  fold (agg_inputs (count_column df)) in Hm.
  rewrite <- forallb_has_column, forallb_forall in Hm.
  specialize (Hm c ltac:(by apply list_elem_of_In)).
  rewrite has_column_df_sub in Hm by (by eapply agg_inputs_not_timing). done.
Qed.

Lemma history_inv df out :
  history df = Ok out → history_ok df = true ∧ out = history_value df.
Proof.
  intros H. pose proof (history_Ok_inv _ _ H) as Hok. split; [done|].
  rewrite (history_Ok df Hok) in H. congruence.
Qed.
End HistorySpec.

(** ** The columns of the returned frame *)

Section HistoryColumns.
Import Features.

Lemma visits_columns df :
  let ks := group_keys camis_col date_col (rows df) in
  column (mkDF agg_columns (visits df)) camis_col = ids_of ks ∧
  column (mkDF agg_columns (visits df)) date_col = dates_of ks.
Proof.
  unfold column, visits, ids_of, dates_of; simpl. rewrite !map_map.
  split; apply map_ext; intros k; apply agg_row_key.
Qed.

Lemma history_value_columns df :
  let ks := group_keys camis_col date_col (rows df) in
  let out := history_value df in
  length (rows out) = length ks ∧
  column out camis_col = ids_of ks ∧
  column out date_col = dates_of ks ∧
  column out "inspection_number" = add_one <$> cumcount (ids_of ks) ∧
  column out "prev_inspection_date" = shift (ids_of ks) (dates_of ks) ∧
  column out "days_since_prev"
    = zip_with days_between (dates_of ks) (shift (ids_of ks) (dates_of ks)).
Proof.
  intros ks out. unfold out, history_value.
  destruct (timed_columns (mkDF agg_columns (visits df)))
    as (Hlen & Hother & Hn & Hp & Hd).
  destruct (visits_columns df) as [Hids Hdates]. fold ks in Hids, Hdates.
  rewrite Hids, Hdates in *.
  split; [|split; [|split]].
  - rewrite Hlen. unfold visits; simpl. by rewrite length_map.
  - rewrite Hother; [done|]. unfold timing_cols, camis_col. set_solver.
  - rewrite Hother; [done|]. unfold timing_cols, date_col. set_solver.
  - done.
Qed.

Lemma pick_rows e rs c :
  map (λ v, cell v c) (List.filter (of_establishment e) rs)
  = pick e (map (λ v, cell v camis_col) rs) (map (λ v, cell v c) rs).
Proof.
  induction rs as [|r rs IH]; simpl; [done|]. unfold of_establishment at 1.
  destruct (bool_decide _); simpl; by rewrite IH.
Qed.

Lemma pick_zip_with e f ids xs ys :
  length xs = length ids → length ys = length ids →
  pick e ids (zip_with f xs ys) = zip_with f (pick e ids xs) (pick e ids ys).
Proof.
  revert xs ys. induction ids as [|i ids IH]; intros [|x xs] [|y ys] Hx Hy;
    simpl in *; try done.
  destruct (bool_decide _); simpl; rewrite IH; (done || lia).
Qed.

Lemma pick_length e ids xs ys :
  length xs = length ids → length ys = length ids →
  length (pick e ids xs) = length (pick e ids ys).
Proof.
  revert xs ys. induction ids as [|i ids IH]; intros [|x xs] [|y ys] Hx Hy;
    simpl in *; try done.
  destruct (bool_decide _); simpl; rewrite (IH xs ys); (done || lia).
Qed.

Lemma ints_from_seq s n :
  ints_from s n = map (λ i, Int (s + Z.of_nat i)) (seq 0 n).
Proof.
  revert s. induction n as [|n IH]; intros s; simpl; [done|].
  rewrite Z.add_0_r. f_equal. rewrite IH, <- seq_shift, map_map.
  apply map_ext. intros i. f_equal. lia.
Qed.

Lemma pick_cumcount e seen ids :
  pick e ids (add_one <$> cumcount_from seen ids)
  = ints_from (default 0 (seen !! e) + 1) (length (pick e ids ids)).
Proof.
  revert seen. induction ids as [|i ids IH]; intros seen; simpl; [done|].
  destruct (str_of i) as [s|] eqn:Hs; simpl.
  - case_bool_decide as He.
    + injection He as ->. simpl. f_equal. rewrite IH.
      by rewrite lookup_insert_eq.
    + rewrite IH. rewrite lookup_insert_ne; [done|congruence].
  - apply IH.
Qed.

(** Lag: the rows of one establishment see the date of the one before. *)
Lemma pick_shift e last ids dates :
  length dates = length ids →
  pick e ids (shift_from last ids dates)
  = take (length (pick e ids dates)) (default NA (last !! e) :: pick e ids dates).
Proof.
  revert last dates. induction ids as [|i ids IH]; intros last [|d dates] Hlen;
    simpl in *; try done.
  destruct (str_of i) as [s|] eqn:Hs; simpl.
  - case_bool_decide as He.
    + injection He as ->. simpl. f_equal. rewrite IH by lia.
      by rewrite lookup_insert_eq.
    + rewrite IH by lia. rewrite lookup_insert_ne; [done|congruence].
  - apply IH. lia.
Qed.

Lemma pick_dates e ks : pick e (ids_of ks) (dates_of ks) = map Date (dates_in e ks).
Proof.
  unfold dates_in. induction ks as [|k ks IH]; simpl; [done|].
  destruct (decide (k.1 = e)) as [He|He].
  - rewrite !bool_decide_eq_true_2 by congruence. simpl. by rewrite IH.
  - rewrite !bool_decide_eq_false_2 by congruence. done.
Qed.

Lemma dates_in_sorted e ks :
  StronglySorted key_lt ks → StronglySorted Z.lt (dates_in e ks).
Proof.
  unfold dates_in. induction 1 as [|k ks Hs IH Hk]; simpl; [constructor|].
  case_bool_decide as He; simpl; [|done]. constructor; [done|].
  apply Forall_forall. intros d Hd.
  apply list_elem_of_fmap in Hd as ([s d'] & -> & Hin).
  apply elem_of_List_filter in Hin as [Hin He'].
  apply bool_decide_eq_true in He'. simpl in *. subst s.
  eapply Forall_forall in Hk; [|done]. destruct k as [s t]; simpl in *. subst s.
  unfold key_lt, key_compare, lex in Hk; simpl in Hk.
  rewrite string_compare_refl in Hk. by apply Z.compare_lt_iff.
Qed.

Lemma elem_of_dates_in e d ks : d ∈ dates_in e ks ↔ (e, d) ∈ ks.
Proof.
  unfold dates_in. rewrite list_elem_of_fmap. split.
  - intros ([s d'] & -> & Hin). apply elem_of_List_filter in Hin as [Hin He].
    apply bool_decide_eq_true in He. simpl in *. by subst.
  - intros Hin. exists (e, d). split; [done|]. apply elem_of_List_filter.
    split; [done|]. by apply bool_decide_eq_true.
Qed.

Lemma elem_of_group_keys c1 c2 rs k :
  k ∈ group_keys c1 c2 rs ↔ ∃ r, r ∈ rs ∧ key_of c1 c2 r = Some k.
Proof. unfold group_keys. by rewrite elem_of_sorted_keys, list_elem_of_omap. Qed.
End HistoryColumns.

(** ** The History Builder: numbering and lag *)

Section HistoryTheorems.
Import Features.

Lemma establishment_columns df e :
  let ks := group_keys camis_col date_col (rows df) in
  let vs := List.filter (of_establishment e) (rows (history_value df)) in
  let ds := dates_in e ks in
  map (λ v, cell v date_col) vs = map Date ds ∧
  map (λ v, cell v "inspection_number") vs = ints_from 1 (length ds) ∧
  map (λ v, cell v "prev_inspection_date") vs
    = take (length ds) (NA :: map Date ds) ∧
  map (λ v, cell v "days_since_prev") vs
    = zip_with days_between (map Date ds) (take (length ds) (NA :: map Date ds)).
Proof.
  intros ks vs ds. unfold vs. rewrite !pick_rows.
  destruct (history_value_columns df) as (Hlen & Hc & Hd & Hn & Hp & Hy).
  fold ks in Hlen, Hc, Hd, Hn, Hp, Hy. unfold column in *.
  rewrite Hc, Hd, Hn, Hp, Hy.
  assert (Li : length (ids_of ks) = length ks) by apply length_map.
  assert (Ld : length (dates_of ks) = length ks) by apply length_map.
  assert (Hds : pick e (ids_of ks) (dates_of ks) = map Date ds) by apply pick_dates.
  assert (Hlds : length (pick e (ids_of ks) (ids_of ks)) = length ds).
  { rewrite (pick_length e _ _ (dates_of ks)) by lia.
    by rewrite Hds, length_map. }
  assert (Hsh : pick e (ids_of ks) (shift (ids_of ks) (dates_of ks))
                = take (length ds) (NA :: map Date ds)).
  { unfold shift. rewrite pick_shift by lia.
    by rewrite Hds, length_map, lookup_empty. }
  split; [done|]. split; [|split; [done|]].
  - unfold cumcount. by rewrite pick_cumcount, lookup_empty, Hlds.
  - rewrite pick_zip_with; [by rewrite Hds, Hsh|lia|].
    unfold shift. rewrite shift_from_length; lia.
Qed.

(** C7: in the builder's output, the visits of one establishment stand in
    strictly ascending date order, one visit for every date the
    establishment has in the input, and their inspection_number values are
    1, 2, 3, ... in that order. *)
Theorem inspection_number_sequence df out e :
  history df = Ok out →
  let vs := List.filter (of_establishment e) (rows out) in
  ∃ ds : list Z,
    map (λ v, cell v date_col) vs = map Date ds ∧
    StronglySorted Z.lt ds ∧
    (∀ d, d ∈ ds ↔ ∃ r, r ∈ rows df ∧ key_of camis_col date_col r = Some (e, d)) ∧
    map (λ v, cell v "inspection_number") vs
      = map (λ i, Int (Z.of_nat i)) (seq 1 (length vs)).
Proof.
  intros [_ ->]%history_inv vs.
  destruct (establishment_columns df e) as (Hd & Hn & _).
  exists (dates_in e (group_keys camis_col date_col (rows df))).
  split; [exact Hd|]. split; [apply dates_in_sorted, sorted_keys_sorted|]. split.
  - intros d. by rewrite elem_of_dates_in, elem_of_group_keys.
  - fold vs in Hd, Hn. rewrite Hn.
    assert (length vs = length (dates_in e (group_keys camis_col date_col (rows df))))
      as -> by (by rewrite <- (length_map (λ v, cell v date_col) vs), Hd, length_map).
    rewrite ints_from_seq, <- seq_shift, map_map. apply map_ext.
    intros i. f_equal. lia.
Qed.

(** C8: for one establishment, the first visit has no previous date and no
    days_since_prev; every later visit has the date of the visit just
    before it as previous date, and as days_since_prev the whole days
    between the two dates; and wherever the date or the previous date is
    missing, days_since_prev is missing. *)
Theorem days_since_prev_lag df out e :
  history df = Ok out →
  let vs := List.filter (of_establishment e) (rows out) in
  (∀ v, vs !! 0%nat = Some v →
        cell v "prev_inspection_date" = NA ∧ cell v "days_since_prev" = NA) ∧
  (∀ i u v, vs !! i = Some u → vs !! S i = Some v →
     ∃ p t, cell u date_col = Date p ∧ cell v date_col = Date t ∧
            cell v "prev_inspection_date" = Date p ∧
            cell v "days_since_prev" = Int ((t - p) `div` NANOS_PER_DAY)) ∧
  (∀ v, v ∈ rows out →
     isna (cell v date_col) = true ∨ isna (cell v "prev_inspection_date") = true →
     cell v "days_since_prev" = NA).
Proof.
  intros [_ ->]%history_inv vs.
  destruct (establishment_columns df e) as (Hd & _ & Hp & Hy).
  fold vs in Hd, Hp, Hy.
  set (ds := dates_in e (group_keys camis_col date_col (rows df))) in *.
  assert (Hcell : ∀ i v c, vs !! i = Some v →
            map (λ v, cell v c) vs !! i = Some (cell v c)).
  { intros i v c Hv. change (map ?f ?l) with (f <$> l).
    by rewrite list_lookup_fmap, Hv. }
  assert (Hdate : ∀ i v, vs !! i = Some v →
            ∃ t, ds !! i = Some t ∧ cell v date_col = Date t).
  { intros i v Hv. pose proof (Hcell i v date_col Hv) as H. rewrite Hd in H.
    change (map ?f ?l) with (f <$> l) in H. rewrite list_lookup_fmap in H.
    destruct (ds !! i) as [t|]; [|done]. exists t. split; [done|].
    by injection H. }
  assert (Hlt : ∀ i v, vs !! i = Some v → (i < length ds)%nat).
  { intros i v Hv. destruct (Hdate i v Hv) as (t & Ht & _).
    by apply lookup_lt_Some in Ht. }
  split; [|split].
  - intros v Hv. destruct (Hdate _ _ Hv) as (t & Ht & Hvt).
    pose proof (Hcell _ _ "prev_inspection_date" Hv) as HP.
    pose proof (Hcell _ _ "days_since_prev" Hv) as HY.
    rewrite Hp in HP. rewrite Hy in HY.
    rewrite lookup_take_lt in HP by eauto. injection HP as HP.
    rewrite lookup_zip_with, lookup_take_lt in HY by eauto. simpl in HY.
    change (map ?f ?l) with (f <$> l) in HY.
    rewrite list_lookup_fmap, Ht in HY. simpl in HY. injection HY as HY.
    by rewrite <- HP, <- HY.
  - intros i u v Hu Hv.
    destruct (Hdate _ _ Hu) as (p & Hp' & Hup).
    destruct (Hdate _ _ Hv) as (t & Ht & Hvt).
    pose proof (Hcell _ _ "prev_inspection_date" Hv) as HP.
    pose proof (Hcell _ _ "days_since_prev" Hv) as HY.
    rewrite Hp in HP. rewrite Hy in HY.
    rewrite lookup_take_lt in HP by eauto. simpl in HP.
    rewrite lookup_zip_with, lookup_take_lt in HY by eauto. simpl in HY.
    change (map ?f ?l) with (f <$> l) in HP, HY.
    rewrite list_lookup_fmap, Hp' in HP. simpl in HP. injection HP as HP.
    rewrite !list_lookup_fmap, Ht, Hp' in HY. simpl in HY. injection HY as HY.
    exists p, t. by rewrite <- HP, <- HY.
  - intros v Hv Hna.
    destruct (history_value_columns df) as (_ & _ & Hdc & _ & Hpc & Hyc).
    rewrite <- Hpc, <- Hdc in Hyc. unfold column in Hyc.
    assert (cell v "days_since_prev"
            = days_between (cell v date_col) (cell v "prev_inspection_date")) as ->.
    { revert Hv Hyc. generalize (rows (history_value df)). intros rs.
      induction rs as [|r rs IH]; intros Hv Hyc; [by apply elem_of_nil in Hv|].
      simpl in Hyc. injection Hyc as Hr Hrs.
      apply elem_of_cons in Hv as [->|Hv]; [done|by apply IH]. }
    unfold days_between.
    destruct Hna as [Hna|Hna];
      [destruct (cell v date_col)|destruct (cell v "prev_inspection_date")];
      try done; simpl; by destruct (date_of _).
Qed.
End HistoryTheorems.

(** ** The History Builder: groups and row order *)

Section HistoryGroups.
Import Features.

Lemma history_ok_perm df df' :
  columns df' = columns df → rows df' ≡ₚ rows df →
  history_ok df' = history_ok df.
Proof.
  intros Hc Hr. unfold history_ok.
  assert (Hh : ∀ c, has_column df' c = has_column df c).
  { intros c. unfold has_column. by rewrite Hc. }
  assert (count_column df' = count_column df) as ->.
  { unfold count_column. by rewrite Hh. }
  f_equal.
  - induction (agg_inputs (count_column df)) as [|c cs IH]; simpl; [done|].
    by rewrite Hh, IH.
  - apply (key_dtype_ok_rows _ _ _ _ [camis_col; date_col]); [set_solver..|].
    exists (rows df'). split; [by symmetry|].
    apply Forall_Forall2_diag, Forall_forall. intros r _. apply agree_refl.
Qed.

Lemma map_pair {A B C} (f : A → B) (g : A → C) l :
  map (λ x, (f x, g x)) l = zip (map f l) (map g l).
Proof. induction l; simpl; [done|]. by f_equal. Qed.

(** C9: the builder is a function of its input, and two frames with the
    same columns whose rows are a permutation of one another get the same
    keys, inspection_number, prev_inspection_date and days_since_prev
    columns, hence the same inspection_number and days_since_prev
    sequences for every establishment. *)
Theorem history_row_order_independent df df' out :
  columns df' = columns df → rows df' ≡ₚ rows df →
  history df = Ok out →
  ∃ out', history df' = Ok out' ∧
    (∀ c, c ∈ [camis_col; date_col; "inspection_number";
               "prev_inspection_date"; "days_since_prev"] →
          column out' c = column out c) ∧
    (∀ e, map (λ v, (cell v "inspection_number", cell v "days_since_prev"))
              (List.filter (of_establishment e) (rows out'))
          = map (λ v, (cell v "inspection_number", cell v "days_since_prev"))
              (List.filter (of_establishment e) (rows out))).
Proof.
  intros Hc Hr [Hok ->]%history_inv.
  exists (history_value df'). split.
  - apply history_Ok. by rewrite (history_ok_perm df df').
  - pose proof (group_keys_perm camis_col date_col _ _ Hr) as Hks. split.
    + intros c Hin.
      destruct (history_value_columns df) as (_ & H1 & H2 & H3 & H4 & H5).
      destruct (history_value_columns df') as (_ & H1' & H2' & H3' & H4' & H5').
      rewrite Hks in H1', H2', H3', H4', H5'.
      repeat (apply elem_of_cons in Hin as [->|Hin]; [congruence|]).
      by apply elem_of_nil in Hin.
    + intros e. rewrite !map_pair.
      destruct (establishment_columns df e) as (_ & Hn & _ & Hy).
      destruct (establishment_columns df' e) as (_ & Hn' & _ & Hy').
      rewrite Hks in Hn', Hy'. by rewrite Hn, Hy, Hn', Hy'.
Qed.

Lemma map_key_of_columns rs ks :
  map (λ r, cell r camis_col) rs = ids_of ks →
  map (λ r, cell r date_col) rs = dates_of ks →
  map (key_of camis_col date_col) rs = map Some ks.
Proof.
  revert ks. induction rs as [|r rs IH]; intros [|k ks] Hi Hd; simpl in *;
    try done.
  injection Hi as Hi1 Hi2. injection Hd as Hd1 Hd2.
  rewrite (IH ks) by done. unfold key_of. rewrite Hi1, Hd1. by destruct k.
Qed.

(** C2, as the code has it: the output has exactly one row for every
    (establishment_id, inspection_date) pair of the input in which both
    are present; every output row has a date, so rows with a missing
    inspection_date (or identifier) belong to no visit. *)
Theorem visits_one_per_dated_pair df out :
  history df = Ok out →
  ∃ ks : list Key,
    map (key_of camis_col date_col) (rows out) = map Some ks ∧
    NoDup ks ∧
    (∀ k, k ∈ ks ↔ ∃ r, r ∈ rows df ∧ key_of camis_col date_col r = Some k) ∧
    (∀ v, v ∈ rows out → isna (cell v date_col) = false).
Proof.
  intros [_ ->]%history_inv.
  exists (group_keys camis_col date_col (rows df)).
  destruct (history_value_columns df) as (_ & Hi & Hd & _).
  pose proof (map_key_of_columns _ _ Hi Hd) as Hk.
  split; [done|]. split; [apply sorted_keys_NoDup|]. split.
  - intros k. apply elem_of_group_keys.
  - intros v Hv.
    assert (Hin : key_of camis_col date_col v
                  ∈ map (key_of camis_col date_col) (rows (history_value df))).
    { apply list_elem_of_In, in_map, list_elem_of_In, Hv. }
    rewrite Hk in Hin. apply list_elem_of_In, in_map_iff in Hin as (k & Hkv & _).
    unfold key_of in Hkv.
    destruct (cell v date_col); try done; simpl in Hkv; by destruct (str_of _).
Qed.

Lemma Forall2_elem_of_r {A B} (R : A → B → Prop) l l' y :
  Forall2 R l l' → y ∈ l' → ∃ x, x ∈ l ∧ R x y.
Proof.
  induction 1 as [|a b l l' Hab H IH]; intros Hy; [by apply elem_of_nil in Hy|].
  apply elem_of_cons in Hy as [->|Hy].
  - exists a. split; [by left|done].
  - destruct (IH Hy) as (x & Hx & HR). exists x. split; [by right|done].
Qed.

Lemma length_filter_Permutation {A} (f : A → bool) l l' :
  l ≡ₚ l' → length (List.filter f l) = length (List.filter f l').
Proof.
  induction 1 as [|x l l' H IH|x y l|l l' l'' H1 IH1 H2 IH2]; simpl;
    [done| | |congruence].
  - destruct (f x); simpl; by rewrite IH.
  - by destruct (f x), (f y).
Qed.

Lemma agg_count_group c rs k :
  agg_count (map (λ r, cell r c) (group_rows camis_col date_col rs k))
  = Z.of_nat (length (List.filter
      (λ r, bool_decide (key_of camis_col date_col r = Some k) && notna (cell r c))
      rs)).
Proof.
  unfold agg_count, group_rows. f_equal.
  induction rs as [|r rs IH]; simpl; [done|].
  destruct (bool_decide _); simpl; [|done].
  destruct (notna (cell r c)); simpl; by rewrite IH.
Qed.

(** C1, as the code has it: when the frame has a violation_code column,
    a visit's violation_count is the number of rows of its group whose
    violation_code is present; when the frame has no such column, it is
    the number of rows of the group whose violation_description is
    present. *)
Theorem violation_count_counts_present df out v :
  history df = Ok out → v ∈ rows out →
  ∃ c d,
    cell v camis_col = Str c ∧ cell v date_col = Date d ∧
    cell v "violation_count" =
      Int (Z.of_nat (length (List.filter
        (λ r, bool_decide (key_of camis_col date_col r = Some (c, d))
              && notna (cell r (if has_column df "violation_code"
                                then "violation_code"
                                else "violation_description")))
        (rows df)))).
Proof.
  intros [_ ->]%history_inv Hv. unfold history_value in Hv.
  pose proof (timed_agree agg_columns (mkDF agg_columns (visits df))) as Ha.
  destruct (Forall2_elem_of_r _ _ _ _
              (Ha ltac:(unfold timing_cols, agg_columns, camis_col, date_col;
                        set_solver)) Hv) as (a & Hin & Hav).
  simpl in Hin. unfold visits in Hin.
  apply list_elem_of_In, in_map_iff in Hin as ([c d] & <- & _).
  exists c, d.
  rewrite <- (Hav camis_col), <- (Hav date_col), <- (Hav "violation_count");
    [|unfold agg_columns; set_solver..].
  split; [done|]. split; [done|].
  fold (count_column df).
  transitivity (Int (agg_count (map (λ r, cell r (count_column df))
     (group_rows camis_col date_col (stable_sort (row_leb camis_col date_col) (rows df)) (c, d)))));
    [done|].
  rewrite agg_count_group. do 2 f_equal.
  apply length_filter_Permutation, stable_sort_perm.
Qed.
End HistoryGroups.

(** ** The Hygiene Index Calculator in the store *)

Section HygieneRun.
Import Features Hygiene.

Lemma wp_float_series l c d st Q :
  st !! l = Some d →
  match Series.float_column d c with
  | Ok s => Q (Ok s) st
  | Err e => Q (Err e) st
  end →
  wp (float_series l c) st Q.
Proof.
  intros Hl H. apply wp_bind, (wp_deref _ d); [done|]. apply wp_lift.
  by destruct (Series.float_column d c).
Qed.

(** The calculator, run on a location that holds [df]: it leaves every
    object of the store as it was and returns a new object. *)
Lemma compute_hygiene_index_run ws wc wv st l df :
  st !! l = Some df →
  wp (compute_hygiene_index_with ws wc wv l) st (λ r st',
    keeps st st' ∧
    match r with
    | Ok l' => ∃ out, hygiene_frames ws wc wv df = Ok out ∧
                      st !! l' = None ∧ st' !! l' = Some out
    | Err e => hygiene_frames ws wc wv df = Err e
    end).
Proof.
  intros Hl. unfold compute_hygiene_index_with, hygiene_frames.
  apply wp_bind, (wp_copy _ df); [done|]. intros l1 Hl1.
  assert (K : ∀ d, keeps st (<[l1 := d]> st)).
  { intros d. apply keeps_insert; [apply keeps_refl|done]. }
  apply wp_bind, (wp_float_series _ _ df); [by rewrite lookup_insert_eq|].
  destruct (Series.float_column df "score") as [score|e]; [|by split].
  cbn [rbind]. apply wp_bind, (wp_assign _ _ _ df); [by rewrite lookup_insert_eq|].
  rewrite insert_insert_eq. set (d1 := setitem df "score_filled" _).
  apply wp_bind, (wp_float_series _ _ d1); [by rewrite lookup_insert_eq|].
  destruct (Series.float_column d1 "score_filled") as [s|e]; [|by split].
  cbn [rbind]. apply wp_bind, (wp_float_series _ _ d1); [by rewrite lookup_insert_eq|].
  destruct (Series.float_column d1 "critical_violations") as [cv|e]; [|by split].
  cbn [rbind]. apply wp_bind, (wp_float_series _ _ d1); [by rewrite lookup_insert_eq|].
  destruct (Series.float_column d1 "violation_count") as [vc|e]; [|by split].
  cbn [rbind]. apply wp_bind, (wp_assign _ _ _ d1); [by rewrite lookup_insert_eq|].
  rewrite insert_insert_eq. set (d2 := setitem d1 "hygiene_index_raw" _).
  apply wp_bind, (wp_float_series _ _ d2); [by rewrite lookup_insert_eq|].
  destruct (Series.float_column d2 "hygiene_index_raw") as [raw|e]; [|by split].
  cbn [rbind]. apply wp_bind, (wp_assign _ _ _ d2); [by rewrite lookup_insert_eq|].
  rewrite insert_insert_eq. apply wp_ret. split; [apply K|].
  eexists. split; [done|]. split; [done|]. by rewrite lookup_insert_eq.
Qed.

Lemma hygiene_run df :
  hygiene df
  = hygiene_frames WEIGHT_SCORE WEIGHT_CRITICAL WEIGHT_VIOLATION_COUNT df.
Proof.
  pose proof (compute_hygiene_index_run WEIGHT_SCORE WEIGHT_CRITICAL
                WEIGHT_VIOLATION_COUNT {[ 0%nat := df ]} 0%nat df
                (lookup_singleton_eq _ _)) as H.
  unfold wp in H. unfold hygiene, run_on, compute_hygiene_index.
  destruct (compute_hygiene_index_with _ _ _ 0%nat {[ 0%nat := df ]})
    as [[l'|e] st']; simpl in H; destruct H as [_ H].
  - destruct H as (out & -> & _ & ->). done.
  - done.
Qed.

(** ** What the calculator changes in the frame *)

Lemma extends_by_refl cs df : extends_by cs df df.
Proof.
  split; [apply Forall_Forall2_diag, Forall_forall; by intros|].
  exists []. split; [by rewrite app_nil_r|]. intros c Hc. by apply elem_of_nil in Hc.
Qed.

Lemma extends_by_setitem cs df d c vs :
  c ∈ cs → length vs = length (rows d) →
  extends_by cs df d → extends_by cs df (setitem d c vs).
Proof.
  intros Hc Hlen [Hrows (extra & Hcols & Hextra)]. split.
  - rewrite rows_setitem. revert vs Hlen.
    induction Hrows as [|r v rs vs' Hrv Hrows IH]; intros [|x xs] Hlen;
      simpl in *; try done.
    constructor; [|apply IH; lia].
    intros c' Hc'. rewrite lookup_insert_ne; [by apply Hrv|]. by intros ->.
  - unfold setitem; simpl. destruct (has_column d c).
    + by exists extra.
    + exists (extra ++ [c])%list. split; [by rewrite Hcols, app_assoc|].
      intros c' [?| ->%list_elem_of_singleton]%elem_of_app; auto.
Qed.

Lemma extends_by_length cs df out :
  extends_by cs df out → length (rows out) = length (rows df).
Proof. intros [H _]. symmetry. by eapply Forall2_length. Qed.

Lemma to_floats_length c cs s : Series.to_floats c cs = Ok s → length s = length cs.
Proof.
  revert s. induction cs as [|x cs IH]; intros s; simpl; [by intros [= <-]|].
  destruct (Series.to_float x); [|done].
  destruct (Series.to_floats c cs) as [vs|]; [|done]. simpl.
  intros [= <-]. simpl. by rewrite (IH vs).
Qed.

Lemma float_column_length d c s :
  Series.float_column d c = Ok s → length s = length (rows d).
Proof.
  unfold Series.float_column, getitem. destruct (has_column d c); [|done].
  simpl. destruct (existsb Series.is_bool (column d c)); [done|].
  intros H%to_floats_length. by rewrite H, length_column.
Qed.

Lemma weighted_length ws wc wv s cv vc :
  length cv = length s → length vc = length s →
  length (weighted ws wc wv s cv vc) = length s.
Proof.
  revert cv vc. induction s as [|x s IH]; intros [|y cv] [|z vc] H1 H2;
    simpl in *; try done.
  rewrite IH; lia.
Qed.

Lemma hygiene_frames_extends ws wc wv df out :
  hygiene_frames ws wc wv df = Ok out → extends_by index_cols df out.
Proof.
  unfold hygiene_frames.
  destruct (Series.float_column df "score") as [score|] eqn:H0; [|done].
  cbn [rbind]. set (d1 := setitem df "score_filled" _).
  assert (E1 : extends_by index_cols df d1).
  { apply extends_by_setitem; [unfold index_cols; set_solver| |apply extends_by_refl].
    unfold Series.fillna. rewrite length_fmap, length_map.
    by apply float_column_length in H0. }
  destruct (Series.float_column d1 "score_filled") as [s|] eqn:H1; [|done].
  destruct (Series.float_column d1 "critical_violations") as [cv|] eqn:H2; [|done].
  destruct (Series.float_column d1 "violation_count") as [vc|] eqn:H3; [|done].
  cbn [rbind]. set (d2 := setitem d1 "hygiene_index_raw" _).
  apply float_column_length in H1, H2, H3.
  assert (E2 : extends_by index_cols df d2).
  { apply extends_by_setitem; [unfold index_cols; set_solver| |done].
    rewrite length_fmap, weighted_length; unfold Series.minmax, Series.fillna;
      rewrite !length_map; congruence. }
  destruct (Series.float_column d2 "hygiene_index_raw") as [raw|] eqn:H4; [|done].
  cbn [rbind]. intros [= <-]. apply float_column_length in H4.
  apply extends_by_setitem; [unfold index_cols; set_solver| |done].
  by rewrite length_fmap, length_map.
Qed.

End HygieneRun.

(** ** The Aggregator *)

Section AggregatorTheorems.
Import Features Aggregate.
Context (parse_datetime : string → option Z) (period_start : Z → Z).

Abbreviation aggregate := (Aggregate.aggregate parse_datetime period_start).
Abbreviation has_date_and_zip := (Aggregate.has_date_and_zip parse_datetime).
Abbreviation coerced := (Aggregate.coerced parse_datetime).
Abbreviation periodized := (Aggregate.periodized period_start).

Lemma zip_with_insert_map (rs : list Row) c c' (f : Cell → Cell) :
  zip_with (λ (r : Row) v, <[c := v]> r) rs (f <$> map (λ r, cell r c') rs)
  = map (λ r : Row, <[c := f (cell r c')]> r) rs.
Proof. induction rs as [|r rs IH]; simpl; [done|]. by f_equal. Qed.

Lemma rows_setitem_map df c c' (f : Cell → Cell) :
  rows (setitem df c (f <$> column df c'))
  = map (λ r : Row, <[c := f (cell r c')]> r) (rows df).
Proof. rewrite rows_setitem. apply zip_with_insert_map. Qed.

Lemma with_period_rows df d :
  with_period parse_datetime period_start DATE_COL ZIP_COL df = Ok d →
  rows d = map (λ r, periodized (coerced r)) (List.filter has_date_and_zip (rows df)).
Proof.
  unfold with_period. destruct (getitem df DATE_COL) as [dates|] eqn:Hg; [|done].
  unfold getitem in Hg. destruct (has_column df DATE_COL); [|done].
  injection Hg as <-. cbn [rbind].
  destruct (first_missing _ _); [done|]. intros [= <-].
  rewrite rows_setitem_map. cbn [rows]. unfold column.
  rewrite zip_with_insert_map. fold coerced. unfold dropna.
  induction (rows df) as [|r rs IH]; simpl; [done|].
  unfold Aggregate.has_date_and_zip at 1.
  assert (cell (coerced r) DATE_COL = to_datetime parse_datetime (cell r DATE_COL))
    as -> by apply cell_insert_eq.
  assert (cell (coerced r) ZIP_COL = cell r ZIP_COL) as ->
    by (by apply cell_insert_ne).
  destruct (_ && _); simpl; by rewrite IH.
Qed.

Lemma with_period_columns df d :
  with_period parse_datetime period_start DATE_COL ZIP_COL df = Ok d →
  ∀ df', columns df' = columns df →
    List.filter has_date_and_zip (rows df') = List.filter has_date_and_zip (rows df) →
    with_period parse_datetime period_start DATE_COL ZIP_COL df' = Ok d.
Proof.
  intros H df' Hc Hr. pose proof (with_period_rows df d H) as Hd.
  assert (Hh : ∀ c, has_column df' c = has_column df c).
  { intros c. unfold has_column. by rewrite Hc. }
  revert H. unfold with_period, getitem. rewrite Hh.
  destruct (has_column df DATE_COL) eqn:Hdc; [|done]. cbn [rbind].
  set (df1 := setitem df _ _). set (df1' := setitem df' _ _).
  assert (Hc1 : columns df1' = columns df1).
  { unfold df1, df1', setitem; simpl. by rewrite Hh, Hc. }
  assert (first_missing df1' [DATE_COL; ZIP_COL] = first_missing df1 [DATE_COL; ZIP_COL])
    as ->.
  { unfold first_missing, has_column. by rewrite Hc1. }
  assert (dropna DATE_COL ZIP_COL (rows df1') = dropna DATE_COL ZIP_COL (rows df1))
    as Hdrop.
  { unfold df1, df1'. rewrite !rows_setitem_map. fold coerced. unfold dropna.
    assert (Hf : ∀ rs, List.filter (λ r, notna (cell r DATE_COL) && notna (cell r ZIP_COL))
                         (map coerced rs)
                       = map coerced (List.filter has_date_and_zip rs)).
    { induction rs as [|r rs IH]; simpl; [done|].
      unfold Aggregate.has_date_and_zip at 1.
      assert (cell (coerced r) DATE_COL
              = to_datetime parse_datetime (cell r DATE_COL)) as ->
        by apply cell_insert_eq.
      assert (cell (coerced r) ZIP_COL = cell r ZIP_COL) as ->
        by (by apply cell_insert_ne).
      destruct (_ && _); simpl; by rewrite IH. }
    by rewrite !Hf, Hr. }
  destruct (first_missing df1 _); [done|]. intros [= <-].
  by rewrite Hc1, Hdrop.
Qed.

Lemma filter_filter_same {A} (f : A → bool) l :
  List.filter f (List.filter f l) = List.filter f l.
Proof.
  induction l as [|x l IH]; simpl; [done|].
  destruct (f x) eqn:E; simpl; [by rewrite E, IH|done].
Qed.

Lemma collect_Ok {A} (xs : list (result A)) rs :
  collect xs = Ok rs → Forall2 (λ x r, x = Ok r) xs rs.
Proof.
  revert rs. induction xs as [|x xs IH]; intros rs; simpl.
  - intros [= <-]. constructor.
  - destruct x as [a|]; [|done]. simpl.
    destruct (collect xs) as [l|]; [|done]. simpl. intros [= <-].
    constructor; [done|by apply IH].
Qed.

Lemma zip_agg_row_key rs k v :
  zip_agg_row ZIP_COL rs k = Ok v →
  cell v ZIP_COL = Str k.1 ∧ cell v "period" = Date k.2.
Proof.
  unfold zip_agg_row.
  destruct (mean_of _ "hygiene_index"); [|done].
  destruct (median_of _ "hygiene_index"); [|done].
  destruct (mean_of _ "score"); [|done].
  destruct (mean_of _ "critical_violations"); [|done].
  cbn [rbind]. by intros [= <-].
Qed.

(** X22: The aggregator on its own: every row it emits is keyed by the zip
    code and the period of an input row that has both a zip code and a
    (parseable) date; and the rows that lack one of the two are left out
    altogether: the result is the same as on the frame without them. *)
Theorem aggregate_excludes_missing df out :
  aggregate df = Ok out →
  (∀ v, v ∈ rows out →
     ∃ z p r t, cell v ZIP_COL = Str z ∧ cell v "period" = Date p ∧
                r ∈ rows df ∧ cell r ZIP_COL = Str z ∧
                to_datetime parse_datetime (cell r DATE_COL) = Date t ∧
                period_start t = p) ∧
  aggregate (mkDF (columns df) (List.filter has_date_and_zip (rows df))) = Ok out.
Proof.
  unfold Aggregate.aggregate, aggregate_by_zip. intros H.
  destruct (with_period _ _ _ _ df) as [d|] eqn:Hd; [|done]. cbn [rbind] in H.
  split.
  - destruct (first_missing d _); [done|].
    destruct (key_dtype_ok ZIP_COL "period" d); [|done].
    destruct (collect _) as [rs|] eqn:Hc; [|done]. cbn [rbind] in H.
    injection H as <-. simpl. intros v Hv.
    apply collect_Ok in Hc.
    destruct (Forall2_elem_of_r _ _ _ _ Hc Hv) as (x & Hx & Hxv).
    apply list_elem_of_In, in_map_iff in Hx as (k & <- & Hk).
    apply zip_agg_row_key in Hxv as [Hz Hp].
    apply list_elem_of_In, elem_of_group_keys in Hk as (r' & Hr' & Hkey).
    rewrite (with_period_rows df d Hd) in Hr'.
    apply list_elem_of_In, in_map_iff in Hr' as (r & <- & Hr).
    apply filter_In in Hr as [Hr _].
    unfold key_of in Hkey.
    assert (cell (periodized (coerced r)) ZIP_COL = cell r ZIP_COL) as Hzr.
    { unfold periodized, coerced. by rewrite !cell_insert_ne. }
    assert (cell (periodized (coerced r)) "period"
            = period_of period_start (to_datetime parse_datetime (cell r DATE_COL)))
      as Hpr.
    { unfold Aggregate.periodized. rewrite cell_insert_eq. unfold Aggregate.coerced.
      by rewrite cell_insert_eq. }
    rewrite Hzr, Hpr in Hkey.
    destruct (cell r ZIP_COL) as [|z| | | | |] eqn:Ez; try done. simpl in Hkey.
    destruct (to_datetime parse_datetime (cell r DATE_COL)) as [| | | | |t|] eqn:Et;
      try done.
    simpl in Hkey. injection Hkey as <-.
    exists z, (period_start t), r, t. rewrite Hz, Hp. simpl.
    repeat split; try done. by apply list_elem_of_In.
  - rewrite (with_period_columns df d Hd); [done|done|].
    simpl. apply filter_filter_same.
Qed.
End AggregatorTheorems.

(** ** The Geo-Resolver *)

Section GeoResolver.
Import Cleaning.
Context (py_str : Cell → string) (to_numeric : Cell → Cell).
Context (sjoin_within : DataFrame → DataFrame → DataFrame).

Abbreviation zip5' := (zip5 py_str).
Abbreviation located := (Cleaning.located py_str to_numeric).

Lemma has_column_from_fields df c :
  c ≠ "zipcode" → has_column (from_fields py_str df) c = has_column df c.
Proof.
  intros Hc. unfold from_fields.
  destruct (has_column df "zipcode"); [|destruct (has_column df "postal_code")];
    rewrite ?has_column_setitem, ?bool_decide_eq_false_2, ?orb_false_r; done.
Qed.

Lemma cell_drop_columns (r : Row) (cs : list string) c :
  c ∉ cs → cell (filter (λ kv, kv.1 ∉ cs) r) c = cell r c.
Proof.
  intros Hc. unfold cell. f_equal. destruct (r !! c) as [v|] eqn:E.
  - by apply map_lookup_filter_Some_2.
  - apply map_lookup_filter_None. by left.
Qed.

Lemma column_drop_columns (cs : list string) df c :
  c ∉ cs → column (drop_columns cs df) c = column df c.
Proof.
  intros Hc. unfold column, drop_columns; simpl. rewrite map_map.
  apply map_ext. intros r. by apply cell_drop_columns.
Qed.

(** A record without a value in the zip column gets the text of NaN,
    zero-padded, not a missing value. *)
Lemma missing_zip_becomes_text : zip5' NA = Str "00nan".
Proof. reflexivity. Qed.

(** The zipcode column the function computes, cell by cell: the source
    column it is taken from, each cell cast to text, cut and padded. *)
Lemma resolver_zip_columns df :
  spatially_join_zip py_str to_numeric sjoin_within df None
    = Ok (from_fields py_str df) ∧
  (has_column df "zipcode" = true →
     column (from_fields py_str df) "zipcode" = zip5' <$> column df "zipcode") ∧
  (has_column df "zipcode" = false → has_column df "postal_code" = true →
     column (from_fields py_str df) "zipcode" = zip5' <$> column df "postal_code") ∧
  (has_column df "zipcode" = false → has_column df "postal_code" = false →
     from_fields py_str df = df) ∧
  (∀ zips zip_field,
     has_column zips "geometry" = true →
     has_column df "latitude" = true → has_column df "longitude" = true →
     List.find (has_column (sjoin_within (located df) zips)) zip_candidates
       = Some zip_field →
     ∃ out, spatially_join_zip py_str to_numeric sjoin_within df (Some zips) = Ok out ∧
            column out "zipcode"
              = zip5' <$> column (sjoin_within (located df) zips) zip_field).
Proof.
  split; [done|]. split; [|split; [|split]].
  - intros H. unfold from_fields. rewrite H.
    apply column_setitem_eq. by rewrite length_fmap, length_column.
  - intros H1 H2. unfold from_fields. rewrite H1, H2.
    apply column_setitem_eq. by rewrite length_fmap, length_column.
  - intros H1 H2. unfold from_fields. by rewrite H1, H2.
  - intros zips zip_field Hg Hlat Hlon Hfind.
    unfold spatially_join_zip. rewrite Hg. cbn [negb].
    rewrite !has_column_from_fields, Hlat, Hlon by done. cbn [andb].
    fold (located df). rewrite Hfind. eexists. split; [done|].
    rewrite column_drop_columns by set_solver.
    apply column_setitem_eq. by rewrite length_fmap, length_column.
Qed.

Lemma lookup_zip5 (cs : list Cell) i c :
  cs !! i = Some c → (zip5' <$> cs) !! i = Some (zip5' c).
Proof. intros H. by rewrite list_lookup_fmap, H. Qed.

(** C6, as the code has it, for the values that are present.  Without a
    shapefile the zip comes from the frame's own columns: a record's
    zipcode is the normalised value (cast to text, cut to five characters,
    zero-padded) of its zipcode field if the frame has that column,
    otherwise of its postal_code field if the frame has that column,
    otherwise the frame is returned as it is.  With a shapefile, latitude
    and longitude columns and a zip field in the join's result, the zipcode
    of every record the join gives a value for is the normalised value of
    that field, whatever the record's own fields held. *)
Theorem zip_from_fields_then_spatial_join df :
  spatially_join_zip py_str to_numeric sjoin_within df None
    = Ok (from_fields py_str df) ∧
  (has_column df "zipcode" = true →
     ∀ i c, column df "zipcode" !! i = Some c → notna c = true →
       column (from_fields py_str df) "zipcode" !! i = Some (zip5' c)) ∧
  (has_column df "zipcode" = false → has_column df "postal_code" = true →
     ∀ i c, column df "postal_code" !! i = Some c → notna c = true →
       column (from_fields py_str df) "zipcode" !! i = Some (zip5' c)) ∧
  (has_column df "zipcode" = false → has_column df "postal_code" = false →
     from_fields py_str df = df) ∧
  (∀ zips zip_field,
     has_column zips "geometry" = true →
     has_column df "latitude" = true → has_column df "longitude" = true →
     List.find (has_column (sjoin_within (located df) zips)) zip_candidates
       = Some zip_field →
     ∃ out, spatially_join_zip py_str to_numeric sjoin_within df (Some zips) = Ok out ∧
            ∀ i c,
              column (sjoin_within (located df) zips) zip_field !! i = Some c →
              notna c = true →
              column out "zipcode" !! i = Some (zip5' c)).
Proof.
  destruct (resolver_zip_columns df) as (H0 & H1 & H2 & H3 & H4).
  split; [exact H0|]. split; [|split; [|split; [exact H3|]]].
  - intros Hz i c Hc _. rewrite (H1 Hz). by apply lookup_zip5.
  - intros Hz Hp i c Hc _. rewrite (H2 Hz Hp). by apply lookup_zip5.
  - intros zips zip_field Hg Hlat Hlon Hfind.
    destruct (H4 zips zip_field Hg Hlat Hlon Hfind) as (out & Hout & Hcol).
    exists out. split; [exact Hout|].
    intros i c Hc _. rewrite Hcol. by apply lookup_zip5.
Qed.
End GeoResolver.

(** ** The claims on the sample frames *)

Section Samples.
Import Features Hygiene Aggregate Cleaning Examples.

Lemma inspection_number_sequence_witness :
  history inspections = Ok inspections_history ∧
  ∃ ds : list Z,
    map (λ v, cell v date_col)
        (List.filter (of_establishment "E1") (rows inspections_history))
      = map Date ds ∧
    StronglySorted Z.lt ds ∧
    (∀ d, d ∈ ds ↔ ∃ r, r ∈ rows inspections
                        ∧ key_of camis_col date_col r = Some ("E1", d)) ∧
    map (λ v, cell v "inspection_number")
        (List.filter (of_establishment "E1") (rows inspections_history))
      = map (λ i, Int (Z.of_nat i))
            (seq 1 (length (List.filter (of_establishment "E1")
                                        (rows inspections_history)))).
Proof.
  split; [vm_compute; reflexivity|].
  apply (inspection_number_sequence inspections inspections_history "E1").
  vm_compute. reflexivity.
Defined.

Lemma days_since_prev_lag_witness :
  history inspections = Ok inspections_history ∧
  ∀ i u v,
    List.filter (of_establishment "E1") (rows inspections_history) !! i = Some u →
    List.filter (of_establishment "E1") (rows inspections_history) !! S i = Some v →
    ∃ p t, cell u date_col = Date p ∧ cell v date_col = Date t ∧
           cell v "prev_inspection_date" = Date p ∧
           cell v "days_since_prev" = Int ((t - p) `div` NANOS_PER_DAY).
Proof.
  split; [vm_compute; reflexivity|].
  apply (days_since_prev_lag inspections inspections_history "E1").
  vm_compute. reflexivity.
Defined.

Lemma history_row_order_independent_witness :
  columns inspections_shuffled = columns inspections ∧
  rows inspections_shuffled ≡ₚ rows inspections ∧
  history inspections = Ok inspections_history ∧
  ∃ out', history inspections_shuffled = Ok out' ∧
    (∀ c, c ∈ [camis_col; date_col; "inspection_number";
               "prev_inspection_date"; "days_since_prev"] →
          column out' c = column inspections_history c) ∧
    (∀ e, map (λ v, (cell v "inspection_number", cell v "days_since_prev"))
              (List.filter (of_establishment e) (rows out'))
          = map (λ v, (cell v "inspection_number", cell v "days_since_prev"))
              (List.filter (of_establishment e) (rows inspections_history))).
Proof.
  assert (Hp : rows inspections_shuffled ≡ₚ rows inspections).
  { symmetry. apply Permutation_rev. }
  split; [vm_compute; reflexivity|]. split; [exact Hp|].
  split; [vm_compute; reflexivity|].
  apply (history_row_order_independent inspections inspections_shuffled
           inspections_history);
    [vm_compute; reflexivity|exact Hp|vm_compute; reflexivity].
Defined.

Lemma visits_one_per_dated_pair_witness :
  history undated = Ok undated_history ∧
  ∃ ks : list Key,
    map (key_of camis_col date_col) (rows undated_history) = map Some ks ∧
    NoDup ks ∧
    (∀ k, k ∈ ks ↔ ∃ r, r ∈ rows undated ∧ key_of camis_col date_col r = Some k) ∧
    (∀ v, v ∈ rows undated_history → isna (cell v date_col) = false).
Proof.
  split; [vm_compute; reflexivity|].
  apply (visits_one_per_dated_pair undated undated_history).
  vm_compute. reflexivity.
Defined.

(** C2 as stated fails: establishment E1 has rows without a date, and the
    output has no visit for them. *)
Lemma undated_rows_counterexample :
  history undated = Ok undated_history ∧
  (∃ r, r ∈ rows undated ∧ str_of (cell r camis_col) = Some "E1"
        ∧ isna (cell r date_col) = true) ∧
  ¬ (∃ v, v ∈ rows undated_history ∧ str_of (cell v camis_col) = Some "E1"
          ∧ isna (cell v date_col) = true).
Proof.
  split; [vm_compute; reflexivity|]. split.
  - eexists. split; [apply list_elem_of_here|]. split; reflexivity.
  - intros (v & Hv & _ & Hna).
    apply list_elem_of_singleton in Hv. subst v. vm_compute in Hna. discriminate.
Qed.

Lemma violation_count_counts_present_witness :
  history half_coded = Ok half_coded_history ∧
  visit (Str "E1") jan10 1 1 (Float 50) 1 NA NA ∈ rows half_coded_history ∧
  ∃ c d,
    cell (visit (Str "E1") jan10 1 1 (Float 50) 1 NA NA) camis_col = Str c ∧
    cell (visit (Str "E1") jan10 1 1 (Float 50) 1 NA NA) date_col = Date d ∧
    cell (visit (Str "E1") jan10 1 1 (Float 50) 1 NA NA) "violation_count" =
      Int (Z.of_nat (length (List.filter
        (λ r, bool_decide (key_of camis_col date_col r = Some (c, d))
              && notna (cell r (if has_column half_coded "violation_code"
                                then "violation_code"
                                else "violation_description")))
        (rows half_coded)))).
Proof.
  split; [vm_compute; reflexivity|]. split; [apply list_elem_of_here|].
  apply (violation_count_counts_present half_coded half_coded_history);
    [vm_compute; reflexivity|apply list_elem_of_here].
Defined.

(** C1 as stated fails: the group of E1 on 2023-01-10 has two rows, one of
    them with a violation code, and the visit's violation_count is 1. *)
Lemma violation_count_counterexample :
  history half_coded = Ok half_coded_history ∧
  ∃ v, v ∈ rows half_coded_history ∧
       key_of camis_col date_col v = Some ("E1", 19367 * NANOS_PER_DAY) ∧
       cell v "violation_count" = Int 1 ∧
       spec_violation_count
         (group_rows camis_col date_col (rows half_coded)
                     ("E1", 19367 * NANOS_PER_DAY)) = 2.
Proof.
  split; [vm_compute; reflexivity|].
  eexists. split; [apply list_elem_of_here|]. repeat split; reflexivity.
Qed.


Lemma aggregate_excludes_missing_witness :
  aggregate no_text_dates month_start located_visits = Ok located_panel ∧
  aggregate no_text_dates month_start
    (mkDF (columns located_visits)
          (List.filter (has_date_and_zip no_text_dates) (rows located_visits)))
    = Ok located_panel.
Proof.
  split; [vm_compute; reflexivity|].
  apply (aggregate_excludes_missing no_text_dates month_start located_visits
           located_panel).
  vm_compute. reflexivity.
Defined.

Lemma zip_from_fields_then_spatial_join_witness :
  has_column zip_areas "geometry" = true ∧
  has_column geo_records "latitude" = true ∧
  has_column geo_records "longitude" = true ∧
  List.find (has_column (sjoin_boxes (located no_str numeric geo_records) zip_areas))
            zip_candidates = Some "ZIPCODE" ∧
  ∃ out, spatially_join_zip no_str numeric sjoin_boxes geo_records (Some zip_areas)
           = Ok out ∧
         ∀ i c,
           column (sjoin_boxes (located no_str numeric geo_records) zip_areas)
                  "ZIPCODE" !! i = Some c →
           notna c = true →
           column out "zipcode" !! i = Some (zip5 no_str c).
Proof.
  repeat (split; [reflexivity|]).
  apply (zip_from_fields_then_spatial_join no_str numeric sjoin_boxes geo_records);
    reflexivity.
Defined.

(** C6 as stated fails: the record has the explicit zip 10001, its point
    lies in the area of zip 10002, and the resolved zip is 10002. *)
Lemma explicit_zip_counterexample :
  ∃ out, spatially_join_zip no_str numeric sjoin_boxes geo_records (Some zip_areas)
           = Ok out ∧
         column geo_records "zipcode" = [Str "10001"] ∧
         column out "ZIPCODE" = [Str "10002"] ∧
         column out "zipcode" = [Str "10002"] ∧
         spec_resolve_zip (Some "10001") None (Some "10002") = Some "10001".
Proof. eexists. repeat split; vm_compute; reflexivity. Qed.

(** C4 at a cohort without any score: the filled score, the raw index and
    the index are NaN for every visit. *)
Theorem unscored_cohort_index_is_nan :
  ∃ out, hygiene unscored = Ok out ∧
         column out "score_filled" = [Float nan; Float nan] ∧
         column out "hygiene_index_raw" = [Float nan; Float nan] ∧
         column out "hygiene_index" = [Float nan; Float nan].
Proof. eexists. repeat split; vm_compute; reflexivity. Qed.

(** The two counts are treated otherwise: a cohort without any count of
    critical violations gets a raw index and an index for every visit. *)
Lemma uncounted_cohort_has_index :
  ∃ out, hygiene uncounted = Ok out ∧
         forallb notna (column out "hygiene_index_raw") = true ∧
         forallb notna (column out "hygiene_index") = true.
Proof. eexists. repeat split; vm_compute; reflexivity. Qed.

(** C3 at a cohort of one visit without a score: the index is NaN, which
    is neither 0 nor in [0,100]. *)
Theorem single_unscored_visit_index_is_nan :
  ∃ out, hygiene single_unscored = Ok out ∧
         column out "hygiene_index" = [Float nan] ∧
         (0 <=? nan)%float = false ∧ (nan <=? 100)%float = false ∧
         (nan =? 0)%float = false.
Proof. eexists. repeat split; vm_compute; reflexivity. Qed.
End Samples.

(** * Further properties of the code *)

(** ** The History Builder: shape of the returned frame *)

Section HistoryShape.
Import Features.

Lemma key_insert_length k ks : (length (key_insert k ks) ≤ S (length ks))%nat.
Proof.
  induction ks as [|k' ks IH]; simpl; [lia|].
  destruct (key_compare k k'); simpl; lia.
Qed.

Lemma sorted_keys_length ks : (length (sorted_keys ks) ≤ length ks)%nat.
Proof.
  induction ks as [|k ks IH]; simpl; [lia|].
  pose proof (key_insert_length k (sorted_keys ks)). lia.
Qed.

Lemma group_keys_length c1 c2 rs : (length (group_keys c1 c2 rs) ≤ length rs)%nat.
Proof.
  unfold group_keys. etransitivity; [apply sorted_keys_length|].
  induction rs as [|r rs IH]; csimpl; [lia|]. destruct (key_of c1 c2 r); simpl; lia.
Qed.

(** X1: The returned frame has the ten columns of a visit, in this order,
    whatever other columns the input had; its rows stand in ascending order
    of establishment and then of date, no two with the same key; and it has
    no more rows than the input. *)
Theorem history_frame_shape df out :
  history df = Ok out →
  columns out =
    ["camis"; "inspection_date"; "violation_count"; "critical_violations";
     "score"; "grade"; "action"; "inspection_number"; "prev_inspection_date";
     "days_since_prev"] ∧
  (∃ ks : list Key,
     map (key_of camis_col date_col) (rows out) = map Some ks ∧
     StronglySorted key_lt ks) ∧
  (length (rows out) ≤ length (rows df))%nat.
Proof.
  intros [_ ->]%history_inv. split; [reflexivity|].
  destruct (history_value_columns df) as (Hlen & Hi & Hd & _). split.
  - exists (group_keys camis_col date_col (rows df)).
    split; [by apply map_key_of_columns|apply sorted_keys_sorted].
  - rewrite Hlen. apply group_keys_length.
Qed.

Lemma sorted_consecutive (ds : list Z) j p t :
  StronglySorted Z.lt ds → ds !! j = Some p → ds !! S j = Some t → p < t.
Proof.
  intros Hs. revert j. induction Hs as [|d ds Hs IH Hall]; intros j Hp Ht; [done|].
  destruct j as [|j]; simpl in *.
  - injection Hp as ->. eapply Forall_forall in Hall; [exact Hall|].
    by eapply list_elem_of_lookup_2.
  - by eapply IH.
Qed.

Lemma ints_from_lookup s n i :
  (i < n)%nat → ints_from s n !! i = Some (Int (s + Z.of_nat i)).
Proof.
  revert s i. induction n as [|n IH]; intros s [|i] Hi; simpl; try lia.
  - by rewrite Z.add_0_r.
  - rewrite IH by lia. do 2 f_equal. lia.
Qed.

(** The cells of the [i]-th visit of an establishment. *)
Lemma establishment_lookup df e i v :
  List.filter (of_establishment e) (rows (history_value df)) !! i = Some v →
  let ds := dates_in e (group_keys camis_col date_col (rows df)) in
  ∃ t, ds !! i = Some t ∧
       cell v date_col = Date t ∧
       cell v "inspection_number" = Int (1 + Z.of_nat i) ∧
       cell v "prev_inspection_date"
         = match i with O => NA | S j => default NA (Date <$> ds !! j) end ∧
       cell v "days_since_prev"
         = days_between (Date t) (cell v "prev_inspection_date").
Proof.
  intros Hv ds. destruct (establishment_columns df e) as (Hd & Hn & Hp & Hy).
  fold ds in Hd, Hn, Hp, Hy.
  set (vs := List.filter _ _) in *.
  assert (Hcell : ∀ c, map (λ v, cell v c) vs !! i = Some (cell v c)).
  { intros c. change (map ?f ?l) with (f <$> l). by rewrite list_lookup_fmap, Hv. }
  pose proof (Hcell date_col) as HD. rewrite Hd in HD.
  change (map ?f ?l) with (f <$> l) in HD. rewrite list_lookup_fmap in HD.
  destruct (ds !! i) as [t|] eqn:Ht; [|done]. injection HD as HD.
  assert (Hi : (i < length ds)%nat) by (by eapply lookup_lt_Some).
  exists t. split; [done|]. split; [done|].
  pose proof (Hcell "inspection_number") as HN. rewrite Hn in HN.
  rewrite ints_from_lookup in HN by done. injection HN as HN.
  pose proof (Hcell "prev_inspection_date") as HP. rewrite Hp in HP.
  rewrite lookup_take_lt in HP by done.
  pose proof (Hcell "days_since_prev") as HY. rewrite Hy in HY.
  rewrite lookup_zip_with, lookup_take_lt in HY by done.
  change (map ?f ?l) with (f <$> l) in HP, HY.
  rewrite list_lookup_fmap, Ht in HY. simpl in HY.
  assert (HP' : cell v "prev_inspection_date"
                = match i with O => NA | S j => default NA (Date <$> ds !! j) end).
  { destruct i as [|j]; simpl in HP; [congruence|].
    rewrite list_lookup_fmap in HP.
    destruct (ds !! j); simpl in *; congruence. }
  split; [done|]. split; [done|].
  destruct i as [|j]; simpl in HY.
  - rewrite HP'. congruence.
  - rewrite list_lookup_fmap in HY. rewrite HP'.
    destruct (ds !! j) as [p|] eqn:Hj; simpl in *; [congruence|].
    apply lookup_ge_None in Hj. lia.
Qed.

Lemma row_of_establishment df v :
  v ∈ rows (history_value df) →
  ∃ e i, List.filter (of_establishment e) (rows (history_value df)) !! i = Some v.
Proof.
  intros Hv. destruct (history_value_columns df) as (_ & Hi & _).
  assert (∃ e, str_of (cell v camis_col) = Some e) as [e He].
  { unfold column in Hi.
    assert (Hin : cell v camis_col ∈ map (λ r, cell r camis_col) (rows (history_value df))).
    { apply list_elem_of_In, (in_map (λ r : Row, cell r camis_col)), list_elem_of_In, Hv. }
    rewrite Hi in Hin. apply list_elem_of_In, in_map_iff in Hin as (k & <- & _).
    by eexists. }
  exists e. apply list_elem_of_lookup, elem_of_List_filter. split; [done|].
  by apply bool_decide_eq_true.
Qed.

(** X2: In every row of the returned frame either inspection_number is 1 and
    there is no previous date and no days_since_prev, or inspection_number
    is greater than 1, the previous date is strictly earlier than the date,
    and days_since_prev is a whole number that is not negative. *)
Theorem lag_is_never_negative df out v :
  history df = Ok out → v ∈ rows out →
  (cell v "inspection_number" = Int 1 ∧
   cell v "prev_inspection_date" = NA ∧ cell v "days_since_prev" = NA) ∨
  (∃ n p t d,
     cell v "inspection_number" = Int n ∧ 1 < n ∧
     cell v "prev_inspection_date" = Date p ∧ cell v date_col = Date t ∧ p < t ∧
     cell v "days_since_prev" = Int d ∧ 0 ≤ d).
Proof.
  intros [_ ->]%history_inv Hv.
  destruct (row_of_establishment df v Hv) as (e & i & Hi).
  destruct (establishment_lookup df e i v Hi) as (t & Ht & HD & HN & HP & HY).
  destruct i as [|j].
  - left. rewrite HY, HP. done.
  - right. destruct (dates_in e _ !! j) as [p|] eqn:Hj.
    + simpl in HP.
      assert (p < t).
      { eapply sorted_consecutive; [|exact Hj|exact Ht].
        apply dates_in_sorted, sorted_keys_sorted. }
      exists (1 + Z.of_nat (S j)), p, t, ((t - p) `div` NANOS_PER_DAY).
      rewrite HY, HP. unfold days_between; simpl.
      repeat split; try done; [lia|].
      apply Z.div_pos; [lia|done].
    + apply lookup_ge_None in Hj. apply lookup_lt_Some in Ht. lia.
Qed.
End HistoryShape.

(** ** The History Builder: what a visit aggregates *)

Section HistoryAggregates.
Import Features Extra.

(** A stable sort keeps the order of the elements of one class. *)
Lemma filter_insert_sorted {A} (leb : A → A → bool) (p : A → bool) x l :
  (∀ y, p x = true → p y = true → leb x y = true) →
  List.filter p (insert_sorted leb x l)
  = if p x then x :: List.filter p l else List.filter p l.
Proof.
  intros H. induction l as [|y l IH]; simpl; [done|].
  destruct (leb x y) eqn:Hxy; simpl; [done|]. rewrite IH.
  destruct (p x) eqn:Hx, (p y) eqn:Hy; try done.
  rewrite H in Hxy; done.
Qed.

Lemma filter_stable_sort {A} (leb : A → A → bool) (p : A → bool) l :
  (∀ x y, p x = true → p y = true → leb x y = true) →
  List.filter p (stable_sort leb l) = List.filter p l.
Proof.
  intros H. induction l as [|x l IH]; simpl; [done|].
  rewrite filter_insert_sorted by (intros y; apply H). by rewrite IH.
Qed.

Lemma group_rows_stable_sort c1 c2 rs k :
  group_rows c1 c2 (stable_sort (row_leb c1 c2) rs) k = group_rows c1 c2 rs k.
Proof.
  unfold group_rows. apply filter_stable_sort. intros x y Hx Hy.
  apply bool_decide_eq_true in Hx, Hy. unfold key_of in Hx, Hy.
  unfold row_leb, row_compare.
  destruct (str_of (cell x c1)) as [s|]; [|done].
  destruct (date_of (cell x c2)) as [t|]; [|done].
  destruct (str_of (cell y c1)) as [s'|]; [|done].
  destruct (date_of (cell y c2)) as [t'|]; [|done].
  injection Hx as <-. injection Hy as <- <-. simpl.
  by rewrite string_compare_refl, Z.compare_refl.
Qed.

Lemma visits_in_input_order df :
  visits df = map (agg_row (count_column df) (rows df))
                  (group_keys camis_col date_col (rows df)).
Proof.
  unfold visits. apply map_ext. intros k. unfold agg_row.
  by rewrite group_rows_stable_sort.
Qed.

(** Every row of the returned frame carries the aggregates of one group. *)
Lemma visit_of_group df v :
  v ∈ rows (history_value df) →
  ∃ k, k ∈ group_keys camis_col date_col (rows df) ∧
       agree agg_columns (agg_row (count_column df) (rows df) k) v.
Proof.
  intros Hv. unfold history_value in Hv.
  pose proof (timed_agree agg_columns (mkDF agg_columns (visits df))) as Ha.
  destruct (Forall2_elem_of_r _ _ _ _
              (Ha ltac:(unfold timing_cols, agg_columns, camis_col, date_col;
                        set_solver)) Hv) as (a & Hin & Hav).
  simpl in Hin. rewrite visits_in_input_order in Hin.
  apply list_elem_of_In, in_map_iff in Hin as (k & <- & Hk).
  exists k. split; [by apply list_elem_of_In|done].
Qed.

(** X3: The score, grade and action of a visit are the first values present
    among the rows of its group, taken in the order of the input frame. *)
Theorem first_value_in_input_order df out v :
  history df = Ok out → v ∈ rows out →
  ∃ c d,
    cell v camis_col = Str c ∧ cell v date_col = Date d ∧
    let g := group_rows camis_col date_col (rows df) (c, d) in
    cell v "score" = agg_first (map (λ r, cell r "score") g) ∧
    cell v "grade" = agg_first (map (λ r, cell r "grade") g) ∧
    cell v "action" = agg_first (map (λ r, cell r "action") g).
Proof.
  intros [_ ->]%history_inv Hv.
  destruct (visit_of_group df v Hv) as ([c d] & _ & Ha). exists c, d.
  rewrite <- (Ha camis_col), <- (Ha date_col), <- (Ha "score"), <- (Ha "grade"),
    <- (Ha "action"); [done|unfold agg_columns; set_solver..].
Qed.

Lemma agg_sum_flagged (g : list Row) :
  (∀ r, r ∈ g → ∃ b, cell r "is_critical_description" = Bool b) →
  agg_sum (map (λ r, cell r "is_critical_description") g)
  = Z.of_nat (length (List.filter flagged g)).
Proof.
  induction g as [|r g IH]; intros H; simpl; [done|].
  rewrite IH by (intros r' Hr'; apply H; by right).
  destruct (H r ltac:(by left)) as [b Hb]. unfold flagged. rewrite Hb.
  destruct b; simpl; lia.
Qed.

(** X4: Where is_critical_description is a bool on every row, the
    critical_violations of a visit is the number of rows of its group on
    which it is True. *)
Theorem critical_violations_counts_flagged df out v :
  history df = Ok out → v ∈ rows out →
  (∀ r, r ∈ rows df → ∃ b, cell r "is_critical_description" = Bool b) →
  ∃ c d,
    cell v camis_col = Str c ∧ cell v date_col = Date d ∧
    cell v "critical_violations" =
      Int (Z.of_nat (length (List.filter flagged
             (group_rows camis_col date_col (rows df) (c, d))))).
Proof.
  intros [_ ->]%history_inv Hv Hbool.
  destruct (visit_of_group df v Hv) as ([c d] & _ & Ha). exists c, d.
  rewrite <- (Ha camis_col), <- (Ha date_col), <- (Ha "critical_violations");
    [|unfold agg_columns; set_solver..].
  split; [done|]. split; [done|].
  transitivity (Int (agg_sum (map (λ r, cell r "is_critical_description")
     (group_rows camis_col date_col (rows df) (c, d))))); [done|].
  rewrite agg_sum_flagged; [done|].
  intros r Hr. apply Hbool. unfold group_rows in Hr.
  by apply elem_of_List_filter in Hr as [Hr _].
Qed.

(** Each row with a key is counted in the group of its key and in no other. *)
Lemma count_one_group (ks : list Key) (x : option Key) (b : bool) :
  NoDup ks →
  sum_list (map (λ k, if bool_decide (x = Some k) && b then 1%nat else 0%nat) ks)
  = if b && bool_decide (x ∈ map Some ks) then 1%nat else 0%nat.
Proof.
  destruct b; simpl.
  2:{ intros _. induction ks as [|k ks IH]; simpl; [done|].
      by rewrite andb_false_r, IH. }
  induction 1 as [|k ks Hk Hnd IH]; simpl; [done|].
  rewrite IH, andb_true_r.
  destruct (decide (x = Some k)) as [->|Hne].
  - rewrite bool_decide_eq_true_2 by done.
    rewrite (bool_decide_eq_true_2 (Some k ∈ Some k :: map Some ks)) by (by left).
    rewrite bool_decide_eq_false_2; [done|].
    intros Hin. apply list_elem_of_In, in_map_iff in Hin as (k' & [= ->] & Hin).
    by apply Hk, list_elem_of_In.
  - rewrite (bool_decide_eq_false_2 (x = Some k)) by done. simpl.
    apply (f_equal (λ b : bool, if b then 1%nat else 0%nat)).
    apply bool_decide_ext. rewrite elem_of_cons. naive_solver.
Qed.

Lemma sum_list_add {A} (f g : A → nat) l :
  sum_list (map (λ x, f x + g x)%nat l) = (sum_list (map f l) + sum_list (map g l))%nat.
Proof. induction l; simpl; lia. Qed.

Lemma count_by_group (ks : list Key) (key : Row → option Key) (p : Row → bool) rs :
  NoDup ks → (∀ r k, r ∈ rs → key r = Some k → k ∈ ks) →
  sum_list (map (λ k, length (List.filter
                     (λ r, bool_decide (key r = Some k) && p r) rs)) ks)
  = length (List.filter (λ r, match key r with Some _ => true | None => false end
                              && p r) rs).
Proof.
  intros Hnd. induction rs as [|r rs IH]; intros Hks.
  - simpl. clear. induction ks; simpl; [done|]. done.
  - specialize (IH ltac:(intros r' k Hr' Hk; eapply Hks; [by right|done])).
    transitivity
      (sum_list (map (λ k, (if bool_decide (key r = Some k) && p r then 1 else 0)
                           + length (List.filter
                               (λ r, bool_decide (key r = Some k) && p r) rs))%nat ks)).
    { f_equal. apply map_ext. intros k. simpl.
      by destruct (bool_decide (key r = Some k) && p r). }
    rewrite sum_list_add, IH, count_one_group by done. simpl.
    destruct (key r) as [k|] eqn:Hk; simpl.
    + rewrite bool_decide_eq_true_2.
      * rewrite andb_true_r. by destruct (p r).
      * apply list_elem_of_In, in_map, list_elem_of_In. eapply Hks; [by left|done].
    + rewrite bool_decide_eq_false_2; [by rewrite andb_false_r|].
      intros Hin. by apply list_elem_of_In, in_map_iff in Hin as (k' & ? & _).
Qed.

Lemma agg_sum_ints (ns : list nat) :
  agg_sum (map (λ n, Int (Z.of_nat n)) ns) = Z.of_nat (sum_list ns).
Proof. induction ns as [|n ns IH]; simpl; [done|]. rewrite IH. lia. Qed.

(** X5: The violation_count column of the returned frame adds up to the number
    of input rows that have an identifier, a date and a value in the counted
    column (violation_code if the frame has it, else violation_description):
    every such row is counted in exactly one visit. *)
Theorem violation_counts_add_up df out :
  history df = Ok out →
  agg_sum (column out "violation_count")
  = Z.of_nat (length (List.filter
      (λ r, has_key r
            && notna (cell r (if has_column df "violation_code"
                              then "violation_code" else "violation_description")))
      (rows df))).
Proof.
  intros [_ ->]%history_inv. fold (count_column df).
  destruct (timed_columns (mkDF agg_columns (visits df))) as (_ & Hother & _).
  unfold history_value. rewrite Hother
    by (unfold timing_cols; set_solver).
  unfold column; simpl. rewrite visits_in_input_order, map_map.
  set (ks := group_keys camis_col date_col (rows df)).
  transitivity (agg_sum (map (λ n, Int (Z.of_nat n))
    (map (λ k, length (List.filter
            (λ r, bool_decide (key_of camis_col date_col r = Some k)
                  && notna (cell r (count_column df))) (rows df))) ks))).
  { f_equal. rewrite map_map. apply map_ext. intros k.
    change (cell (agg_row (count_column df) (rows df) k) "violation_count")
      with (Int (agg_count (map (λ r, cell r (count_column df))
                  (group_rows camis_col date_col (rows df) k)))).
    by rewrite agg_count_group. }
  rewrite agg_sum_ints. f_equal. unfold has_key.
  apply (count_by_group ks (key_of camis_col date_col)).
  - apply sorted_keys_NoDup.
  - intros r k Hr Hk. apply elem_of_group_keys. eauto.
Qed.
End HistoryAggregates.

(** ** The History Builder: the columns it needs *)

Section HistoryErrors.
Import Features.

Lemma first_missing_Some df cs c :
  first_missing df cs = Some c → c ∈ cs ∧ has_column df c = false.
Proof.
  induction cs as [|c' cs IH]; simpl; [done|].
  destruct (has_column df c') eqn:H.
  - intros [? ?]%IH. split; [by right|done].
  - intros [= <-]. split; [by left|done].
Qed.

Lemma first_missing_is_Some df cs c :
  c ∈ cs → has_column df c = false → ∃ c', first_missing df cs = Some c'.
Proof.
  intros Hc Hm. destruct (first_missing df cs) as [c'|] eqn:H; [by exists c'|].
  rewrite first_missing_None in H. apply H, has_column_true in Hc. congruence.
Qed.

(** X6: The builder keeps whichever of its listed columns exist, yet the
    aggregation reads seven of them: on a frame with well-typed keys that
    lacks the identifier, the date, the counted column,
    is_critical_description, score, grade or action, the call raises a
    KeyError for a column the frame does not have. *)
Theorem history_requires_aggregated_columns df c :
  key_dtype_ok camis_col date_col df = true →
  c ∈ [camis_col; date_col; count_column df; "is_critical_description";
       "score"; "grade"; "action"] →
  has_column df c = false →
  ∃ c', has_column df c' = false ∧ history df = Err (KeyError c').
Proof.
  intros Hdt Hc Hm. rewrite history_run. unfold history_frames.
  rewrite getitem_columns_reordered. cbn [rbind].
  destruct (has_column df camis_col) eqn:Hcam; cycle 1.
  { exists camis_col. split; [done|]. unfold sort_values. cbn [first_missing].
    by rewrite has_column_selected, Hcam. }
  destruct (has_column df date_col) eqn:Hdate; cycle 1.
  { exists date_col. split; [done|]. unfold sort_values. cbn [first_missing].
    by rewrite !has_column_selected, Hcam, Hdate. }
  rewrite sort_values_selected, Hdt by done. cbn [rbind].
  set (d3 := timed _). unfold groupby_agg.
  assert (Hcc : count_column d3 = count_column df) by apply count_column_df_sub.
  rewrite Hcc. fold (agg_inputs (count_column df)).
  assert (Hm3 : has_column d3 c = false).
  { unfold d3. rewrite has_column_df_sub; [done|]. by eapply agg_inputs_not_timing. }
  destruct (first_missing_is_Some d3 _ c Hc Hm3) as [c' Hc'].
  fold (agg_inputs (count_column df)) in Hc'. rewrite Hc'. cbn [rbind].
  exists c'. split; [|done].
  apply first_missing_Some in Hc' as [Hin Hmiss].
  unfold d3 in Hmiss. rewrite has_column_df_sub in Hmiss; [done|].
  by eapply agg_inputs_not_timing.
Qed.
End HistoryErrors.

(** ** The orchestration script *)

Section PipelineTheorems.
Import Features Hygiene Aggregate Pipeline.
Context (parse_datetime : string → option Z) (period_start : Z → Z).

Lemma wp_mono {A} (m : M A) st (Q Q' : result A → Store → Prop) :
  wp m st Q → (∀ r st', Q r st' → Q' r st') → wp m st Q'.
Proof. unfold wp. auto. Qed.

(** An indexed history has no zipcode column, and the aggregator stops
    there. *)
Lemma aggregate_indexed_history df h idx :
  history df = Ok h → hygiene h = Ok idx →
  aggregate parse_datetime period_start idx = Err (KeyError "zipcode").
Proof.
  intros [_ ->]%history_inv Hidx. rewrite hygiene_run in Hidx.
  apply hygiene_frames_extends in Hidx as [_ (extra & Hcols & Hextra)].
  assert (Hd : has_column idx DATE_COL = true).
  { apply has_column_true. rewrite Hcols. apply elem_of_app. left.
    apply elem_of_cons. right. apply elem_of_cons. by left. }
  assert (Hz : has_column idx ZIP_COL = false).
  { apply bool_decide_eq_false_2. rewrite Hcols. intros [Hin|Hin]%elem_of_app.
    - revert Hin. unfold ZIP_COL. cbn. set_solver.
    - apply Hextra in Hin. revert Hin. unfold ZIP_COL, index_cols. set_solver. }
  unfold aggregate, aggregate_by_zip, with_period.
  rewrite (getitem_Ok _ _ Hd). cbn [rbind first_missing].
  rewrite !has_column_setitem, Hd, Hz. done.
Qed.

(** X7: The script never reaches its aggregates: whatever frame it has read, the
    run from the history to the zip panel ends in an error and leaves the
    frame read as it was; where the history and its index are computed, the
    error is the KeyError for zipcode, a column the history does not
    carry. *)
Theorem pipeline_stops_at_aggregation st l df :
  st !! l = Some df →
  ∃ e st',
    establishment_panel parse_datetime period_start l st = (Err e, st') ∧
    st' !! l = Some df ∧
    (∀ h idx, history df = Ok h → hygiene h = Ok idx → e = KeyError "zipcode").
Proof.
  intros Hl.
  cut (wp (establishment_panel parse_datetime period_start l) st (λ r st',
         ∃ e, r = Err e ∧ st' !! l = Some df ∧
              ∀ h idx, history df = Ok h → hygiene h = Ok idx →
                       e = KeyError "zipcode")).
  { unfold wp.
    destruct (establishment_panel parse_datetime period_start l st) as [r st'].
    simpl. intros (e & -> & H1 & H2). by exists e, st'. }
  unfold establishment_panel.
  apply wp_bind.
  eapply wp_mono; [apply (build_establishment_history_run st l df Hl)|].
  intros [l1|e] st1; simpl; intros [K1 H1]; cycle 1.
  { exists e. split; [done|]. split; [by apply K1|].
    intros h idx Hh _. rewrite history_run in Hh. congruence. }
  destruct H1 as (h & Hh & _ & Hl1).
  apply wp_bind.
  eapply wp_mono; [apply (compute_hygiene_index_run _ _ _ st1 l1 h Hl1)|].
  intros [l2|e] st2; simpl; intros [K2 H2]; cycle 1.
  { exists e. split; [done|]. split; [by apply K2, K1|].
    intros h' idx Hh' Hi. rewrite history_run in Hh'.
    assert (h' = h) as -> by congruence.
    rewrite hygiene_run in Hi. congruence. }
  destruct H2 as (idx & Hidx & _ & Hl2).
  apply wp_bind, (wp_call _ _ idx); [done|].
  rewrite (aggregate_indexed_history df h idx);
    [|by rewrite history_run|by rewrite hygiene_run].
  exists (KeyError "zipcode"). split; [done|]. split; [by apply K2, K1|done].
Qed.
End PipelineTheorems.

(** ** The Hygiene Index Calculator: when it succeeds, and with what *)

Section HygieneValueFacts.
Import Features Hygiene HygieneValue.

Lemma to_floats_Float c (s : list float) : Series.to_floats c (Float <$> s) = Ok s.
Proof. induction s as [|x s IH]; csimpl; [done|]. by rewrite IH. Qed.

Lemma to_floats_numeric c (cs : list Cell) :
  forallb is_numeric cs = true →
  existsb Series.is_bool cs = false ∧
  Series.to_floats c cs = Ok (map (λ x, default nan (Series.to_float x)) cs).
Proof.
  induction cs as [|x cs IH]; simpl; [done|].
  intros [Hx [Hb Hf]%IH]%andb_true_iff. rewrite Hb, Hf.
  by destruct x.
Qed.

Lemma to_floats_Ok_numeric c (cs : list Cell) s :
  existsb Series.is_bool cs = false → Series.to_floats c cs = Ok s →
  forallb is_numeric cs = true.
Proof.
  revert s. induction cs as [|x cs IH]; intros s; simpl; [done|].
  intros [Hx Hb]%orb_false_iff.
  destruct (Series.to_float x) eqn:Ex; [|done].
  destruct (Series.to_floats c cs) as [vs|]; [|done]. simpl. intros _.
  rewrite (IH vs) by done. by destruct x.
Qed.

Lemma float_column_numeric df c :
  numeric_column df c = true → Series.float_column df c = Ok (floats df c).
Proof.
  unfold numeric_column. intros [Hc Hn]%andb_true_iff.
  unfold Series.float_column. rewrite getitem_Ok by done. cbn [rbind].
  by destruct (to_floats_numeric c _ Hn) as [-> ->].
Qed.

Lemma float_column_Ok df c s :
  Series.float_column df c = Ok s → numeric_column df c = true.
Proof.
  unfold Series.float_column, getitem, numeric_column.
  destruct (has_column df c); [|done]. cbn [rbind].
  destruct (existsb Series.is_bool (column df c)) eqn:Hb; [done|].
  by apply to_floats_Ok_numeric.
Qed.

Lemma existsb_is_bool_Float (s : list float) :
  existsb Series.is_bool (Float <$> s) = false.
Proof. induction s as [|x s IH]; csimpl; [done|]. exact IH. Qed.

Lemma float_column_setitem_eq d c (s : list float) :
  length s = length (rows d) →
  Series.float_column (setitem d c (Float <$> s)) c = Ok s.
Proof.
  intros Hlen. unfold Series.float_column.
  rewrite getitem_Ok
    by (rewrite has_column_setitem, bool_decide_eq_true_2 by done; apply orb_true_r).
  cbn [rbind]. rewrite column_setitem_eq by (by rewrite length_fmap).
  rewrite existsb_is_bool_Float. apply to_floats_Float.
Qed.

Lemma float_column_setitem_ne d c c' vs :
  c ≠ c' → length vs = length (rows d) →
  Series.float_column (setitem d c vs) c' = Series.float_column d c'.
Proof.
  intros Hne Hlen. unfold Series.float_column, getitem.
  rewrite has_column_setitem, (bool_decide_eq_false_2 (c' = c)) by congruence.
  rewrite orb_false_r. destruct (has_column d c'); [|done].
  by rewrite column_setitem_ne.
Qed.

Lemma floats_length df c : length (floats df c) = length (rows df).
Proof. unfold floats. by rewrite length_map, length_column. Qed.

Lemma score_filled_length df : length (score_filled df) = length (rows df).
Proof. unfold score_filled, Series.fillna. by rewrite length_map, floats_length. Qed.

Lemma index_raw_length ws wc wv df :
  length (index_raw ws wc wv df) = length (rows df).
Proof.
  unfold index_raw. rewrite weighted_length;
    unfold Series.minmax, Series.fillna; rewrite !length_map;
    by rewrite ?score_filled_length, ?floats_length.
Qed.

(** The calculator's result on a frame with its three numeric columns. *)
Lemma hygiene_frames_Ok ws wc wv df :
  forallb (numeric_column df) index_inputs = true →
  hygiene_frames ws wc wv df = Ok (hygiene_value ws wc wv df).
Proof.
  simpl. intros (H1 & (H2 & (H3 & _)%andb_true_iff)%andb_true_iff)%andb_true_iff.
  unfold hygiene_frames. rewrite (float_column_numeric _ _ H1). cbn [rbind].
  fold (score_filled df).
  rewrite float_column_setitem_eq by apply score_filled_length.
  rewrite !float_column_setitem_ne
    by (done || by rewrite length_fmap, score_filled_length).
  rewrite (float_column_numeric _ _ H2), (float_column_numeric _ _ H3).
  cbn [rbind]. fold (index_raw ws wc wv df).
  rewrite float_column_setitem_eq; [done|].
  rewrite length_rows_setitem by (by rewrite length_fmap, score_filled_length).
  apply index_raw_length.
Qed.

Lemma hygiene_frames_inv ws wc wv df out :
  hygiene_frames ws wc wv df = Ok out →
  forallb (numeric_column df) index_inputs = true ∧ out = hygiene_value ws wc wv df.
Proof.
  intros H.
  assert (Hn : forallb (numeric_column df) index_inputs = true).
  { revert H. unfold hygiene_frames.
    destruct (Series.float_column df "score") as [score|] eqn:H1; [|done].
    cbn [rbind]. pose proof (float_column_length _ _ _ H1) as L1.
    apply float_column_Ok in H1.
    rewrite float_column_setitem_eq
      by (unfold Series.fillna; by rewrite length_map).
    rewrite !float_column_setitem_ne
      by (done || (unfold Series.fillna; by rewrite length_fmap, length_map)).
    destruct (Series.float_column df "critical_violations") as [cv|] eqn:H2; [|done].
    destruct (Series.float_column df "violation_count") as [vc|] eqn:H3; [|done].
    apply float_column_Ok in H2, H3. intros _. simpl. by rewrite H1, H2, H3. }
  split; [done|]. rewrite (hygiene_frames_Ok _ _ _ _ Hn) in H. congruence.
Qed.

Lemma hygiene_inv df out :
  hygiene df = Ok out →
  forallb (numeric_column df) index_inputs = true ∧
  out = hygiene_value WEIGHT_SCORE WEIGHT_CRITICAL WEIGHT_VIOLATION_COUNT df.
Proof. rewrite hygiene_run. apply hygiene_frames_inv. Qed.

Lemma column_hygiene_value ws wc wv df :
  column (hygiene_value ws wc wv df) "score_filled" = Float <$> score_filled df ∧
  column (hygiene_value ws wc wv df) "hygiene_index_raw"
    = Float <$> index_raw ws wc wv df ∧
  column (hygiene_value ws wc wv df) "hygiene_index"
    = Float <$> rescaled (index_raw ws wc wv df).
Proof.
  unfold hygiene_value.
  set (d1 := setitem df "score_filled" _).
  assert (L1 : length (rows d1) = length (rows df)).
  { apply length_rows_setitem. by rewrite length_fmap, score_filled_length. }
  set (d2 := setitem d1 "hygiene_index_raw" _).
  assert (L2 : length (rows d2) = length (rows df)).
  { unfold d2. rewrite length_rows_setitem; [done|].
    by rewrite length_fmap, index_raw_length. }
  assert (L3 : length (Float <$> rescaled (index_raw ws wc wv df))
               = length (rows d2)).
  { unfold rescaled. by rewrite length_fmap, length_map, index_raw_length. }
  split; [|split].
  - rewrite column_setitem_ne by done. unfold d2.
    rewrite column_setitem_ne by (done || by rewrite length_fmap, index_raw_length).
    apply column_setitem_eq. by rewrite length_fmap, score_filled_length.
  - rewrite column_setitem_ne by done.
    apply column_setitem_eq. by rewrite length_fmap, index_raw_length.
  - by apply column_setitem_eq.
Qed.

(** X8: The calculator returns a frame whenever score, critical_violations
    and violation_count are columns of integers, floats or missing values;
    it returns a frame only if the frame has all three columns; and a frame
    that lacks score is refused with the KeyError for it. *)
Theorem hygiene_needs_three_numeric_columns df :
  (numeric_column df "score" = true ∧
   numeric_column df "critical_violations" = true ∧
   numeric_column df "violation_count" = true →
   ∃ out, hygiene df = Ok out) ∧
  ((∃ out, hygiene df = Ok out) →
   ∀ c, c ∈ index_inputs → has_column df c = true) ∧
  (has_column df "score" = false → hygiene df = Err (KeyError "score")).
Proof.
  split; [|split].
  - intros (H1 & H2 & H3). eexists. rewrite hygiene_run.
    apply hygiene_frames_Ok. simpl. by rewrite H1, H2, H3.
  - intros [out [Hn _]%hygiene_inv] c Hc.
    rewrite forallb_forall in Hn. apply list_elem_of_In, Hn in Hc.
    unfold numeric_column in Hc. by apply andb_true_iff in Hc as [Hc _].
  - intros H. rewrite hygiene_run.
    unfold hygiene_frames, Series.float_column, getitem. by rewrite H.
Qed.
End HygieneValueFacts.

(** ** Missing scores and NaN *)

Section NanPropagation.
Import Features Hygiene HygieneValue.
Local Open Scope float_scope.

Lemma is_nan_spec x : PrimFloat.is_nan x = true ↔ Prim2SF x = S754_nan.
Proof.
  unfold PrimFloat.is_nan. rewrite FloatAxioms.eqb_spec.
  destruct (Prim2SF x) as [s|s| |s m e]; simpl; split; try done.
  - by destruct s.
  - unfold SFeqb, SFcompare.
    destruct s; by rewrite Z.compare_refl, Pos.compare_cont_refl.
Qed.

Lemma nan_add_l x y : PrimFloat.is_nan x = true → PrimFloat.is_nan (x + y) = true.
Proof. rewrite !is_nan_spec, FloatAxioms.add_spec. by intros ->. Qed.

Lemma nan_sub_r x y : PrimFloat.is_nan y = true → PrimFloat.is_nan (x - y) = true.
Proof.
  rewrite !is_nan_spec, FloatAxioms.sub_spec. intros ->. by destruct (Prim2SF x).
Qed.

Lemma nan_mul_r x y : PrimFloat.is_nan y = true → PrimFloat.is_nan (x * y) = true.
Proof.
  rewrite !is_nan_spec, FloatAxioms.mul_spec. intros ->. by destruct (Prim2SF x).
Qed.

Lemma nan_div_l x y : PrimFloat.is_nan x = true → PrimFloat.is_nan (x / y) = true.
Proof. rewrite !is_nan_spec, FloatAxioms.div_spec. by intros ->. Qed.

Lemma valid_all_nan s : all_nan s → Series.valid s = [].
Proof.
  induction 1 as [|x s Hx _ IH]; simpl; [done|]. by rewrite Hx.
Qed.

Lemma minmax_all_nan s : all_nan s → all_nan (Series.minmax s).
Proof.
  intros H. unfold Series.minmax, Series.min. rewrite (valid_all_nan s H).
  apply Forall_forall. intros y (x & <- & _)%list_elem_of_In%in_map_iff.
  by apply nan_div_l, nan_sub_r.
Qed.

Lemma weighted_all_nan ws wc wv s cv vc :
  all_nan s → all_nan (weighted ws wc wv s cv vc).
Proof.
  intros H. revert cv vc.
  induction H as [|x s Hx _ IH]; intros cv vc; [by constructor|].
  destruct cv as [|y cv]; [by constructor|].
  destruct vc as [|z vc]; [by constructor|]. simpl.
  constructor; [|apply IH]. by apply nan_add_l, nan_add_l, nan_mul_r.
Qed.

Lemma rescaled_all_nan raw : all_nan raw → all_nan (rescaled raw).
Proof.
  intros H. unfold rescaled, Series.min. rewrite (valid_all_nan raw H).
  apply Forall_forall. intros y (x & <- & _)%list_elem_of_In%in_map_iff.
  by apply nan_div_l, nan_mul_r, nan_sub_r.
Qed.

Lemma score_filled_all_nan df :
  (∀ c, c ∈ column df "score" → isna c = true) → all_nan (score_filled df).
Proof.
  intros H.
  assert (Hs : all_nan (floats df "score")).
  { unfold floats. apply Forall_forall.
    intros y (c & <- & Hc%list_elem_of_In)%list_elem_of_In%in_map_iff.
    apply H in Hc. by destruct c. }
  unfold score_filled, Series.median. rewrite (valid_all_nan _ Hs). simpl.
  unfold Series.fillna. apply Forall_forall.
  intros y (x & <- & Hx%list_elem_of_In)%list_elem_of_In%in_map_iff.
  eapply Forall_forall in Hs; [|exact Hx]. simpl in Hs. by rewrite Hs.
Qed.

(** X10: Where no row has a score, the median that should fill the gaps is
    itself NaN: score_filled, hygiene_index_raw and hygiene_index are then
    missing on every row, whatever the two counts are. *)
Theorem unscored_frames_get_no_index df out :
  hygiene df = Ok out →
  (∀ c, c ∈ column df "score" → isna c = true) →
  ∀ col c, col ∈ ["score_filled"; "hygiene_index_raw"; "hygiene_index"] →
    c ∈ column out col → isna c = true.
Proof.
  intros [_ ->]%hygiene_inv Hscore col c Hcol Hc.
  pose proof (score_filled_all_nan df Hscore) as Hs.
  pose proof (weighted_all_nan WEIGHT_SCORE WEIGHT_CRITICAL WEIGHT_VIOLATION_COUNT
                _ (Series.minmax (Series.fillna 0 (floats df "critical_violations")))
                (Series.minmax (Series.fillna 0 (floats df "violation_count")))
                (minmax_all_nan _ Hs)) as Hraw.
  fold (index_raw WEIGHT_SCORE WEIGHT_CRITICAL WEIGHT_VIOLATION_COUNT df) in Hraw.
  pose proof (rescaled_all_nan _ Hraw) as Hidx.
  destruct (column_hygiene_value WEIGHT_SCORE WEIGHT_CRITICAL
              WEIGHT_VIOLATION_COUNT df) as (E1 & E2 & E3).
  assert (Hall : ∀ s, all_nan s → c ∈ Float <$> s → isna c = true).
  { intros s Hall (x & -> & Hx)%list_elem_of_fmap.
    by eapply Forall_forall in Hall. }
  apply elem_of_cons in Hcol as [->|Hcol];
    [rewrite E1 in Hc; exact (Hall _ Hs Hc)|].
  apply elem_of_cons in Hcol as [->|Hcol];
    [rewrite E2 in Hc; exact (Hall _ Hraw Hc)|].
  apply list_elem_of_singleton in Hcol as ->. rewrite E3 in Hc.
  exact (Hall _ Hidx Hc).
Qed.
End NanPropagation.

(** ** From the history to its index *)

Section HistoryToIndex.
Import Features Hygiene HygieneValue.

Lemma agg_first_cases (cs : list Cell) : agg_first cs = NA ∨ agg_first cs ∈ cs.
Proof.
  unfold agg_first. destruct (List.filter notna cs) as [|c l] eqn:E; [by left|].
  right. assert (Hc : c ∈ List.filter notna cs) by (rewrite E; by left).
  by apply elem_of_List_filter in Hc as [Hc _].
Qed.

Lemma forallb_column (p : Cell → bool) df c :
  (∀ v, v ∈ rows df → p (cell v c) = true) → forallb p (column df c) = true.
Proof.
  intros H. apply forallb_forall. intros x (v & <- & Hv)%in_map_iff.
  by apply H, list_elem_of_In.
Qed.

(** X11: A history built from a frame whose scores are numbers (or
    missing) and whose is_critical_description is a bool on every row is
    always accepted by the index calculator, which returns it row for
    row. *)
Theorem history_can_be_indexed df h :
  history df = Ok h →
  (∀ r, r ∈ rows df → is_numeric (cell r "score") = true) →
  (∀ r, r ∈ rows df → ∃ b, cell r "is_critical_description" = Bool b) →
  ∃ idx, hygiene h = Ok idx ∧ length (rows idx) = length (rows h).
Proof.
  intros [_ ->]%history_inv Hscore Hflag.
  assert (Hn : forallb (numeric_column (history_value df)) index_inputs = true).
  { assert (Hrow : ∀ v, v ∈ rows (history_value df) →
               is_numeric (cell v "score") = true ∧
               is_numeric (cell v "critical_violations") = true ∧
               is_numeric (cell v "violation_count") = true).
    { intros v Hv. destruct (visit_of_group df v Hv) as (k & _ & Ha).
      rewrite <- (Ha "score"), <- (Ha "critical_violations"),
        <- (Ha "violation_count") by (unfold agg_columns; set_solver).
      split; [|done].
      change (cell (agg_row (count_column df) (rows df) k) "score")
        with (agg_first (map (λ r, cell r "score")
                (group_rows camis_col date_col (rows df) k))).
      destruct (agg_first_cases (map (λ r, cell r "score")
                  (group_rows camis_col date_col (rows df) k))) as [->|Hin]; [done|].
      apply list_elem_of_In, in_map_iff in Hin as (r & <- & Hr).
      apply Hscore. apply list_elem_of_In in Hr. unfold group_rows in Hr.
      by apply elem_of_List_filter in Hr as [Hr _]. }
    simpl. unfold numeric_column.
    rewrite !forallb_column by (intros v Hv; by apply Hrow).
    done. }
  exists (hygiene_value WEIGHT_SCORE WEIGHT_CRITICAL WEIGHT_VIOLATION_COUNT
            (history_value df)).
  split; [rewrite hygiene_run; by apply hygiene_frames_Ok|].
  apply (extends_by_length index_cols).
  eapply hygiene_frames_extends. by apply hygiene_frames_Ok.
Qed.
End HistoryToIndex.

(** ** The Aggregator: the rows of the panel *)

Section AggregatorShape.
Import Features Aggregate Panel.
Context (parse_datetime : string → option Z) (period_start : Z → Z).

Abbreviation pkey := (panel_key parse_datetime period_start).
Abbreviation prow :=
  (λ r, Aggregate.periodized period_start (Aggregate.coerced parse_datetime r)).

Lemma cell_prow r c :
  c ≠ DATE_COL → c ≠ "period" → cell (prow r) c = cell r c.
Proof.
  intros H1 H2. unfold Aggregate.periodized, Aggregate.coerced.
  by rewrite !cell_insert_ne.
Qed.

Lemma panel_key_spec r z p :
  pkey r = Some (z, p) ↔
  cell r ZIP_COL = Str z ∧
  ∃ t, to_datetime parse_datetime (cell r DATE_COL) = Date t ∧ period_start t = p.
Proof.
  unfold panel_key, key_of. rewrite cell_prow by done.
  assert (cell (prow r) "period"
          = period_of period_start (to_datetime parse_datetime (cell r DATE_COL)))
    as ->.
  { unfold Aggregate.periodized. rewrite cell_insert_eq. unfold Aggregate.coerced.
    by rewrite cell_insert_eq. }
  destruct (cell r ZIP_COL) as [|s| | | | |]; simpl;
    try (split; [done|by intros [? _]]).
  destruct (to_datetime parse_datetime (cell r DATE_COL)) as [| | | | |t|]; simpl;
    try (split; [done|by intros [_ (? & ? & _)]]).
  split.
  - intros [= -> <-]. eauto.
  - intros [[= ->] (t' & [= <-] & <-)]. done.
Qed.

Lemma panel_key_kept r k :
  pkey r = Some k → Aggregate.has_date_and_zip parse_datetime r = true.
Proof.
  destruct k as [z p]. intros [Hz (t & Ht & _)]%panel_key_spec.
  unfold Aggregate.has_date_and_zip. by rewrite Hz, Ht.
Qed.

Lemma aggregate_inv df out :
  Aggregate.aggregate parse_datetime period_start df = Ok out →
  ∃ d, with_period parse_datetime period_start DATE_COL ZIP_COL df = Ok d ∧
       Forall2 (λ k v, zip_agg_row ZIP_COL (rows d) k = Ok v)
               (group_keys ZIP_COL "period" (rows d)) (rows out).
Proof.
  unfold Aggregate.aggregate, aggregate_by_zip.
  destruct (with_period _ _ _ _ df) as [d|] eqn:Hd; [|done]. cbn [rbind].
  destruct (first_missing d _); [done|].
  destruct (key_dtype_ok ZIP_COL "period" d); [|done].
  destruct (collect _) as [rs|] eqn:Hc; [|done]. cbn [rbind]. intros [= <-].
  exists d. split; [done|]. apply collect_Ok in Hc. simpl.
  by apply Forall2_fmap_l in Hc.
Qed.

Lemma filter_map_comm {A B} (f : B → bool) (g : A → B) l :
  List.filter f (map g l) = map g (List.filter (λ x, f (g x)) l).
Proof.
  induction l as [|x l IH]; simpl; [done|]. destruct (f (g x)); simpl; by rewrite IH.
Qed.

Lemma filter_filter_implied {A} (f h : A → bool) l :
  (∀ x, f x = true → h x = true) →
  List.filter f (List.filter h l) = List.filter f l.
Proof.
  intros H. induction l as [|x l IH]; simpl; [done|].
  destruct (h x) eqn:Hh; simpl; [by rewrite IH|].
  destruct (f x) eqn:Hf; [|done]. apply H in Hf. congruence.
Qed.

(** The rows of one cell of the panel are the input rows with its key. *)
Lemma group_rows_panel df d k :
  with_period parse_datetime period_start DATE_COL ZIP_COL df = Ok d →
  group_rows ZIP_COL "period" (rows d) k
  = map prow (List.filter (λ r, bool_decide (pkey r = Some k)) (rows df)).
Proof.
  intros Hd. rewrite (with_period_rows _ _ df d Hd). unfold group_rows.
  rewrite filter_map_comm. f_equal. apply filter_filter_implied.
  intros r Hr%bool_decide_eq_true. by eapply panel_key_kept.
Qed.

(** Every input row with a text zip and a date has its cell in the panel. *)
Lemma aggregate_covers df out r z t :
  Aggregate.aggregate parse_datetime period_start df = Ok out →
  r ∈ rows df → cell r ZIP_COL = Str z →
  to_datetime parse_datetime (cell r DATE_COL) = Date t →
  ∃ v, v ∈ rows out ∧ cell v ZIP_COL = Str z ∧
       cell v "period" = Date (period_start t).
Proof.
  intros (d & Hd & Hrows)%aggregate_inv Hr Hz Ht.
  assert (Hk : (z, period_start t) ∈ group_keys ZIP_COL "period" (rows d)).
  { apply elem_of_group_keys. exists (prow r). split.
    - rewrite (with_period_rows _ _ df d Hd).
      apply list_elem_of_In, (in_map prow), list_elem_of_In, elem_of_List_filter.
      split; [done|]. unfold Aggregate.has_date_and_zip. by rewrite Hz, Ht.
    - apply panel_key_spec. eauto. }
  apply list_elem_of_lookup in Hk as [i Hi].
  destruct (Forall2_lookup_l _ _ _ _ _ Hrows Hi) as (v & Hv & Hkv).
  exists v. split; [by eapply list_elem_of_lookup_2|].
  by apply zip_agg_row_key in Hkv.
Qed.

(** X12: The panel has one row for each (zip, period) that occurs among the
    input rows with a zip and a date, in ascending order of zip and period:
    no cell is repeated and none is left out. *)
Theorem panel_has_one_row_per_cell df out :
  Aggregate.aggregate parse_datetime period_start df = Ok out →
  (∃ ks : list Key,
     map (key_of ZIP_COL "period") (rows out) = map Some ks ∧
     StronglySorted key_lt ks) ∧
  (∀ r z t, r ∈ rows df → cell r ZIP_COL = Str z →
     to_datetime parse_datetime (cell r DATE_COL) = Date t →
     ∃ v, v ∈ rows out ∧ cell v ZIP_COL = Str z ∧
          cell v "period" = Date (period_start t)).
Proof.
  intros Hout. split.
  - apply aggregate_inv in Hout as (d & Hd & Hrows).
    exists (group_keys ZIP_COL "period" (rows d)).
    split; [|apply sorted_keys_sorted].
    induction Hrows as [|k v ks vs Hkv _ IH]; simpl; [done|].
    rewrite IH. f_equal. apply zip_agg_row_key in Hkv as [Hz Hp].
    unfold key_of. rewrite Hz, Hp. by destruct k.
  - intros r z t. by apply aggregate_covers.
Qed.

(** X13: The inspections of a panel row count the input rows of its zip and
    period that carry an inspection_number. *)
Theorem inspections_counts_numbered_rows df out v z p :
  Aggregate.aggregate parse_datetime period_start df = Ok out →
  v ∈ rows out → cell v ZIP_COL = Str z → cell v "period" = Date p →
  cell v "inspections" =
    Int (Z.of_nat (length (List.filter
           (λ r, bool_decide (pkey r = Some (z, p))
                 && notna (cell r "inspection_number")) (rows df)))).
Proof.
  intros (d & Hd & Hrows)%aggregate_inv Hv Hz Hp.
  destruct (Forall2_elem_of_r _ _ _ _ Hrows Hv) as (k & _ & Hkv).
  pose proof (zip_agg_row_key _ _ _ Hkv) as [Hz' Hp'].
  assert (k = (z, p)) as -> by (destruct k; simpl in *; congruence).
  revert Hkv. unfold zip_agg_row.
  destruct (mean_of _ "hygiene_index"); [|done].
  destruct (median_of _ "hygiene_index"); [|done].
  destruct (mean_of _ "score"); [|done].
  destruct (mean_of _ "critical_violations"); [|done].
  cbn [rbind]. intros [= <-].
  transitivity (Int (agg_count (map (λ r, cell r "inspection_number")
                  (group_rows ZIP_COL "period" (rows d) (z, p))))); [done|].
  rewrite (group_rows_panel df d _ Hd), map_map. f_equal. unfold agg_count. f_equal.
  rewrite (map_ext _ (λ r, cell r "inspection_number"))
    by (intros r; by apply cell_prow).
  generalize (rows df). intros rs.
  induction rs as [|r rs IH]; simpl; [done|].
  destruct (bool_decide (pkey r = Some (z, p))); simpl; [|done].
  destruct (notna (cell r "inspection_number")); simpl; by rewrite IH.
Qed.

Lemma has_column_with_period df d c :
  with_period parse_datetime period_start DATE_COL ZIP_COL df = Ok d →
  c ≠ "period" → has_column d c = has_column df c.
Proof.
  unfold with_period, getitem. destruct (has_column df DATE_COL) eqn:Hdc; [|done].
  cbn [rbind]. destruct (first_missing _ _); [done|]. intros [= <-] Hc.
  rewrite has_column_setitem, (bool_decide_eq_false_2 (c = "period")) by done.
  rewrite orb_false_r.
  change (has_column (mkDF ?cs ?rs) c) with (bool_decide (c ∈ cs)).
  by rewrite Hdc.
Qed.

(** X14: The aggregator reads eight columns; on a frame that lacks one of them
    it raises a KeyError for a column the frame does not have. *)
Theorem aggregate_requires_its_columns df c :
  c ∈ panel_inputs → has_column df c = false →
  ∃ c', has_column df c' = false ∧
        Aggregate.aggregate parse_datetime period_start df = Err (KeyError c').
Proof.
  intros Hc Hm. unfold Aggregate.aggregate, aggregate_by_zip.
  destruct (with_period _ _ _ _ df) as [d|e] eqn:Hd.
  - cbn [rbind].
    assert (Hdz : has_column df DATE_COL = true ∧ has_column df ZIP_COL = true).
    { revert Hd. unfold with_period, getitem.
      destruct (has_column df DATE_COL) eqn:Hdc; [|done]. cbn [rbind first_missing].
      rewrite !has_column_setitem, Hdc. simpl.
      rewrite orb_false_r. by destruct (has_column df ZIP_COL). }
    destruct Hdz as [Hdc Hzc].
    assert (Hin : c ∈ ["hygiene_index"; "inspection_number"; "camis"; "score";
                       "critical_violations"; "action"]).
    { unfold panel_inputs in Hc.
      apply elem_of_cons in Hc as [->|Hc]; [congruence|].
      apply elem_of_cons in Hc as [->|Hc]; [congruence|done]. }
    assert (Hmd : has_column d c = false).
    { rewrite (has_column_with_period df d c Hd); [done|].
      intros ->. revert Hin. set_solver. }
    destruct (first_missing_is_Some d _ c Hin Hmd) as [c' Hc']. rewrite Hc'.
    exists c'. split; [|done].
    apply first_missing_Some in Hc' as [Hin' Hm'].
    rewrite (has_column_with_period df d c' Hd) in Hm'; [done|].
    intros ->. revert Hin'. set_solver.
  - cbn [rbind]. revert Hd. unfold with_period, getitem.
    destruct (has_column df DATE_COL) eqn:Hdc; cycle 1.
    { cbn [rbind]. intros [= <-]. by exists DATE_COL. }
    cbn [rbind first_missing]. rewrite !has_column_setitem, Hdc. simpl.
    rewrite orb_false_r. destruct (has_column df ZIP_COL) eqn:Hzc; [done|].
    intros [= <-]. by exists ZIP_COL.
Qed.
End AggregatorShape.

(** ** From the Geo-Resolver to the Aggregator: a missing zip *)

Section MissingZip.
Import Features Aggregate Cleaning.
Context (py_str : Cell → string) (to_numeric : Cell → Cell).
Context (sjoin_within : DataFrame → DataFrame → DataFrame).
Context (parse_datetime : string → option Z) (period_start : Z → Z).

(** The rows the resolver leaves when it takes the zip from column [src]. *)
Lemma rows_from_fields df src :
  from_fields py_str df = setitem df "zipcode" (zip5 py_str <$> column df src) →
  rows (from_fields py_str df)
  = map (λ r : Row, <["zipcode" := zip5 py_str (cell r src)]> r) (rows df).
Proof. intros ->. apply rows_setitem_map. Qed.

(** C5, as the code has it: a visit without a zip code is not excluded.
    The resolver turns its missing zip into the text 00nan (the zipcode, or
    else the postal_code, is cast to text before it is cut and padded), the
    aggregator's dropna keeps that text, and the panel has a row keyed by
    00nan and the visit's period. *)
Theorem missing_zip_is_aggregated df d out r t :
  let src := if has_column df "zipcode" then "zipcode" else "postal_code" in
  has_column df src = true →
  spatially_join_zip py_str to_numeric sjoin_within df None = Ok d →
  aggregate parse_datetime period_start d = Ok out →
  r ∈ rows df → cell r src = NA →
  to_datetime parse_datetime (cell r DATE_COL) = Date t →
  ∃ v, v ∈ rows out ∧ cell v ZIP_COL = Str "00nan" ∧
       cell v "period" = Date (period_start t).
Proof.
  intros src Hsrc Hd Hout Hr Hna Ht.
  unfold spatially_join_zip in Hd. injection Hd as <-.
  assert (E : from_fields py_str df
              = setitem df "zipcode" (zip5 py_str <$> column df src)).
  { unfold from_fields, src in *.
    destruct (has_column df "zipcode"); [done|]. by rewrite Hsrc. }
  apply (aggregate_covers parse_datetime period_start (from_fields py_str df) out
           (<["zipcode" := zip5 py_str (cell r src)]> r)); [done| | |].
  - rewrite (rows_from_fields df src E).
    apply list_elem_of_In,
      (in_map (λ r : Row, <["zipcode" := zip5 py_str (cell r src)]> r)).
    by apply list_elem_of_In.
  - unfold ZIP_COL. rewrite cell_insert_eq, Hna. reflexivity.
  - unfold DATE_COL. rewrite cell_insert_ne by done. exact Ht.
Qed.
End MissingZip.

(** ** The Geo-Resolver: the form of a resolved zip *)

Section ZipForm.
Import Cleaning.
Context (py_str : Cell → string) (to_numeric : Cell → Cell).
Context (sjoin_within : DataFrame → DataFrame → DataFrame).

Lemma substring0_length m s :
  String.length (String.substring 0 m s) = Nat.min m (String.length s).
Proof.
  revert s. induction m as [|m IH]; intros [|a s]; simpl; try done.
  by rewrite IH.
Qed.

Lemma substring0_id m s :
  (String.length s ≤ m)%nat → String.substring 0 m s = s.
Proof.
  revert s. induction m as [|m IH]; intros [|a s]; simpl; try done; try lia.
  intros H. rewrite IH; [done|lia].
Qed.

Lemma length_zeros n : String.length (zeros n) = n.
Proof. induction n; simpl; auto. Qed.

Lemma length_app_string s t :
  String.length (s +:+ t) = (String.length s + String.length t)%nat.
Proof. induction s; simpl; auto. Qed.

Lemma zfill5_length s :
  (String.length s ≤ 5)%nat → String.length (zfill5 s) = 5%nat.
Proof.
  intros H. unfold zfill5.
  destruct (5 <=? String.length s)%nat eqn:E.
  - apply Nat.leb_le in E. lia.
  - apply Nat.leb_gt in E.
    destruct s as [|[[] [] [] [] [] [] [] []] s']; cbn [String.length] in *;
      rewrite ?length_app_string, ?length_zeros; cbn [String.length]; lia.
Qed.

Lemma zfill5_id s : String.length s = 5%nat → zfill5 s = s.
Proof. intros H. unfold zfill5. by rewrite H. Qed.

Lemma zip5_length c : ∃ s, zip5 py_str c = Str s ∧ String.length s = 5%nat.
Proof.
  eexists. split; [done|]. apply zfill5_length. unfold slice5.
  rewrite substring0_length. lia.
Qed.

Lemma zip5_idempotent c : zip5 py_str (zip5 py_str c) = zip5 py_str c.
Proof.
  destruct (zip5_length c) as (s & Hs & Hlen). rewrite Hs. unfold zip5. simpl.
  unfold slice5. rewrite substring0_id by lia. by rewrite zfill5_id.
Qed.

Lemma column_from_fields df :
  has_column (from_fields py_str df) "zipcode" = true →
  ∃ cs, column (from_fields py_str df) "zipcode" = zip5 py_str <$> cs.
Proof.
  unfold from_fields. destruct (has_column df "zipcode") eqn:Hz.
  - intros _. eexists. apply column_setitem_eq. by rewrite length_fmap, length_column.
  - destruct (has_column df "postal_code") eqn:Hp; [|congruence].
    intros _. eexists. apply column_setitem_eq. by rewrite length_fmap, length_column.
Qed.

Lemma has_column_drop_columns cs df c :
  has_column (drop_columns cs df) c = true → has_column df c = true.
Proof.
  unfold has_column, drop_columns; cbn [columns].
  intros [H _]%bool_decide_eq_true%elem_of_List_filter. by apply bool_decide_eq_true.
Qed.

(** X15: Whichever way the zip is resolved, from the zipcode column, from
    postal_code or from the spatial join, a zipcode column of the returned
    frame holds a text of exactly five characters on every row: no record
    is left with a missing zip. *)
Theorem resolved_zip_has_five_characters df zips out :
  spatially_join_zip py_str to_numeric sjoin_within df zips = Ok out →
  has_column out "zipcode" = true →
  ∀ c, c ∈ column out "zipcode" → ∃ s, c = Str s ∧ String.length s = 5%nat.
Proof.
  intros Hrun Hcol.
  cut (∃ cs, column out "zipcode" = zip5 py_str <$> cs).
  { intros [cs ->] c (x & -> & _)%list_elem_of_fmap. apply zip5_length. }
  revert Hrun. unfold spatially_join_zip.
  destruct zips as [zips|]; cycle 1.
  { intros [= <-]. by apply column_from_fields. }
  destruct (negb (has_column zips "geometry")); [done|].
  destruct (has_column (from_fields py_str df) "latitude"
            && has_column (from_fields py_str df) "longitude"); cycle 1.
  { intros [= <-]. by apply column_from_fields. }
  set (joined := sjoin_within _ zips).
  destruct (List.find (has_column joined) zip_candidates) as [zf|] eqn:Hfind.
  - intros [= <-]. eexists. rewrite column_drop_columns by set_solver.
    apply column_setitem_eq. by rewrite length_fmap, length_column.
  - intros [= <-]. apply has_column_drop_columns in Hcol.
    assert (Hnone : has_column joined "zipcode" = false).
    { apply (find_none _ _ Hfind "zipcode"). unfold zip_candidates. simpl. auto 10. }
    congruence.
Qed.

(** X16: Resolving the zip from the frame's own columns a second time changes
    nothing: the normalised five-character form is a fixed point. *)
Theorem zip_from_fields_is_idempotent df d :
  spatially_join_zip py_str to_numeric sjoin_within df None = Ok d →
  spatially_join_zip py_str to_numeric sjoin_within d None = Ok d.
Proof.
  unfold spatially_join_zip. intros [= <-]. f_equal.
  assert (Hset : ∀ (d : DataFrame) src,
            has_column (setitem d "zipcode" (zip5 py_str <$> column d src)) "zipcode"
              = true ∧
            setitem (setitem d "zipcode" (zip5 py_str <$> column d src)) "zipcode"
              (zip5 py_str <$>
                 column (setitem d "zipcode" (zip5 py_str <$> column d src)) "zipcode")
            = setitem d "zipcode" (zip5 py_str <$> column d src)).
  { intros d src.
    assert (Hh : has_column (setitem d "zipcode" (zip5 py_str <$> column d src))
                   "zipcode" = true).
    { rewrite has_column_setitem, bool_decide_eq_true_2 by done. apply orb_true_r. }
    split; [done|].
    rewrite column_setitem_eq by (by rewrite length_fmap, length_column).
    unfold setitem at 1. rewrite Hh. unfold setitem at 3. cbn [columns rows].
    f_equal. rewrite rows_setitem. unfold column.
    generalize (rows d). intros rs. induction rs as [|r rs IH]; csimpl; [done|].
    rewrite insert_insert_eq, zip5_idempotent. by f_equal. }
  destruct (has_column df "zipcode") eqn:Hz.
  - assert (E : from_fields py_str df
                = setitem df "zipcode" (zip5 py_str <$> column df "zipcode"))
      by (unfold from_fields; by rewrite Hz).
    rewrite E. unfold from_fields. by destruct (Hset df "zipcode") as [-> ->].
  - destruct (has_column df "postal_code") eqn:Hp.
    + assert (E : from_fields py_str df
                  = setitem df "zipcode" (zip5 py_str <$> column df "postal_code"))
        by (unfold from_fields; by rewrite Hz, Hp).
      rewrite E. unfold from_fields. by destruct (Hset df "postal_code") as [-> ->].
    + assert (E : from_fields py_str df = df)
        by (unfold from_fields; by rewrite Hz, Hp).
      by rewrite !E.
Qed.
End ZipForm.

(** ** The Normalizer in the store *)

Section NormalizerRun.
Import Features Aggregate Cleaning Standardize.
Context (py_str : Cell → string) (to_numeric : Cell → Cell).
Context (parse_datetime : string → option Z).

Abbreviation standardize' := (standardize py_str to_numeric parse_datetime).
Abbreviation standardize_frames' :=
  (standardize_frames py_str to_numeric parse_datetime).
Abbreviation normalized' := (normalized py_str to_numeric parse_datetime).

Lemma wp_when_column l col body d st Q :
  st !! l = Some d →
  (if has_column d col then wp body st Q else Q (Ok tt) st) →
  wp (when_column l col body) st Q.
Proof.
  intros Hl H. apply wp_bind, (wp_deref _ d); [done|].
  destruct (has_column d col); [done|by apply wp_ret].
Qed.

Lemma wp_keep_raw l col d st Q :
  st !! l = Some d →
  Q (Ok tt) (<[l := with_raw col d]> st) →
  wp (keep_raw l col) st Q.
Proof.
  intros Hl H. apply (wp_when_column _ _ _ d); [done|].
  unfold with_raw in H. destruct (has_column d col) eqn:Hc.
  - apply wp_bind, (wp_series _ _ d); [done|]. rewrite getitem_Ok by done.
    by apply (wp_assign _ _ _ d).
  - by rewrite insert_id in H.
Qed.

Lemma wp_converted l col f d st Q :
  st !! l = Some d →
  Q (Ok tt) (<[l := converted col f d]> st) →
  wp (when_column l col (s ← series l col; assign l col (f <$> s))) st Q.
Proof.
  intros Hl H. apply (wp_when_column _ _ _ d); [done|].
  unfold converted in H. destruct (has_column d col) eqn:Hc.
  - apply wp_bind, (wp_series _ _ d); [done|]. rewrite getitem_Ok by done.
    by apply (wp_assign _ _ _ d).
  - by rewrite insert_id in H.
Qed.

(** Run on a location that holds [d0], the function returns that location,
    which then holds the normalised frame. *)
Lemma standardize_run st l d0 :
  st !! l = Some d0 →
  wp (standardize' l) st (λ r st',
    match r with
    | Ok l' => l' = l ∧ ∃ out, standardize_frames' d0 = Ok out ∧
                               st' = <[l := out]> st
    | Err e => standardize_frames' d0 = Err e
    end).
Proof.
  intros Hl. unfold standardize, standardize_frames.
  apply wp_bind, (wp_deref _ d0); [done|].
  apply wp_bind. case_bool_decide as Hnd; [|done].
  apply (wp_update _ _ d0); [done|].
  set (r0 := rename_labels strip d0).
  apply wp_bind, (wp_keep_raw _ _ r0); [by rewrite lookup_insert_eq|].
  rewrite insert_insert_eq. set (r1 := with_raw "violation_description" r0).
  apply wp_bind, (wp_keep_raw _ _ r1); [by rewrite lookup_insert_eq|].
  rewrite insert_insert_eq. set (r2 := with_raw "grade" r1).
  apply wp_bind, (wp_keep_raw _ _ r2); [by rewrite lookup_insert_eq|].
  rewrite insert_insert_eq. set (r3 := with_raw "score" r2).
  apply wp_bind, (wp_keep_raw _ _ r3); [by rewrite lookup_insert_eq|].
  rewrite insert_insert_eq. set (r4 := with_raw "inspection_date" r3).
  apply wp_bind, (wp_converted _ _ _ r4); [by rewrite lookup_insert_eq|].
  rewrite insert_insert_eq.
  set (r5 := converted "inspection_date" (to_datetime parse_datetime) r4).
  apply wp_bind, (wp_converted _ _ _ r5); [by rewrite lookup_insert_eq|].
  rewrite insert_insert_eq. unfold r5, r4, r3, r2, r1, r0.
  fold (prepared to_numeric parse_datetime d0).
  set (d1 := prepared to_numeric parse_datetime d0).
  apply wp_bind, (wp_when_column _ _ _ d1); [by rewrite lookup_insert_eq|].
  assert (Hrest : ∀ d2 st2, st2 = <[l := d2]> st →
    wp (d ← deref l;
        assign l "violation_description"
          (text_of py_str <$> (if has_column d "violation_description"
                               then column d "violation_description"
                               else replicate (length (rows d)) (Str "")));;
        s ← series l "violation_description";
        flags ← lift (str_method is_critical "violation_description" s);
        assign l "is_critical_description" flags;;
        d ← deref l;
        (if has_column d "camis"
         then s ← series l "camis"; assign l "camis" (text_of py_str <$> s)
         else assign l "camis"
                (text_of py_str <$> replicate (length (rows d)) (Str "")));;
        mret l) st2
      (λ r st',
         match r with
         | Ok l' => l' = l ∧ ∃ out,
             rbind (flagged_critical (described py_str d2))
                   (λ d, Ok (identified py_str d)) = Ok out ∧
             st' = <[l := out]> st
         | Err e => rbind (flagged_critical (described py_str d2))
                          (λ d, Ok (identified py_str d)) = Err e
         end)).
  { intros d2 st2 ->.
    apply wp_bind, (wp_deref _ d2); [by rewrite lookup_insert_eq|].
    apply wp_bind, (wp_assign _ _ _ d2); [by rewrite lookup_insert_eq|].
    rewrite insert_insert_eq. fold (described py_str d2).
    set (d3 := described py_str d2). unfold flagged_critical.
    apply wp_bind, (wp_series _ _ d3); [by rewrite lookup_insert_eq|].
    destruct (getitem d3 "violation_description") as [s|e]; [|done].
    cbn [rbind]. apply wp_bind, wp_lift.
    destruct (str_method is_critical "violation_description" s) as [flags|e];
      [|done].
    cbn [rbind]. apply wp_bind, (wp_assign _ _ _ d3); [by rewrite lookup_insert_eq|].
    rewrite insert_insert_eq. set (d4 := setitem d3 _ flags).
    apply wp_bind, (wp_deref _ d4); [by rewrite lookup_insert_eq|].
    apply wp_bind. unfold identified.
    destruct (has_column d4 "camis") eqn:Hc.
    - apply wp_bind, (wp_series _ _ d4); [by rewrite lookup_insert_eq|].
      rewrite getitem_Ok by done.
      apply (wp_assign _ _ _ d4); [by rewrite lookup_insert_eq|].
      rewrite insert_insert_eq. apply wp_ret. split; [done|]. by eexists.
    - apply (wp_assign _ _ _ d4); [by rewrite lookup_insert_eq|].
      rewrite insert_insert_eq. apply wp_ret. split; [done|]. by eexists. }
  unfold graded. destruct (has_column d1 "grade") eqn:Hg.
  - apply wp_bind, (wp_series _ _ d1); [by rewrite lookup_insert_eq|].
    rewrite getitem_Ok by done. apply wp_bind, wp_lift.
    destruct (str_method grade_of "grade" (column d1 "grade")) as [g|e]; [|done].
    cbn [rbind]. apply (wp_assign _ _ _ d1); [by rewrite lookup_insert_eq|].
    rewrite insert_insert_eq. by apply Hrest.
  - cbn [rbind]. by apply Hrest.
Qed.

Lemma normalized_run df : normalized' df = standardize_frames' df.
Proof.
  pose proof (standardize_run {[ 0%nat := df ]} 0%nat df (lookup_singleton_eq _ _))
    as H.
  unfold wp in H. unfold normalized, run_on.
  destruct (standardize' 0%nat {[ 0%nat := df ]}) as [[l'|e] st']; simpl in H.
  - destruct H as (-> & out & -> & ->). by rewrite lookup_insert_eq.
  - done.
Qed.
End NormalizerRun.

(** ** The Normalizer: the columns of the normalised frame *)

Section NormalizerColumns.
Import Features Aggregate Cleaning Standardize.
Context (py_str : Cell → string) (to_numeric : Cell → Cell).
Context (parse_datetime : string → option Z).

Abbreviation text_of' := (text_of py_str).
Abbreviation prepared' := (prepared to_numeric parse_datetime).

Lemma cell_rename_row (f : string → string) cols (r : Row) c :
  NoDup (f <$> cols) → c ∈ cols → cell (rename_row f cols r) (f c) = cell r c.
Proof.
  intros Hnd Hc. unfold cell at 1, rename_row.
  rewrite (elem_of_list_to_map_1 _ (f c) (cell r c)); [done| |].
  - by rewrite <- list_fmap_compose.
  - apply list_elem_of_fmap. by exists c.
Qed.

Lemma column_rename_labels (f : string → string) d c :
  NoDup (f <$> columns d) → c ∈ columns d →
  column (rename_labels f d) (f c) = column d c.
Proof.
  intros Hnd Hc. unfold column, rename_labels; cbn [rows].
  rewrite <- list_fmap_compose. apply map_ext. intros r.
  by apply cell_rename_row.
Qed.

Lemma length_rows_rename_labels f d :
  length (rows (rename_labels f d)) = length (rows d).
Proof. unfold rename_labels; cbn [rows]. by rewrite length_fmap. Qed.

(** Each statement keeps the number of rows. *)

Lemma length_rows_with_raw col d : length (rows (with_raw col d)) = length (rows d).
Proof.
  unfold with_raw. destruct (has_column d col); [|done].
  apply length_rows_setitem, length_column.
Qed.

Lemma length_rows_converted col f d :
  length (rows (converted col f d)) = length (rows d).
Proof.
  unfold converted. destruct (has_column d col); [|done].
  apply length_rows_setitem. by rewrite length_fmap, length_column.
Qed.

Lemma str_method_length f c cs vs :
  str_method f c cs = Ok vs → length vs = length cs.
Proof.
  revert vs. induction cs as [|x cs IH]; intros vs; simpl; [by intros [= <-]|].
  destruct x; try done;
    (destruct (str_method f c cs) as [ws|]; [|done]); simpl; intros [= <-];
    simpl; by rewrite (IH ws).
Qed.

Lemma str_method_text f c (g : Cell → string) (ys : list Cell) :
  str_method f c ((λ y, Str (g y)) <$> ys) = Ok ((λ y, f (g y)) <$> ys).
Proof. induction ys as [|y ys IH]; csimpl; [done|]. by rewrite IH. Qed.

Lemma str_method_Ok f c cs :
  forallb is_str_or_na cs = true → ∃ vs, str_method f c cs = Ok vs.
Proof.
  induction cs as [|x cs IH]; simpl; [by eexists|].
  intros [Hx [vs Hvs]%IH]%andb_true_iff. destruct x; try done; rewrite Hvs; by eexists.
Qed.

Lemma str_method_inv f c cs vs :
  str_method f c cs = Ok vs → forallb is_str_or_na cs = true.
Proof.
  revert vs. induction cs as [|x cs IH]; intros vs; simpl; [done|].
  destruct x; try done;
    (destruct (str_method f c cs) as [ws|] eqn:E; [|done]); intros _; by eapply IH.
Qed.

Lemma length_rows_graded d d' : graded d = Ok d' → length (rows d') = length (rows d).
Proof.
  unfold graded. destruct (has_column d "grade"); [|by intros [= <-]].
  destruct (str_method _ _ _) as [g|] eqn:E; [|done]. cbn [rbind]. intros [= <-].
  apply length_rows_setitem. apply str_method_length in E.
  by rewrite E, length_column.
Qed.

Lemma description_length d :
  length (text_of' <$> (if has_column d "violation_description"
                        then column d "violation_description"
                        else replicate (length (rows d)) (Str "")))
  = length (rows d).
Proof.
  rewrite length_fmap. destruct (has_column d _);
    [apply length_column|apply length_replicate].
Qed.

Lemma identifier_length d :
  length (text_of' <$> (if has_column d "camis" then column d "camis"
                        else replicate (length (rows d)) (Str "")))
  = length (rows d).
Proof.
  rewrite length_fmap. destruct (has_column d _);
    [apply length_column|apply length_replicate].
Qed.

Lemma length_rows_described d : length (rows (described py_str d)) = length (rows d).
Proof. apply length_rows_setitem, description_length. Qed.

Lemma column_described d :
  column (described py_str d) "violation_description"
  = text_of' <$> (if has_column d "violation_description"
                  then column d "violation_description"
                  else replicate (length (rows d)) (Str "")).
Proof. apply column_setitem_eq, description_length. Qed.

(** The flags are always computed: the description column is text. *)
Lemma flagged_critical_described d :
  ∃ ys, length ys = length (rows d) ∧
    column (described py_str d) "violation_description" = text_of' <$> ys ∧
    flagged_critical (described py_str d)
    = Ok (setitem (described py_str d) "is_critical_description"
            ((λ y, is_critical (astype_str py_str y)) <$> ys)) ∧
    (has_column d "violation_description" = true →
       ys = column d "violation_description") ∧
    (has_column d "violation_description" = false →
       ys = replicate (length (rows d)) (Str "")).
Proof.
  eexists. split; [|split; [apply column_described|split; [|split]]].
  - destruct (has_column d _); [apply length_column|apply length_replicate].
  - unfold flagged_critical. rewrite getitem_Ok; cycle 1.
    { unfold described. rewrite has_column_setitem, bool_decide_eq_true_2 by done.
      apply orb_true_r. }
    cbn [rbind]. rewrite column_described. unfold text_of.
    by rewrite str_method_text.
  - by intros ->.
  - by intros ->.
Qed.

Lemma length_rows_identified d : length (rows (identified py_str d)) = length (rows d).
Proof. apply length_rows_setitem, identifier_length. Qed.

(** Each statement leaves the other columns as they are. *)

Lemma column_with_raw_ne col d c :
  c ≠ "RAW_" +:+ col → column (with_raw col d) c = column d c.
Proof.
  intros Hc. unfold with_raw. destruct (has_column d col); [|done].
  apply column_setitem_ne; [done|apply length_column].
Qed.

Lemma column_with_raw_eq col d :
  has_column d col = true → column (with_raw col d) ("RAW_" +:+ col) = column d col.
Proof.
  intros Hc. unfold with_raw. rewrite Hc. apply column_setitem_eq, length_column.
Qed.

Lemma column_converted_ne col f d c :
  c ≠ col → column (converted col f d) c = column d c.
Proof.
  intros Hc. unfold converted. destruct (has_column d col); [|done].
  apply column_setitem_ne; [done|by rewrite length_fmap, length_column].
Qed.

Lemma column_converted_eq col f d :
  has_column d col = true → column (converted col f d) col = f <$> column d col.
Proof.
  intros Hc. unfold converted. rewrite Hc.
  apply column_setitem_eq. by rewrite length_fmap, length_column.
Qed.

Lemma column_graded_ne d d' c :
  graded d = Ok d' → c ≠ "grade" → column d' c = column d c.
Proof.
  unfold graded. destruct (has_column d "grade"); [|by intros [= <-]].
  destruct (str_method _ _ _) as [g|] eqn:E; [|done]. cbn [rbind]. intros [= <-] Hc.
  apply column_setitem_ne; [done|]. apply str_method_length in E.
  by rewrite E, length_column.
Qed.

Lemma column_described_ne d c :
  c ≠ "violation_description" → column (described py_str d) c = column d c.
Proof. intros Hc. apply column_setitem_ne; [done|apply description_length]. Qed.

Lemma column_identified_ne d c :
  c ≠ "camis" → column (identified py_str d) c = column d c.
Proof. intros Hc. apply column_setitem_ne; [done|apply identifier_length]. Qed.

Lemma column_identified d :
  ∃ xs, column (identified py_str d) "camis" = text_of' <$> xs.
Proof. eexists. apply column_setitem_eq, identifier_length. Qed.

(** The columns each statement adds. *)

Lemma has_column_with_raw col d c :
  has_column (with_raw col d) c
  = has_column d c || (has_column d col && bool_decide (c = "RAW_" +:+ col)).
Proof.
  unfold with_raw. destruct (has_column d col); simpl.
  - apply has_column_setitem.
  - by rewrite orb_false_r.
Qed.

Lemma has_column_converted col f d c :
  has_column (converted col f d) c = has_column d c.
Proof.
  unfold converted. destruct (has_column d col) eqn:Hc; [|done].
  rewrite has_column_setitem. case_bool_decide as E; [subst; by rewrite Hc|].
  apply orb_false_r.
Qed.

Lemma has_column_graded d d' c : graded d = Ok d' → has_column d' c = has_column d c.
Proof.
  unfold graded. destruct (has_column d "grade") eqn:Hc; [|by intros [= <-]].
  destruct (str_method _ _ _) as [g|]; [|done]. cbn [rbind]. intros [= <-].
  rewrite has_column_setitem. case_bool_decide as E; [subst; by rewrite Hc|].
  apply orb_false_r.
Qed.

Lemma has_column_prepared d c :
  c ∉ (λ col, "RAW_" +:+ col) <$> RAW_FIELDS →
  has_column (prepared' d) c = has_column (rename_labels strip d) c.
Proof.
  intros Hc. unfold prepared. rewrite !has_column_converted, !has_column_with_raw.
  rewrite !(bool_decide_eq_false_2 (c = _)), !andb_false_r, !orb_false_r; [done|..];
    intros ->; apply Hc; unfold RAW_FIELDS; set_solver.
Qed.

(** What the statements after the conversions make of a frame. *)
Lemma standardize_frames_inv d out :
  standardize_frames py_str to_numeric parse_datetime d = Ok out →
  NoDup (strip <$> columns d) ∧
  ∃ d2 ys,
    graded (prepared' d) = Ok d2 ∧
    length ys = length (rows d2) ∧
    (has_column d2 "violation_description" = true →
       ys = column d2 "violation_description") ∧
    (has_column d2 "violation_description" = false →
       ys = replicate (length (rows d2)) (Str "")) ∧
    out = identified py_str
            (setitem (described py_str d2) "is_critical_description"
               ((λ y, is_critical (astype_str py_str y)) <$> ys)).
Proof.
  unfold standardize_frames. case_bool_decide as Hnd; [|done].
  destruct (graded _) as [d2|] eqn:Hg; [|done]. cbn [rbind].
  destruct (flagged_critical_described d2) as (ys & Hlen & _ & -> & H1 & H2).
  cbn [rbind]. intros [= <-]. split; [done|]. by exists d2, ys.
Qed.
End NormalizerColumns.

(** ** The Normalizer: what it guarantees *)

Section NormalizerTheorems.
Import Features Aggregate Cleaning Standardize.
Context (py_str : Cell → string) (to_numeric : Cell → Cell).
Context (parse_datetime : string → option Z).

Abbreviation normalized'' := (normalized py_str to_numeric parse_datetime).

Lemma is_date_or_na_to_datetime c :
  is_date_or_na (to_datetime parse_datetime c) = true.
Proof. destruct c; simpl; try done. by destruct (parse_datetime s). Qed.

Lemma has_column_renamed d c :
  c ∈ columns d → has_column (rename_labels strip d) (strip c) = true.
Proof.
  intros Hc. apply bool_decide_eq_true_2. unfold rename_labels; cbn [columns].
  apply list_elem_of_fmap. by exists c.
Qed.

(** The columns of the normalised frame. *)
Lemma normalized_columns df out :
  normalized'' df = Ok out →
  length (rows out) = length (rows df) ∧
  (∀ c, has_column out c
        = has_column (prepared to_numeric parse_datetime df) c
          || bool_decide (c = "violation_description")
          || bool_decide (c = "is_critical_description")
          || bool_decide (c = "camis")) ∧
  (∃ xs, column out "camis" = text_of py_str <$> xs) ∧
  (∃ ys, column out "violation_description" = text_of py_str <$> ys ∧
         column out "is_critical_description"
           = (λ y, is_critical (astype_str py_str y)) <$> ys) ∧
  (has_column out "inspection_date" = true →
     ∃ zs, column out "inspection_date" = to_datetime parse_datetime <$> zs).
Proof.
  rewrite normalized_run.
  intros (Hnd & d2 & ys & Hg & Hlen & H1 & H2 & ->)%standardize_frames_inv.
  set (flags := (λ y, is_critical (astype_str py_str y)) <$> ys).
  assert (Lf : length flags = length (rows (described py_str d2))).
  { unfold flags. by rewrite length_fmap, length_rows_described. }
  assert (Hcols : ∀ c,
    has_column (identified py_str
                  (setitem (described py_str d2) "is_critical_description" flags)) c
    = has_column (prepared to_numeric parse_datetime df) c
      || bool_decide (c = "violation_description")
      || bool_decide (c = "is_critical_description")
      || bool_decide (c = "camis")).
  { intros c. unfold identified, described. rewrite !has_column_setitem.
    by rewrite (has_column_graded _ _ c Hg). }
  split; [|split; [done|split; [|split]]].
  - rewrite length_rows_identified, length_rows_setitem by done.
    rewrite length_rows_described, (length_rows_graded _ _ Hg).
    unfold prepared. rewrite !length_rows_converted, !length_rows_with_raw.
    apply length_rows_rename_labels.
  - apply column_identified.
  - exists ys. rewrite !column_identified_ne by done.
    rewrite column_setitem_ne by done. rewrite column_setitem_eq by done.
    split; [|done]. rewrite column_described.
    destruct (has_column d2 "violation_description"); [by rewrite H1|by rewrite H2].
  - intros Hd. rewrite Hcols in Hd. cbn in Hd. rewrite !orb_false_r in Hd.
    rewrite column_identified_ne, column_setitem_ne, column_described_ne by done.
    rewrite (column_graded_ne _ _ _ Hg) by done.
    unfold prepared in Hd. rewrite !has_column_converted in Hd. unfold prepared.
    rewrite column_converted_ne by done. rewrite column_converted_eq by done.
    by eexists.
Qed.

(** X17: Called on the caller's frame, the function returns that same object:
    the frame the caller holds is the one that has been normalised, and no
    other object is touched or created. *)
Theorem standardize_changes_its_argument st l df r st' :
  st !! l = Some df →
  standardize py_str to_numeric parse_datetime l st = (r, st') →
  ∀ l', r = Ok l' →
    l' = l ∧ ∃ out, normalized'' df = Ok out ∧ st' = <[l := out]> st.
Proof.
  intros Hl Hrun l' ->. pose proof (standardize_run py_str to_numeric
    parse_datetime st l df Hl) as H.
  unfold wp in H. rewrite Hrun in H. simpl in H.
  destruct H as (-> & out & Hout & ->). split; [done|]. exists out.
  by rewrite normalized_run.
Qed.

Lemma cells_of_columns {A} d c1 c2 (f1 f2 : A → Cell) xs v :
  column d c1 = f1 <$> xs → column d c2 = f2 <$> xs → v ∈ rows d →
  ∃ x, cell v c1 = f1 x ∧ cell v c2 = f2 x.
Proof.
  intros H1 H2 [i Hi]%list_elem_of_lookup.
  assert (E1 : column d c1 !! i = Some (cell v c1)).
  { unfold column. by rewrite (list_lookup_fmap (λ r, cell r c1)), Hi. }
  assert (E2 : column d c2 !! i = Some (cell v c2)).
  { unfold column. by rewrite (list_lookup_fmap (λ r, cell r c2)), Hi. }
  rewrite H1, list_lookup_fmap in E1. rewrite H2, list_lookup_fmap in E2.
  destruct (xs !! i) as [x|]; [|done]. simpl in *. exists x. split; congruence.
Qed.

(** X18: The normalised frame has as many rows as the table read, and on every
    row an identifier and a description that are text (never missing), a
    critical flag that is a bool, namely whether the description, in lower
    case, mentions one of the keywords, and, in an inspection_date column,
    a date or a missing value. *)
Theorem normalized_frame_is_typed df out :
  normalized'' df = Ok out →
  length (rows out) = length (rows df) ∧
  has_column out "camis" = true ∧
  has_column out "violation_description" = true ∧
  has_column out "is_critical_description" = true ∧
  ∀ v, v ∈ rows out →
    (∃ id, cell v "camis" = Str id) ∧
    (∃ s, cell v "violation_description" = Str s ∧
          cell v "is_critical_description" = Bool (mentions_critical (lower s))) ∧
    (has_column out "inspection_date" = true →
       is_date_or_na (cell v "inspection_date") = true).
Proof.
  intros (Hlen & Hcols & [xs Hid] & (ys & Hvd & Hcrit) & Hdate)%normalized_columns.
  split; [done|].
  split; [rewrite Hcols; cbn; by rewrite ?orb_true_r|].
  split; [rewrite Hcols; cbn; by rewrite ?orb_true_r|].
  split; [rewrite Hcols; cbn; by rewrite ?orb_true_r|].
  intros v Hv. split; [|split].
  - destruct (cells_of_columns out _ _ _ _ xs v Hid Hid Hv) as (x & -> & _).
    by eexists.
  - destruct (cells_of_columns out _ _ _ _ ys v Hvd Hcrit Hv) as (y & -> & ->).
    by eexists.
  - intros [zs Hzs]%Hdate.
    destruct (cells_of_columns out _ _ _ _ zs v Hzs Hzs Hv) as (z & -> & _).
    apply is_date_or_na_to_datetime.
Qed.

(** X19: The RAW_ copies hold the values as they were read: for each of
    violation_description, grade, score and inspection_date that the table
    has (under a label that is the name once stripped), the column
    RAW_<name> of the normalised frame is the column read, untouched by the
    conversions that follow. *)
Theorem raw_columns_keep_loaded_values df out c :
  normalized'' df = Ok out → c ∈ columns df → strip c ∈ RAW_FIELDS →
  column out ("RAW_" +:+ strip c) = column df c.
Proof.
  rewrite normalized_run.
  intros (Hnd & d2 & ys & Hg & Hlen & _ & _ & ->)%standardize_frames_inv Hc Hf.
  pose proof (has_column_renamed df c Hc) as Hr0.
  pose proof (column_rename_labels strip df c Hnd Hc) as Hcol0.
  assert (Lf : length ((λ y, is_critical (astype_str py_str y)) <$> ys)
               = length (rows (described py_str d2))).
  { by rewrite length_fmap, length_rows_described. }
  revert Hr0 Hcol0 Hf. generalize (strip c). intros col Hr0 Hcol0 Hf.
  unfold RAW_FIELDS in Hf.
  assert (Hlast : ∀ name,
            name ∈ ["RAW_violation_description"; "RAW_grade"; "RAW_score";
                    "RAW_inspection_date"] →
            column (identified py_str
                      (setitem (described py_str d2) "is_critical_description"
                         ((λ y, is_critical (astype_str py_str y)) <$> ys))) name
            = column (with_raw "inspection_date"
                        (with_raw "score"
                           (with_raw "grade"
                              (with_raw "violation_description"
                                 (rename_labels strip df))))) name).
  { intros name Hname.
    assert (name ≠ "camis" ∧ name ≠ "is_critical_description" ∧
            name ≠ "violation_description" ∧ name ≠ "grade" ∧ name ≠ "score" ∧
            name ≠ "inspection_date") as (N1 & N2 & N3 & N4 & N5 & N6).
    { repeat split; intros ->; revert Hname; set_solver. }
    rewrite column_identified_ne by done.
    rewrite column_setitem_ne by (done || congruence).
    rewrite column_described_ne by done.
    rewrite (column_graded_ne _ _ _ Hg) by done.
    unfold prepared. by rewrite !column_converted_ne by done. }
  apply elem_of_cons in Hf as [->|Hf].
  { rewrite Hlast by set_solver.
    rewrite !column_with_raw_ne by done.
    by rewrite column_with_raw_eq. }
  apply elem_of_cons in Hf as [->|Hf].
  { rewrite Hlast by set_solver.
    rewrite !(column_with_raw_ne _ _ ("RAW_" +:+ "grade")) by done.
    rewrite column_with_raw_eq by (by rewrite has_column_with_raw, Hr0).
    by rewrite column_with_raw_ne. }
  apply elem_of_cons in Hf as [->|Hf].
  { rewrite Hlast by set_solver.
    rewrite (column_with_raw_ne "inspection_date") by done.
    rewrite column_with_raw_eq by (by rewrite !has_column_with_raw, Hr0).
    by rewrite !column_with_raw_ne. }
  apply list_elem_of_singleton in Hf as ->.
  rewrite Hlast by set_solver.
  rewrite column_with_raw_eq by (by rewrite !has_column_with_raw, Hr0).
  by rewrite !column_with_raw_ne.
Qed.

Lemma forallb_fmap {A B} (p : B → bool) (f : A → B) (l : list A) :
  (∀ x, p (f x) = true) → forallb p (f <$> l) = true.
Proof. intros H. induction l as [|x l IH]; csimpl; [done|]. by rewrite H, IH. Qed.

(** X20: The History Builder accepts a normalised frame exactly when the frame
    has the inspection_date, score, grade and action columns: the
    identifier, the description and the critical flag are always there, and
    the keys always have the types the grouping needs. *)
Theorem normalized_frame_feeds_history df out :
  normalized'' df = Ok out →
  ((∃ h, history out = Ok h) ↔
   ∀ c, c ∈ ["inspection_date"; "score"; "grade"; "action"] →
        has_column out c = true).
Proof.
  intros (Hlen & Hcols & [xs Hid] & (ys & Hvd & Hcrit) & Hdate)%normalized_columns.
  split.
  - intros [h Hok%history_Ok_inv] c Hc. unfold history_ok in Hok.
    apply andb_true_iff in Hok as [Hin _]. rewrite forallb_forall in Hin.
    apply Hin. unfold agg_inputs, date_col.
    repeat (apply elem_of_cons in Hc as [->|Hc]; [simpl; auto 10|]).
    by apply elem_of_nil in Hc.
  - intros Hfour. exists (history_value out). apply history_Ok.
    unfold history_ok. apply andb_true_iff. split.
    + assert (Hthree : ∀ c', c' ∈ ["camis"; "violation_description";
                                   "is_critical_description"] →
                             has_column out c' = true).
      { intros c' Hc'. rewrite Hcols.
        apply elem_of_cons in Hc' as [->|Hc']; [cbn; by rewrite ?orb_true_r|].
        apply elem_of_cons in Hc' as [->|Hc']; [cbn; by rewrite ?orb_true_r|].
        apply list_elem_of_singleton in Hc' as ->. cbn. by rewrite ?orb_true_r. }
      assert (Hcc : has_column out (count_column out) = true).
      { unfold count_column.
        destruct (has_column out "violation_code") eqn:Hvc; [exact Hvc|].
        apply Hthree, list_elem_of_further, list_elem_of_here. }
      apply forallb_forall. intros c Hc. unfold agg_inputs in Hc.
      destruct Hc as [<-|[<-|[<-|[<-|[<-|[<-|[<-|[]]]]]]]].
      * apply Hthree, list_elem_of_here.
      * apply Hfour, list_elem_of_here.
      * exact Hcc.
      * apply Hthree. do 2 apply list_elem_of_further. apply list_elem_of_here.
      * apply Hfour, list_elem_of_further, list_elem_of_here.
      * apply Hfour. do 2 apply list_elem_of_further. apply list_elem_of_here.
      * apply Hfour. do 3 apply list_elem_of_further. apply list_elem_of_here.
    + unfold key_dtype_ok, camis_col, date_col. apply andb_true_iff. split.
      * rewrite Hid. by apply forallb_fmap.
      * destruct (Hdate (Hfour _ ltac:(by left))) as [zs ->].
        apply forallb_fmap, is_date_or_na_to_datetime.
Qed.

(** X21: A table of text whose labels stay distinct once stripped is always
    normalised: no statement of the function raises on it. *)
Theorem text_tables_are_normalized df :
  NoDup (strip <$> columns df) →
  (∀ c, c ∈ columns df → strip c = "grade" →
        forallb is_str_or_na (column df c) = true) →
  ∃ out, normalized'' df = Ok out.
Proof.
  intros Hnd Hgrade. rewrite normalized_run. unfold standardize_frames.
  rewrite bool_decide_eq_true_2 by done.
  assert (Hg : ∃ d2, graded (prepared to_numeric parse_datetime df) = Ok d2).
  { unfold graded.
    destruct (has_column (prepared to_numeric parse_datetime df) "grade") eqn:E;
      [|by eexists].
    rewrite has_column_prepared in E by (unfold RAW_FIELDS; set_solver).
    apply bool_decide_eq_true in E. unfold rename_labels in E; cbn [columns] in E.
    apply list_elem_of_fmap in E as (c & Hs & Hc).
    assert (column (prepared to_numeric parse_datetime df) "grade" = column df c)
      as ->.
    { unfold prepared. rewrite !column_converted_ne, !column_with_raw_ne by done.
      rewrite Hs. by apply column_rename_labels. }
    destruct (str_method_Ok grade_of "grade" (column df c)) as [g ->];
      [by apply Hgrade|].
    by eexists. }
  destruct Hg as [d2 ->]. cbn [rbind].
  destruct (flagged_critical_described py_str d2) as (ys & _ & _ & -> & _).
  by eexists.
Qed.
End NormalizerTheorems.

(** ** The further properties on the sample frames *)

Section MoreSamples.
Import Features Hygiene HygieneValue Aggregate Panel Cleaning Standardize Pipeline.
Import Extra Examples MoreExamples.

Ltac members H :=
  repeat (apply elem_of_cons in H as [->|H]);
  try (by apply elem_of_nil in H).

Lemma history_frame_shape_witness :
  columns inspections_history =
    ["camis"; "inspection_date"; "violation_count"; "critical_violations";
     "score"; "grade"; "action"; "inspection_number"; "prev_inspection_date";
     "days_since_prev"] ∧
  (∃ ks : list Key,
     map (key_of camis_col date_col) (rows inspections_history) = map Some ks ∧
     StronglySorted key_lt ks) ∧
  (length (rows inspections_history) ≤ length (rows inspections))%nat.
Proof.
  apply (history_frame_shape inspections inspections_history).
  vm_compute. reflexivity.
Defined.

Lemma lag_is_never_negative_witness :
  let v := visit (Str "E1") mar15 1 0 (Float 10) 2 jan10 (Int 64) in
  (cell v "inspection_number" = Int 1 ∧
   cell v "prev_inspection_date" = NA ∧ cell v "days_since_prev" = NA) ∨
  (∃ n p t d,
     cell v "inspection_number" = Int n ∧ 1 < n ∧
     cell v "prev_inspection_date" = Date p ∧ cell v date_col = Date t ∧ p < t ∧
     cell v "days_since_prev" = Int d ∧ 0 ≤ d).
Proof.
  apply (lag_is_never_negative inspections inspections_history);
    [vm_compute; reflexivity|].
  do 2 apply list_elem_of_further. apply list_elem_of_here.
Defined.

Lemma first_value_in_input_order_witness :
  let v := visit (Str "E1") jan10 2 2 (Float 50) 1 NA NA in
  ∃ c d,
    cell v camis_col = Str c ∧ cell v date_col = Date d ∧
    let g := group_rows camis_col date_col (rows inspections) (c, d) in
    cell v "score" = agg_first (map (λ r, cell r "score") g) ∧
    cell v "grade" = agg_first (map (λ r, cell r "grade") g) ∧
    cell v "action" = agg_first (map (λ r, cell r "action") g).
Proof.
  apply (first_value_in_input_order inspections inspections_history);
    [vm_compute; reflexivity|].
  apply list_elem_of_further, list_elem_of_here.
Defined.

Lemma critical_violations_counts_flagged_witness :
  let v := visit (Str "E1") jan10 2 2 (Float 50) 1 NA NA in
  ∃ c d,
    cell v camis_col = Str c ∧ cell v date_col = Date d ∧
    cell v "critical_violations" =
      Int (Z.of_nat (length (List.filter flagged
             (group_rows camis_col date_col (rows inspections) (c, d))))).
Proof.
  apply (critical_violations_counts_flagged inspections inspections_history);
    [vm_compute; reflexivity|apply list_elem_of_further, list_elem_of_here|].
  intros r Hr. unfold inspections in Hr. cbn [rows] in Hr.
  members Hr; eexists; vm_compute; reflexivity.
Defined.

Lemma violation_counts_add_up_witness :
  agg_sum (column inspections_history "violation_count")
  = Z.of_nat (length (List.filter
      (λ r, has_key r
            && notna (cell r (if has_column inspections "violation_code"
                              then "violation_code" else "violation_description")))
      (rows inspections))).
Proof.
  apply (violation_counts_add_up inspections inspections_history).
  vm_compute. reflexivity.
Defined.

Lemma history_requires_aggregated_columns_witness :
  ∃ c', has_column ungraded c' = false ∧ history ungraded = Err (KeyError c').
Proof.
  apply (history_requires_aggregated_columns ungraded "grade");
    [vm_compute; reflexivity| |vm_compute; reflexivity].
  do 5 apply list_elem_of_further. apply list_elem_of_here.
Defined.

Lemma pipeline_stops_at_aggregation_witness :
  ∃ e st',
    establishment_panel no_text_dates month_start 0%nat {[ 0%nat := inspections ]}
      = (Err e, st') ∧
    st' !! 0%nat = Some inspections ∧
    (∀ h idx, history inspections = Ok h → hygiene h = Ok idx →
              e = KeyError "zipcode").
Proof.
  apply (pipeline_stops_at_aggregation no_text_dates month_start
           {[ 0%nat := inspections ]} 0%nat inspections).
  reflexivity.
Defined.

Lemma unscored_frames_get_no_index_witness :
  ∃ out, hygiene unscored = Ok out ∧
    ∀ col c, col ∈ ["score_filled"; "hygiene_index_raw"; "hygiene_index"] →
      c ∈ column out col → isna c = true.
Proof.
  eexists. split; [vm_compute; reflexivity|].
  apply (unscored_frames_get_no_index unscored); [vm_compute; reflexivity|].
  intros c Hc. vm_compute in Hc. members Hc; reflexivity.
Defined.

Lemma history_can_be_indexed_witness :
  ∃ idx, hygiene inspections_history = Ok idx ∧
         length (rows idx) = length (rows inspections_history).
Proof.
  apply (history_can_be_indexed inspections inspections_history);
    [vm_compute; reflexivity| |].
  - intros r Hr. unfold inspections in Hr. cbn [rows] in Hr.
    members Hr; vm_compute; reflexivity.
  - intros r Hr. unfold inspections in Hr. cbn [rows] in Hr.
    members Hr; eexists; vm_compute; reflexivity.
Defined.

Lemma panel_has_one_row_per_cell_witness :
  (∃ ks : list Key,
     map (key_of ZIP_COL "period") (rows located_panel) = map Some ks ∧
     StronglySorted key_lt ks) ∧
  (∀ r z t, r ∈ rows located_visits → cell r ZIP_COL = Str z →
     to_datetime no_text_dates (cell r DATE_COL) = Date t →
     ∃ v, v ∈ rows located_panel ∧ cell v ZIP_COL = Str z ∧
          cell v "period" = Date (month_start t)).
Proof.
  apply (panel_has_one_row_per_cell no_text_dates month_start located_visits
           located_panel).
  vm_compute. reflexivity.
Defined.

Lemma inspections_counts_numbered_rows_witness :
  ∃ v, v ∈ rows located_panel ∧
    cell v "inspections" =
      Int (Z.of_nat (length (List.filter
             (λ r, bool_decide (panel_key no_text_dates month_start r
                                = Some ("10001", 19358 * NANOS_PER_DAY))
                   && notna (cell r "inspection_number")) (rows located_visits)))).
Proof.
  eexists. split; [apply list_elem_of_here|].
  apply (inspections_counts_numbered_rows no_text_dates month_start located_visits
           located_panel);
    [vm_compute; reflexivity|apply list_elem_of_here|reflexivity|reflexivity].
Defined.

Lemma aggregate_requires_its_columns_witness :
  ∃ c', has_column inspections_history c' = false ∧
        aggregate no_text_dates month_start inspections_history
          = Err (KeyError c').
Proof.
  apply (aggregate_requires_its_columns no_text_dates month_start
           inspections_history "zipcode"); [|vm_compute; reflexivity].
  apply list_elem_of_further, list_elem_of_here.
Defined.

Lemma resolved_zip_has_five_characters_witness :
  ∃ out,
    spatially_join_zip no_str numeric sjoin_boxes geo_records (Some zip_areas)
      = Ok out ∧
    ∀ c, c ∈ column out "zipcode" → ∃ s, c = Str s ∧ String.length s = 5%nat.
Proof.
  eexists. split; [vm_compute; reflexivity|].
  apply (resolved_zip_has_five_characters no_str numeric sjoin_boxes geo_records
           (Some zip_areas)); vm_compute; reflexivity.
Defined.

Lemma zip_from_fields_is_idempotent_witness :
  spatially_join_zip no_str numeric sjoin_boxes
    (from_fields no_str geo_records) None
  = Ok (from_fields no_str geo_records).
Proof.
  apply (zip_from_fields_is_idempotent no_str numeric sjoin_boxes geo_records).
  reflexivity.
Defined.

Lemma standardize_changes_its_argument_witness :
  let run := standardize no_str sample_numbers sample_dates 0%nat
               {[ 0%nat := raw_table ]} in
  0%nat = 0%nat ∧
  ∃ out, normalized no_str sample_numbers sample_dates raw_table = Ok out ∧
         run.2 = <[ 0%nat := out ]> {[ 0%nat := raw_table ]}.
Proof.
  intros run.
  apply (standardize_changes_its_argument no_str sample_numbers sample_dates
           {[ 0%nat := raw_table ]} 0%nat raw_table run.1 run.2);
    [reflexivity|apply surjective_pairing|vm_compute; reflexivity].
Defined.

Lemma normalized_frame_is_typed_witness :
  ∃ out, normalized no_str sample_numbers sample_dates raw_table = Ok out ∧
    length (rows out) = length (rows raw_table) ∧
    has_column out "camis" = true ∧
    has_column out "violation_description" = true ∧
    has_column out "is_critical_description" = true ∧
    ∀ v, v ∈ rows out →
      (∃ id, cell v "camis" = Str id) ∧
      (∃ s, cell v "violation_description" = Str s ∧
            cell v "is_critical_description" = Bool (mentions_critical (lower s))) ∧
      (has_column out "inspection_date" = true →
         is_date_or_na (cell v "inspection_date") = true).
Proof.
  eexists. split; [vm_compute; reflexivity|].
  apply (normalized_frame_is_typed no_str sample_numbers sample_dates raw_table).
  vm_compute. reflexivity.
Defined.

Lemma raw_columns_keep_loaded_values_witness :
  ∃ out, normalized no_str sample_numbers sample_dates raw_table = Ok out ∧
    column out ("RAW_" +:+ strip "inspection_date ")
    = column raw_table "inspection_date ".
Proof.
  eexists. split; [vm_compute; reflexivity|].
  apply (raw_columns_keep_loaded_values no_str sample_numbers sample_dates
           raw_table); [vm_compute; reflexivity| |].
  - apply list_elem_of_further, list_elem_of_here.
  - do 3 apply list_elem_of_further. apply list_elem_of_here.
Defined.

Lemma normalized_frame_feeds_history_witness :
  ∃ out, normalized no_str sample_numbers sample_dates raw_table = Ok out ∧
    ((∃ h, history out = Ok h) ↔
     ∀ c, c ∈ ["inspection_date"; "score"; "grade"; "action"] →
          has_column out c = true).
Proof.
  eexists. split; [vm_compute; reflexivity|].
  apply (normalized_frame_feeds_history no_str sample_numbers sample_dates
           raw_table).
  vm_compute. reflexivity.
Defined.

Lemma text_tables_are_normalized_witness :
  ∃ out, normalized no_str sample_numbers sample_dates raw_table = Ok out.
Proof.
  apply (text_tables_are_normalized no_str sample_numbers sample_dates raw_table).
  - apply (bool_decide_unpack _). vm_compute. exact I.
  - intros c Hc Hs. vm_compute in Hc.
    members Hc; try (vm_compute in Hs; discriminate Hs).
    vm_compute. reflexivity.
Defined.
Lemma missing_zip_is_aggregated_witness :
  ∃ out,
    aggregate no_text_dates month_start (from_fields no_str located_visits)
      = Ok out ∧
    ∃ v, v ∈ rows out ∧ cell v ZIP_COL = Str "00nan" ∧
         cell v "period" = Date (month_start (19367 * NANOS_PER_DAY)).
Proof.
  eexists. split; [vm_compute; reflexivity|].
  apply (missing_zip_is_aggregated no_str numeric sjoin_boxes no_text_dates
           month_start located_visits (from_fields no_str located_visits) _
           (located_visit (Str "E2") NA jan10 50) (19367 * NANOS_PER_DAY));
    [reflexivity|reflexivity|vm_compute; reflexivity| |reflexivity|reflexivity].
  apply list_elem_of_further, list_elem_of_here.
Defined.
End MoreSamples.
